(** * Video proctoring: signal-to-event reduction and integrity scoring

    A shallow embedding of the interview page (src/app/page.tsx), its three
    hooks (useFaceDetection, useObjectDetection, useEventLogging), the
    configuration constants and the report page, followed by the properties
    of the deduplicated event stream, the integrity score and the session
    report.

    Conventions of the embedding.
    - Times are [Z], milliseconds since the epoch, as [Date.now()] gives them.
      A callback receives as [now] the reading of the [const now =
      Date.now()] with which it begins; a callback of a hook and the
      handler of the page that it invokes are given the same reading.
      [addEvent] reads the clock afresh, once for the id and once for the
      timestamp of each event that it creates: these readings are taken,
      in order, from the [clock] that the page carries, and nothing is
      assumed of how they compare with [now] or with each other.
    - React state is a record; [setX (fun prev => ...)] is the functional
      update of the source.
    - A [useRef] cell is a record field whose name is the one of the ref.
    - [try]/[catch] is the [Completion] monad below.
    - Confidence scores are binary64 numbers, as in JavaScript. *)

From Stdlib Require Import ZArith Floats Bool List Lia.
From stdpp Require Import gmap strings pretty list.
Import ListNotations.

Set Warnings "-inexact-float".
Set Default Proof Using "Type".
Open Scope string_scope.
Open Scope list_scope.
Open Scope Z_scope.

(** ** Completions: a value, or a thrown error *)

Inductive Completion (A : Type) : Type :=
| Returned (a : A)
| Thrown (reason : string).
Arguments Returned {A} a.
Arguments Thrown {A} reason.

#[global] Instance Completion_ret : MRet Completion := fun A a => Returned a.

#[global] Instance Completion_bind : MBind Completion := fun A B k c =>
  match c with
  | Returned a => k a
  | Thrown e => Thrown e
  end.

Definition tryCatch {A} (body : Completion A) (handler : string -> Completion A) : Completion A :=
  match body with
  | Returned a => Returned a
  | Thrown e => handler e
  end.

(** ** src/config/constants.ts *)

Module DETECTION_CONFIG.
Definition FACE_ABSENT_THRESHOLD : Z := 10000.
Definition LOOKING_AWAY_THRESHOLD : Z := 5000.
Definition OBJECT_DETECTION_INTERVAL : Z := 3000.
Definition CONFIDENCE_THRESHOLD : float := 0.6%float.

Module SCORE_DEDUCTIONS.
Definition LOOKING_AWAY : Z := 5.
Definition FACE_ABSENT : Z := 10.
Definition MULTIPLE_FACES : Z := 15.
Definition PHONE_DETECTED : Z := 20.
Definition BOOK_DETECTED : Z := 20.
End SCORE_DEDUCTIONS.

Module EVENT_COOLDOWN.
Definition FACE_EVENTS : Z := 5000.
Definition OBJECT_EVENTS : Z := 10000.
End EVENT_COOLDOWN.
End DETECTION_CONFIG.

Definition TARGET_OBJECTS : list string :=
  ["cell phone"; "book"; "laptop"; "mouse"; "keyboard"].

(** The union of string literals of [ProctoringEvent["type"]]. *)
Inductive EventType : Type :=
| face_absent
| looking_away
| multiple_faces
| phone_detected
| book_detected.

Module EVENT_TYPES.
Definition FACE_ABSENT := face_absent.
Definition LOOKING_AWAY := looking_away.
Definition MULTIPLE_FACES := multiple_faces.
Definition PHONE_DETECTED := phone_detected.
Definition BOOK_DETECTED := book_detected.
End EVENT_TYPES.

Inductive Severity : Type := low | medium | high.

#[global] Instance EventType_eq_dec : EqDecision EventType.
Proof. solve_decision. Defined.

#[global] Instance Severity_eq_dec : EqDecision Severity.
Proof. solve_decision. Defined.

(** ** src/hooks/useEventLogging.ts *)

Module EventLogging.

(** The argument of [logEvent]. *)
Record ProctoringEvent : Type := {
  type : EventType;
  description : string;
  severity : Severity;
  timestamp : option Z
}.

(** The body of the POST request: the event, the interview id and a
    timestamp. *)
Record RequestBody : Type := {
  body_type : EventType;
  body_description : string;
  body_severity : Severity;
  body_interviewId : string;
  body_timestamp : Z
}.

(** What the route answers on success. *)
Record LogResult : Type := {
  success : bool;
  id : string;
  message : string
}.

(** What [fetch] does with a request: it rejects, or it resolves to a
    response with its [ok] flag and what [response.json()] gives. *)
Inductive FetchOutcome : Type :=
| Rejects (reason : string)
| Resolves (ok : bool) (json : Completion LogResult).

Definition Fetch : Type := RequestBody -> FetchOutcome.

Definition logEvent (interviewId : string) (fetch : Fetch) (now : Z)
    (event : ProctoringEvent) : Completion (option LogResult) :=
  tryCatch
    (match fetch {| body_type := type event;
                    body_description := description event;
                    body_severity := severity event;
                    body_interviewId := interviewId;
                    body_timestamp := default now (timestamp event) |} with
     | Rejects e => Thrown e
     | Resolves ok json =>
         if negb ok then Thrown "Failed to log event"
         else result ← json; mret (Some result)
     end)
    (fun _ => Returned None).

End EventLogging.

(** ** src/hooks/useFaceDetection.ts *)

Module FaceDetection.

(** One landmark of a face mesh, and the mesh of one face. *)
Record Landmark : Type := { x : float; y : float; z : float }.

Definition FaceLandmarks : Type := list Landmark.

(** The argument of the [onResults] callback; [multiFaceLandmarks] may
    be undefined. *)
Record Results : Type := {
  multiFaceLandmarks : option (list FaceLandmarks)
}.

Record FaceDetectionResult : Type := {
  hasFace : bool;
  faceCount : nat;
  isLookingAway : bool;
  landmarks : option (list FaceLandmarks)
}.

(** The refs of the hook that the callback reads and writes. *)
Record Refs : Type := {
  lastFaceTimeRef : Z;
  lastLookingAwayTimeRef : Z;
  isModelReadyRef : bool
}.

(** [useRef(Date.now())] twice and [useRef(false)], evaluated when the
    component that uses the hook is first rendered. *)
Definition useFaceDetection (now : Z) : Refs :=
  {| lastFaceTimeRef := now; lastLookingAwayTimeRef := now;
     isModelReadyRef := false |}.

Definition setLastFaceTime (t : Z) (r : Refs) : Refs :=
  {| lastFaceTimeRef := t; lastLookingAwayTimeRef := lastLookingAwayTimeRef r;
     isModelReadyRef := isModelReadyRef r |}.

Definition setLastLookingAwayTime (t : Z) (r : Refs) : Refs :=
  {| lastFaceTimeRef := lastFaceTimeRef r; lastLookingAwayTimeRef := t;
     isModelReadyRef := isModelReadyRef r |}.

(** The end of [initializeFaceMesh], on the MediaPipe path and on the
    fallback path alike. *)
Definition initializeFaceMesh (r : Refs) : Refs :=
  {| lastFaceTimeRef := lastFaceTimeRef r;
     lastLookingAwayTimeRef := lastLookingAwayTimeRef r;
     isModelReadyRef := true |}.

Definition faceThreshold : Z := DETECTION_CONFIG.FACE_ABSENT_THRESHOLD.
Definition lookingAwayThreshold : Z := DETECTION_CONFIG.LOOKING_AWAY_THRESHOLD.

Definition hasFaceOf (results : Results) : bool :=
  match multiFaceLandmarks results with
  | Some faces => (0 <? length faces)%nat
  | None => false
  end.

Definition faceCountOf (results : Results) : nat :=
  match multiFaceLandmarks results with
  | Some faces => length faces
  | None => 0%nat
  end.

(** The callback given to [faceMesh.onResults], in the version that
    refreshes the looking-away timer. It returns the refs and the
    argument of the call of [onFaceDetection], when one is made. *)
Definition onResults (isActive : bool) (now : Z) (results : Results)
    (r : Refs) : Refs * option FaceDetectionResult :=
  if negb isActive || negb (isModelReadyRef r) then (r, None)
  else
    let hasFace := hasFaceOf results in
    let faceCount := faceCountOf results in
    let r1 := if hasFace then setLastFaceTime now r else r in
    if (1 <? faceCount)%nat then
      (r1, Some {| hasFace := true; faceCount := faceCount;
                   isLookingAway := false;
                   landmarks := multiFaceLandmarks results |})
    else
      let called :=
        if negb hasFace then
          if faceThreshold <? now - lastFaceTimeRef r1 then
            Some {| hasFace := false; faceCount := 0%nat;
                    isLookingAway := false; landmarks := None |}
          else None
        else None in
      let r2 := if hasFace then setLastLookingAwayTime now r1 else r1 in
      (r2, called).

(** The same callback in the version of the hook that has no
    looking-away timer refresh. *)
Definition onResults_plain (isActive : bool) (now : Z) (results : Results)
    (r : Refs) : Refs * option FaceDetectionResult :=
  if negb isActive || negb (isModelReadyRef r) then (r, None)
  else
    let hasFace := hasFaceOf results in
    let faceCount := faceCountOf results in
    let r1 := if hasFace then setLastFaceTime now r else r in
    if (1 <? faceCount)%nat then
      (r1, Some {| hasFace := true; faceCount := faceCount;
                   isLookingAway := false;
                   landmarks := multiFaceLandmarks results |})
    else if negb hasFace then
      if faceThreshold <? now - lastFaceTimeRef r1 then
        (r1, Some {| hasFace := false; faceCount := 0%nat;
                     isLookingAway := false; landmarks := None |})
      else (r1, None)
    else (r1, None).

(** The callback of the fallback [MockFaceMesh]: the multiple-faces
    branch returns before the timer is refreshed. *)
Definition mockOnResults (isActive : bool) (now : Z) (results : Results)
    (r : Refs) : Refs * option FaceDetectionResult :=
  if negb isActive || negb (isModelReadyRef r) then (r, None)
  else
    let hasFace := hasFaceOf results in
    let faceCount := faceCountOf results in
    if (1 <? faceCount)%nat then
      (r, Some {| hasFace := true; faceCount := faceCount;
                  isLookingAway := false;
                  landmarks := multiFaceLandmarks results |})
    else if negb hasFace then
      if faceThreshold <? now - lastFaceTimeRef r then
        (r, Some {| hasFace := false; faceCount := 0%nat;
                    isLookingAway := false; landmarks := None |})
      else (r, None)
    else (setLastFaceTime now r, None).

End FaceDetection.

(** ** src/hooks/useFaceDetection.ts: the fallback mesh *)

Module MockFaceMesh.

(** A whole number below 2^53 as a JavaScript number. *)
Definition toNumber (n : Z) : float := PrimFloat.of_uint63 (Uint63.of_Z n).

Definition cycleTime : Z := 120000.

(** [(time % cycleTime) / cycleTime] *)
Definition cyclePosition (time : Z) : float :=
  PrimFloat.div (toNumber (Z.rem time cycleTime)) (toNumber cycleTime).

(** [Array.from({ length: 468 }, () => ({ x, y, z }))] *)
Definition constantFace (x y z : float) : FaceDetection.FaceLandmarks :=
  replicate 468 {| FaceDetection.x := x; FaceDetection.y := y; FaceDetection.z := z |}.

(** The results that [simulateDetection] hands to the callback at [time],
    in the version of the hook with constant landmarks. *)
Definition simulateDetection (time : Z) : FaceDetection.Results :=
  let cyclePosition := cyclePosition time in
  if PrimFloat.ltb cyclePosition 0.95%float then
    {| FaceDetection.multiFaceLandmarks :=
         Some [constantFace 0.5%float 0.5%float 0%float] |}
  else if PrimFloat.ltb cyclePosition 0.98%float then
    {| FaceDetection.multiFaceLandmarks := Some [] |}
  else
    {| FaceDetection.multiFaceLandmarks :=
         Some [constantFace 0.3%float 0.5%float 0%float;
               constantFace 0.7%float 0.5%float 0%float] |}.

End MockFaceMesh.

(** ** src/hooks/useObjectDetection.ts *)

Module ObjectDetection.

Definition BBox : Type := (float * float * float * float)%type.

(** A prediction of the COCO-SSD model. *)
Record Prediction : Type := {
  pred_class : string;
  score : float;
  pred_bbox : BBox
}.

Record DetectionResult : Type := {
  class : string;
  confidence : float;
  bbox : BBox
}.

Definition TARGET_CLASSES : list string := TARGET_OBJECTS.

(** [Array.prototype.includes] on strings. *)
Definition includes (l : list string) (s : string) : bool :=
  existsb (String.eqb s) l.

(** [prediction.score >= DETECTION_CONFIG.CONFIDENCE_THRESHOLD] *)
Definition aboveThreshold (p : Prediction) : bool :=
  PrimFloat.leb DETECTION_CONFIG.CONFIDENCE_THRESHOLD (score p).

Definition isTarget (p : Prediction) : bool :=
  includes TARGET_CLASSES (pred_class p) && aboveThreshold p.

Definition toDetectionResult (p : Prediction) : DetectionResult :=
  {| class := pred_class p; confidence := score p;
     bbox := let '(x0, y0, width, height) := pred_bbox p in
             (x0, y0, width, height) |}.

(** [predictions.filter(...).map(...)] *)
Definition targetDetections (predictions : list Prediction) : list DetectionResult :=
  map toDetectionResult (List.filter isTarget predictions).

Record Refs : Type := {
  modelRef : bool;
  isDetectingRef : bool;
  isModelReadyRef : bool
}.

Definition useObjectDetection : Refs :=
  {| modelRef := false; isDetectingRef := false; isModelReadyRef := false |}.

(** [loadModel]: nothing changes when the model is already there or
    when loading throws. *)
Definition loadModel (loaded : bool) (r : Refs) : Refs :=
  if modelRef r then r
  else if loaded then
    {| modelRef := true; isDetectingRef := isDetectingRef r;
       isModelReadyRef := true |}
  else r.

Definition setIsDetecting (b : bool) (r : Refs) : Refs :=
  {| modelRef := modelRef r; isDetectingRef := b;
     isModelReadyRef := isModelReadyRef r |}.

(** [runDetection]: [video] says whether [videoRef.current] is set and
    [detect] is how [model.detect] settles. The result carries the
    argument of the call of [onObjectDetection], when one is made. *)
Definition runDetection (video : bool) (detect : Completion (list Prediction))
    (r : Refs) : Refs * option (list DetectionResult) :=
  if negb (modelRef r) || negb video || isDetectingRef r
     || negb (isModelReadyRef r)
  then (r, None)
  else
    let r1 := setIsDetecting true r in
    let called :=
      match detect with
      | Returned predictions =>
          let targetDetections := targetDetections predictions in
          if (0 <? length targetDetections)%nat then Some targetDetections
          else None
      | Thrown _ => None
      end in
    (setIsDetecting false r1, called).

End ObjectDetection.

(** ** sessionStorage and the serialised report *)

Module SessionStorage.

(** A [Date] serialised by [JSON.stringify]: its ISO string, which
    [new Date(...)] reads back to the same millisecond. *)
Inductive IsoString : Type := ISO (ms : Z).

Definition toISOString (d : Z) : IsoString := ISO d.

(** [new Date(s)] for a serialised date, and [new Date(null)], the epoch. *)
Definition newDate (s : option IsoString) : Z :=
  match s with
  | Some (ISO ms) => ms
  | None => 0
  end.

Record StoredEvent : Type := {
  id : string;
  type : EventType;
  timestamp : IsoString;
  severity : Severity;
  description : string
}.

(** The parsed value of the item [currentReport]. *)
Record SessionData : Type := {
  interviewId : string;
  events : list StoredEvent;
  integrityScore : Z;
  duration : Z;
  startTime : option IsoString;
  endTime : IsoString
}.

End SessionStorage.

(** ** The clock of the browser, as [addEvent] reads it

    A callback is given the reading of its own [Date.now()] as [now]. The
    reads that follow, the [Date.now()] and the [new Date()] of
    [addEvent], take their values from a [Clock]: [readings c i] is what
    the [i]-th of them returns and [taken c] counts those made so far. *)

Record Clock : Type := {
  readings : nat -> Z;
  taken : nat
}.

Definition Date_now (c : Clock) : Z * Clock :=
  (readings c (taken c), {| readings := readings c; taken := S (taken c) |}).

(** ** src/app/page.tsx: the interview page *)

Module Interview.

Record ProctoringEvent : Type := {
  id : string;
  type : EventType;
  timestamp : Z;
  severity : Severity;
  description : string
}.

(** The state and the refs of [InterviewPage] that take part in the
    reduction ([detectionStatus] and [initializingDetection] only drive
    the display), and the [clock] that [addEvent] reads. *)
Record State : Type := {
  isProctoring : bool;
  cameraActive : bool;
  events : list ProctoringEvent;
  integrityScore : Z;
  interviewDuration : Z;
  streamRef : bool;
  startTimeRef : option Z;
  lastEventTimeRef : gmap string Z;
  interviewIdRef : string;
  clock : Clock
}.

Definition setIsProctoring (b : bool) (st : State) : State :=
  {| isProctoring := b; cameraActive := cameraActive st; events := events st;
     integrityScore := integrityScore st; interviewDuration := interviewDuration st;
     streamRef := streamRef st; startTimeRef := startTimeRef st;
     lastEventTimeRef := lastEventTimeRef st; interviewIdRef := interviewIdRef st;
     clock := clock st |}.

Definition setCameraActive (b : bool) (st : State) : State :=
  {| isProctoring := isProctoring st; cameraActive := b; events := events st;
     integrityScore := integrityScore st; interviewDuration := interviewDuration st;
     streamRef := streamRef st; startTimeRef := startTimeRef st;
     lastEventTimeRef := lastEventTimeRef st; interviewIdRef := interviewIdRef st;
     clock := clock st |}.

Definition setEvents (f : list ProctoringEvent -> list ProctoringEvent) (st : State) : State :=
  {| isProctoring := isProctoring st; cameraActive := cameraActive st; events := f (events st);
     integrityScore := integrityScore st; interviewDuration := interviewDuration st;
     streamRef := streamRef st; startTimeRef := startTimeRef st;
     lastEventTimeRef := lastEventTimeRef st; interviewIdRef := interviewIdRef st;
     clock := clock st |}.

Definition setIntegrityScore (f : Z -> Z) (st : State) : State :=
  {| isProctoring := isProctoring st; cameraActive := cameraActive st; events := events st;
     integrityScore := f (integrityScore st); interviewDuration := interviewDuration st;
     streamRef := streamRef st; startTimeRef := startTimeRef st;
     lastEventTimeRef := lastEventTimeRef st; interviewIdRef := interviewIdRef st;
     clock := clock st |}.

Definition setInterviewDuration (d : Z) (st : State) : State :=
  {| isProctoring := isProctoring st; cameraActive := cameraActive st; events := events st;
     integrityScore := integrityScore st; interviewDuration := d;
     streamRef := streamRef st; startTimeRef := startTimeRef st;
     lastEventTimeRef := lastEventTimeRef st; interviewIdRef := interviewIdRef st;
     clock := clock st |}.

Definition setStreamRef (b : bool) (st : State) : State :=
  {| isProctoring := isProctoring st; cameraActive := cameraActive st; events := events st;
     integrityScore := integrityScore st; interviewDuration := interviewDuration st;
     streamRef := b; startTimeRef := startTimeRef st;
     lastEventTimeRef := lastEventTimeRef st; interviewIdRef := interviewIdRef st;
     clock := clock st |}.

Definition setStartTime (t : option Z) (st : State) : State :=
  {| isProctoring := isProctoring st; cameraActive := cameraActive st; events := events st;
     integrityScore := integrityScore st; interviewDuration := interviewDuration st;
     streamRef := streamRef st; startTimeRef := t;
     lastEventTimeRef := lastEventTimeRef st; interviewIdRef := interviewIdRef st;
     clock := clock st |}.

(** [lastEventTimeRef.current[eventKey] = now] *)
Definition setLastEventTime (eventKey : string) (now : Z) (st : State) : State :=
  {| isProctoring := isProctoring st; cameraActive := cameraActive st; events := events st;
     integrityScore := integrityScore st; interviewDuration := interviewDuration st;
     streamRef := streamRef st; startTimeRef := startTimeRef st;
     lastEventTimeRef := <[eventKey := now]> (lastEventTimeRef st);
     interviewIdRef := interviewIdRef st;
     clock := clock st |}.

(** The clock after a read. *)
Definition setClock (c : Clock) (st : State) : State :=
  {| isProctoring := isProctoring st; cameraActive := cameraActive st; events := events st;
     integrityScore := integrityScore st; interviewDuration := interviewDuration st;
     streamRef := streamRef st; startTimeRef := startTimeRef st;
     lastEventTimeRef := lastEventTimeRef st; interviewIdRef := interviewIdRef st;
     clock := c |}.

(** The state of a freshly mounted page: [useState] and [useRef]
    initial values. [now] is the reading of [useRef(`interview-${Date.now()}`)]. *)
Definition initial (now : Z) (clock : Clock) : State :=
  {| isProctoring := false; cameraActive := false; events := [];
     integrityScore := 100; interviewDuration := 0;
     streamRef := false; startTimeRef := None; lastEventTimeRef := ∅;
     interviewIdRef := "interview-" +:+ pretty now;
     clock := clock |}.

(** The [switch] of [addEvent]; a type outside the cases keeps the
    initial 0. *)
Definition scoreDeduction (type : EventType) : Z :=
  match type with
  | looking_away => DETECTION_CONFIG.SCORE_DEDUCTIONS.LOOKING_AWAY
  | face_absent => DETECTION_CONFIG.SCORE_DEDUCTIONS.FACE_ABSENT
  | phone_detected
  | book_detected => DETECTION_CONFIG.SCORE_DEDUCTIONS.PHONE_DETECTED
  | multiple_faces => DETECTION_CONFIG.SCORE_DEDUCTIONS.MULTIPLE_FACES
  end.

(** [addEvent]: read the clock for the id ([Date.now()]) and again for
    the timestamp ([new Date()]), append the event, await [logEvent],
    then deduct. The second component is how the returned promise
    settles: were [logEvent] to throw, the deduction would be skipped.
    [logEvent] is given the reading that its own [new Date()] would
    take; the clock is not advanced for it, since [event.timestamp] is
    set and the [||] does not evaluate its right operand. *)
Definition addEvent (fetch : EventLogging.Fetch)
    (type : EventType) (description : string) (severity : Severity)
    (st : State) : State * Completion unit :=
  let '(idNow, clock1) := Date_now (clock st) in
  let '(dateNow, clock2) := Date_now clock1 in
  let newEvent :=
    {| id := pretty idNow; type := type; timestamp := dateNow;
       description := description; severity := severity |} in
  let st1 := setEvents (fun prev => prev ++ [newEvent]) (setClock clock2 st) in
  match EventLogging.logEvent (interviewIdRef st) fetch (Date_now clock2).1
          {| EventLogging.type := type;
             EventLogging.description := description;
             EventLogging.severity := severity;
             EventLogging.timestamp := Some (timestamp newEvent) |} with
  | Thrown e => (st1, Thrown e)
  | Returned _ =>
      let scoreDeduction := scoreDeduction type in
      (setIntegrityScore (fun prev => Z.max 0 (prev - scoreDeduction)) st1,
       Returned tt)
  end.

(** [addDemoEvent]: straight to [addEvent], past the cooldown. *)
Definition addDemoEvent (fetch : EventLogging.Fetch)
    (type : EventType) (description : string) (severity : Severity)
    (st : State) : State * Completion unit :=
  addEvent fetch type description severity st.

(** The condition [lastEventTimeRef.current[eventKey] && now -
    lastEventTimeRef.current[eventKey] < cooldown]: a missing entry is
    [undefined] and a stored 0 is falsy. *)
Definition withinCooldown (eventKey : string) (now cooldown : Z) (st : State) : bool :=
  match lastEventTimeRef st !! eventKey with
  | Some last => negb (last =? 0) && (now - last <? cooldown)
  | None => false
  end.

(** [handleFaceDetection], the [onFaceDetection] callback. The promise
    of [addEvent] is not awaited. *)
Definition handleFaceDetection (fetch : EventLogging.Fetch) (now : Z)
    (result : FaceDetection.FaceDetectionResult) (st : State) : State :=
  if negb (FaceDetection.hasFace result) then
    let eventKey := "face_absent" in
    if withinCooldown eventKey now DETECTION_CONFIG.EVENT_COOLDOWN.FACE_EVENTS st
    then st
    else
      (addEvent fetch face_absent "No face detected in frame" high
         (setLastEventTime eventKey now st)).1
  else if (1 <? FaceDetection.faceCount result)%nat then
    let eventKey := "multiple_faces" in
    if withinCooldown eventKey now DETECTION_CONFIG.EVENT_COOLDOWN.FACE_EVENTS st
    then st
    else
      (addEvent fetch multiple_faces "Multiple faces detected in frame" high
         (setLastEventTime eventKey now st)).1
  else if FaceDetection.isLookingAway result then
    let eventKey := "looking_away" in
    if withinCooldown eventKey now DETECTION_CONFIG.EVENT_COOLDOWN.FACE_EVENTS st
    then st
    else
      (addEvent fetch looking_away "Candidate looked away from screen" medium
         (setLastEventTime eventKey now st)).1
  else st.

(** The body of the [forEach] of [handleObjectDetection]. *)
Definition handleDetection (fetch : EventLogging.Fetch) (now : Z)
    (st : State) (detection : ObjectDetection.DetectionResult) : State :=
  if String.eqb (ObjectDetection.class detection) "cell phone" then
    let eventKey := "phone_detected" in
    if withinCooldown eventKey now DETECTION_CONFIG.EVENT_COOLDOWN.OBJECT_EVENTS st
    then st
    else
      (addEvent fetch phone_detected "Mobile phone detected in frame" high
         (setLastEventTime eventKey now st)).1
  else if String.eqb (ObjectDetection.class detection) "book" then
    let eventKey := "book_detected" in
    if withinCooldown eventKey now DETECTION_CONFIG.EVENT_COOLDOWN.OBJECT_EVENTS st
    then st
    else
      (addEvent fetch book_detected "Book or notes detected in frame" high
         (setLastEventTime eventKey now st)).1
  else st.

(** [handleObjectDetection], the [onObjectDetection] callback. *)
Definition handleObjectDetection (fetch : EventLogging.Fetch) (now : Z)
    (detections : list ObjectDetection.DetectionResult) (st : State) : State :=
  fold_left (handleDetection fetch now) detections st.

(** [initializeCamera]: [granted] says whether [getUserMedia] resolved. *)
Definition initializeCamera (granted : bool) (st : State) : State :=
  if granted then setCameraActive true (setStreamRef true st) else st.

(** The state changes of [startProctoring]. *)
Definition startProctoring (now : Z) (st : State) : State :=
  setInterviewDuration 0
    (setIntegrityScore (fun _ => 100)
       (setEvents (fun _ => [])
          (setStartTime (Some now)
             (setIsProctoring true st)))).

(** The callback of the one-second interval that updates the duration. *)
Definition updateDuration (now : Z) (st : State) : State :=
  if isProctoring st then
    match startTimeRef st with
    | Some start => setInterviewDuration ((now - start) / 1000) st
    | None => st
    end
  else st.

(** [JSON.stringify] of one event of the log. *)
Definition storeEvent (e : ProctoringEvent) : SessionStorage.StoredEvent :=
  {| SessionStorage.id := id e;
     SessionStorage.type := type e;
     SessionStorage.timestamp := SessionStorage.toISOString (timestamp e);
     SessionStorage.severity := severity e;
     SessionStorage.description := description e |}.

(** [reportData] of [stopProctoring], as [JSON.stringify] writes it. *)
Definition reportData (now : Z) (st : State) : SessionStorage.SessionData :=
  {| SessionStorage.interviewId := interviewIdRef st;
     SessionStorage.events := map storeEvent (events st);
     SessionStorage.integrityScore := integrityScore st;
     SessionStorage.duration := interviewDuration st;
     SessionStorage.startTime := SessionStorage.toISOString <$> startTimeRef st;
     SessionStorage.endTime := SessionStorage.toISOString now |}.

(** [stopProctoring]: the state changes and the item written to
    [sessionStorage]; the navigation to the report page is the caller's. *)
Definition stopProctoring (now : Z) (st : State)
    (storage : gmap string SessionStorage.SessionData)
    : State * gmap string SessionStorage.SessionData :=
  let st1 := setIsProctoring false st in
  let st2 := if streamRef st1 then setCameraActive false st1 else st1 in
  (st2, <["currentReport" := reportData now st]> storage).

End Interview.

(** ** src/app/report/page.tsx *)

Module Report.

Record InterviewReport : Type := {
  interviewId : string;
  duration : Z;
  events : list Interview.ProctoringEvent;
  integrityScore : Z;
  startTime : Z;
  endTime : Z
}.

(** The [map] over [sessionData.events]: the event with its timestamp
    read back into a [Date]. *)
Definition loadEvent (event : SessionStorage.StoredEvent) : Interview.ProctoringEvent :=
  {| Interview.id := SessionStorage.id event;
     Interview.type := SessionStorage.type event;
     Interview.timestamp := SessionStorage.newDate (Some (SessionStorage.timestamp event));
     Interview.severity := SessionStorage.severity event;
     Interview.description := SessionStorage.description event |}.

Definition demoReport (now : Z) : InterviewReport :=
  {| interviewId := "demo-interview"; duration := 0;
     startTime := now; endTime := now;
     events := []; integrityScore := 100 |}.

(** [loadReport]: the report given to [setReport], and the storage
    afterwards. The item is removed once it has been read. *)
Definition loadReport (now : Z) (storage : gmap string SessionStorage.SessionData)
    : InterviewReport * gmap string SessionStorage.SessionData :=
  match storage !! "currentReport" with
  | Some sessionData =>
      ({| interviewId := SessionStorage.interviewId sessionData;
          duration := SessionStorage.duration sessionData;
          events := map loadEvent (SessionStorage.events sessionData);
          integrityScore := SessionStorage.integrityScore sessionData;
          startTime := SessionStorage.newDate (SessionStorage.startTime sessionData);
          endTime := SessionStorage.newDate (Some (SessionStorage.endTime sessionData)) |},
       delete "currentReport" storage)
  | None => (demoReport now, storage)
  end.

End Report.

(** ** src/app/api/log-event/route.ts *)

Module LogEventRoute.

(** The parsed body of a request, as far as the route reads it: a field
    that is missing or null is [None]. *)
Record Body : Type := {
  type : option string;
  description : option string;
  severity : option string;
  interviewId : option string;
  timestamp : option SessionStorage.IsoString
}.

(** A request: its content-type header and how [request.json()] settles
    (it throws on malformed text and gives [None] for the text [null]). *)
Record Request : Type := {
  contentType : option string;
  json : Completion (option Body)
}.

Inductive Payload : Type :=
| Failure (error : string)
| Logged (result : EventLogging.LogResult).

Record Response : Type := {
  status : Z;
  payload : Payload
}.

(** [String.prototype.includes] *)
Definition includes (s search : string) : bool :=
  match String.index 0 search s with
  | Some _ => true
  | None => false
  end.

(** Truthiness of a field that holds a string, if anything. *)
Definition truthy (field : option string) : bool :=
  match field with
  | Some s => negb (String.eqb s "")
  | None => false
  end.

Definition settled (c : Completion Response) (otherwise : Response) : Response :=
  match c with
  | Returned r => r
  | Thrown _ => otherwise
  end.

(** [POST]: [now] is the clock of the server. *)
Definition POST (now : Z) (request : Request) : Response :=
  let failed := {| status := 500; payload := Failure "Failed to log event" |} in
  settled
    (tryCatch
       (if negb (match contentType request with
                 | Some contentType => includes contentType "application/json"
                 | None => false
                 end)
        then Returned {| status := 400;
                         payload := Failure "Content-Type must be application/json" |}
        else
          body ← json request;
          match body with
          | None => Thrown "Cannot destructure property 'type' of 'body' as it is null."
          | Some body =>
              if negb (truthy (type body)) || negb (truthy (description body))
                 || negb (truthy (severity body))
              then Returned {| status := 400;
                               payload := Failure
                                 "Missing required fields: type, description, severity" |}
              else Returned
                     {| status := 200;
                        payload := Logged
                          {| EventLogging.success := true;
                             EventLogging.id := "event-" +:+ pretty now;
                             EventLogging.message := "Event logged successfully" |} |}
          end)
       (fun _ => Returned failed))
    failed.

(** What [GET] answers. *)
Record Listing : Type := {
  listing_success : bool;
  events : list SessionStorage.StoredEvent;
  listing_interviewId : string
}.

(** [GET]: the value of the [interviewId] parameter of the url, if any. *)
Definition GET (interviewId : option string) : Listing :=
  {| listing_success := true;
     events := [];
     listing_interviewId :=
       match interviewId with
       | Some id => if String.eqb id "" then "default-interview" else id
       | None => "default-interview"
       end |}.

End LogEventRoute.

(** ** src/hooks/useEventLogging.ts: reading events back *)

Module EventFetching.

(** What [fetch] does with the GET request: it rejects, or it resolves to
    a response with its [ok] flag and what [response.json()] gives, which
    is [None] for [null] and otherwise has an [events] field or not. *)
Inductive FetchOutcome : Type :=
| Rejects (reason : string)
| Resolves (ok : bool) (json : Completion (option (option (list SessionStorage.StoredEvent)))).

Definition fetchEvents (interviewId : string) (fetch : string -> FetchOutcome)
    : Completion (list SessionStorage.StoredEvent) :=
  tryCatch
    (match fetch ("/api/log-event?interviewId=" +:+ interviewId) with
     | Rejects e => Thrown e
     | Resolves ok json =>
         if negb ok then Thrown "Failed to fetch events"
         else
           result ← json;
           match result with
           | None => Thrown "Cannot read properties of null (reading 'events')"
           | Some result => Returned (default [] result)
           end
     end)
    (fun _ => Returned []).

End EventFetching.

(** ** src/app/report/page.tsx: what the report shows *)

Module ReportView.

(** [String.prototype.padStart] with a filler of one character. *)
Definition padStart (targetLength : nat) (padString : string) (s : string) : string :=
  String.concat "" (replicate (targetLength - String.length s) padString) +:+ s.

(** [formatDuration], the same on the interview page. [Math.floor] of the
    quotient rounds down and [%] takes the sign of the dividend. *)
Definition formatDuration (seconds : Z) : string :=
  let mins := seconds / 60 in
  let secs := Z.rem seconds 60 in
  padStart 2 "0" (pretty mins) +:+ ":" +:+ padStart 2 "0" (pretty secs).

Definition getIntegrityScoreColor (score : Z) : string :=
  if 80 <=? score then "text-green-600"
  else if 60 <=? score then "text-yellow-600"
  else "text-red-600".

Definition getIntegrityScoreLabel (score : Z) : string :=
  if 80 <=? score then "Good"
  else if 60 <=? score then "Fair"
  else "Poor".

(** The text of the recommendations card. *)
Definition recommendation (score : Z) : string :=
  if 80 <=? score then "Interview appears to be conducted with integrity."
  else if 60 <=? score then "Some concerns detected. Review events for context."
  else "Multiple integrity violations detected. Manual review recommended.".

(** The rows of the event summary card: the four listed types, each with
    the number of events of the report that have it. *)
Definition eventSummary (events : list Interview.ProctoringEvent) : list (EventType * nat) :=
  map (fun type =>
         (type,
          length (List.filter
                    (fun e => bool_decide (Interview.type e = type)) events)))
      [face_absent; multiple_faces; phone_detected; book_detected].

(** The number shown as total events. *)
Definition totalEvents (events : list Interview.ProctoringEvent) : nat :=
  length events.

End ReportView.

(** ** The application: user actions and callbacks, one at a time *)

Inductive Location : Type := InterviewPage | ReportPage.

Record World : Type := {
  location : Location;
  page : Interview.State;
  faceRefs : FaceDetection.Refs;
  objectRefs : ObjectDetection.Refs;
  sessionStorage : gmap string SessionStorage.SessionData;
  report : option Report.InterviewReport
}.

(** The four buttons of the demo controls. *)
Inductive DemoButton : Type :=
| SimulateFaceAbsent
| SimulatePhoneDetected
| SimulateBookDetected
| SimulateMultipleFaces.

Inductive Action : Type :=
| OpenInterview (now : Z)
| InitializeCamera (granted : bool)
| StartProctoring (now : Z)
| FaceMeshInitialized
| ModelLoaded (loaded : bool)
| FaceResults (now : Z) (results : FaceDetection.Results)
| DetectionTick (now : Z) (detect : Completion (list ObjectDetection.Prediction))
| DemoClick (button : DemoButton)
| DurationTick (now : Z)
| StopProctoring (now : Z)
| OpenReport (now : Z).

(** The interview page when it is first rendered, at [now] by a clock
    whose further readings are [date]. *)
Definition mount (now : Z) (date : Clock)
    (storage : gmap string SessionStorage.SessionData) : World :=
  {| location := InterviewPage;
     page := Interview.initial now date;
     faceRefs := FaceDetection.useFaceDetection now;
     objectRefs := ObjectDetection.useObjectDetection;
     sessionStorage := storage;
     report := None |}.

Definition withPage (st : Interview.State) (w : World) : World :=
  {| location := location w; page := st; faceRefs := faceRefs w;
     objectRefs := objectRefs w; sessionStorage := sessionStorage w;
     report := report w |}.

Definition withFaceRefs (r : FaceDetection.Refs) (w : World) : World :=
  {| location := location w; page := page w; faceRefs := r;
     objectRefs := objectRefs w; sessionStorage := sessionStorage w;
     report := report w |}.

Definition withObjectRefs (r : ObjectDetection.Refs) (w : World) : World :=
  {| location := location w; page := page w; faceRefs := faceRefs w;
     objectRefs := r; sessionStorage := sessionStorage w;
     report := report w |}.

(** [isActive: isProctoring && cameraActive], the prop given to both
    detection hooks. *)
Definition isActive (w : World) : bool :=
  Interview.isProctoring (page w) && Interview.cameraActive (page w).

(** The [onClick] of a demo button. *)
Definition demoClick (fetch : EventLogging.Fetch) (button : DemoButton)
    (st : Interview.State) : Interview.State :=
  match button with
  | SimulateFaceAbsent =>
      (Interview.addDemoEvent fetch face_absent "No face detected in frame" high st).1
  | SimulatePhoneDetected =>
      (Interview.addDemoEvent fetch phone_detected "Mobile phone detected in frame" high st).1
  | SimulateBookDetected =>
      (Interview.addDemoEvent fetch book_detected "Book or notes detected in frame" high st).1
  | SimulateMultipleFaces =>
      (Interview.addDemoEvent fetch multiple_faces "Multiple faces detected in frame" high st).1
  end.

(** A frame of the face mesh: the hook's callback, then the page's. *)
Definition faceResults (fetch : EventLogging.Fetch) (now : Z)
    (results : FaceDetection.Results) (w : World) : World :=
  let '(refs, called) := FaceDetection.onResults (isActive w) now results (faceRefs w) in
  let w1 := withFaceRefs refs w in
  match called with
  | Some result => withPage (Interview.handleFaceDetection fetch now result (page w1)) w1
  | None => w1
  end.

(** The interval callback of the object hook: [runDetection] when the
    hook is active, idle and ready, then the page's callback. The video
    element is there as long as the page is. *)
Definition detectionTick (fetch : EventLogging.Fetch) (now : Z)
    (detect : Completion (list ObjectDetection.Prediction)) (w : World) : World :=
  if isActive w && negb (ObjectDetection.isDetectingRef (objectRefs w))
     && ObjectDetection.isModelReadyRef (objectRefs w)
  then
    let '(refs, called) := ObjectDetection.runDetection true detect (objectRefs w) in
    let w1 := withObjectRefs refs w in
    match called with
    | Some detections =>
        withPage (Interview.handleObjectDetection fetch now detections (page w1)) w1
    | None => w1
    end
  else w.

(** One action. The guards of the buttons are the conditions under which
    the page renders them; after [stopProctoring] the browser is on the
    report page and the callbacks of the interview page are gone. The
    clock of the browser goes on when a fresh page is rendered. *)
Definition step (fetch : EventLogging.Fetch) (w : World) (a : Action) : World :=
  match a with
  | OpenInterview now => mount now (Interview.clock (page w)) (sessionStorage w)
  | OpenReport now =>
      let '(r, storage) := Report.loadReport now (sessionStorage w) in
      {| location := ReportPage; page := page w; faceRefs := faceRefs w;
         objectRefs := objectRefs w; sessionStorage := storage;
         report := Some r |}
  | _ =>
    match location w with
    | ReportPage => w
    | InterviewPage =>
      match a with
      | InitializeCamera granted =>
          if Interview.cameraActive (page w) then w
          else withPage (Interview.initializeCamera granted (page w)) w
      | StartProctoring now =>
          if Interview.cameraActive (page w) && negb (Interview.isProctoring (page w))
          then withPage (Interview.startProctoring now (page w)) w
          else w
      | FaceMeshInitialized =>
          withFaceRefs (FaceDetection.initializeFaceMesh (faceRefs w)) w
      | ModelLoaded loaded =>
          withObjectRefs (ObjectDetection.loadModel loaded (objectRefs w)) w
      | FaceResults now results => faceResults fetch now results w
      | DetectionTick now detect => detectionTick fetch now detect w
      | DemoClick button =>
          if Interview.isProctoring (page w)
          then withPage (demoClick fetch button (page w)) w
          else w
      | DurationTick now => withPage (Interview.updateDuration now (page w)) w
      | StopProctoring now =>
          if Interview.cameraActive (page w) && Interview.isProctoring (page w)
          then
            let '(st, storage) :=
              Interview.stopProctoring now (page w) (sessionStorage w) in
            {| location := ReportPage; page := st; faceRefs := faceRefs w;
               objectRefs := objectRefs w; sessionStorage := storage;
               report := None |}
          else w
      | _ => w
      end
    end
  end.

Definition run (fetch : EventLogging.Fetch) (actions : list Action) (w : World) : World :=
  fold_left (step fetch) actions w.

(** A network on which every request fails, and one on which every
    request succeeds. *)
Definition offline : EventLogging.Fetch :=
  fun _ => EventLogging.Rejects "Failed to fetch".

Definition online : EventLogging.Fetch :=
  fun body =>
    EventLogging.Resolves true
      (Returned {| EventLogging.success := true;
                   EventLogging.id := "event-" +:+ pretty (EventLogging.body_timestamp body);
                   EventLogging.message := "Event logged successfully" |}).

(** ** Vocabulary of the specification *)

(** The deduction table of the integrity scorer, as the specification
    gives it. *)
Definition deduction (kind : EventType) : Z :=
  match kind with
  | looking_away => 5
  | face_absent => 10
  | multiple_faces => 15
  | phone_detected => 20
  | book_detected => 20
  end.

(** The cooldown windows of the specification: one for the face-derived
    kinds, a longer one for the object-derived kinds. *)
Definition cooldown (kind : EventType) : Z :=
  match kind with
  | face_absent | looking_away | multiple_faces => 5000
  | phone_detected | book_detected => 10000
  end.

(** The key of a kind in [lastEventTimeRef]. *)
Definition eventKey (kind : EventType) : string :=
  match kind with
  | face_absent => "face_absent"
  | looking_away => "looking_away"
  | multiple_faces => "multiple_faces"
  | phone_detected => "phone_detected"
  | book_detected => "book_detected"
  end.

(** Any two logged events of one kind, at different times, are at least
    the cooldown of the kind apart. *)
Definition cooldownRespected (log : list Interview.ProctoringEvent) : Prop :=
  forall e1 e2,
    In e1 log -> In e2 log ->
    Interview.type e1 = Interview.type e2 ->
    Interview.timestamp e1 < Interview.timestamp e2 ->
    cooldown (Interview.type e1) <= Interview.timestamp e2 - Interview.timestamp e1.

(** The block that every branch of [handleFaceDetection] and of
    [handleObjectDetection] repeats: the cooldown test, the ledger update
    and the call of [addEvent]. *)
Definition throughGate (fetch : EventLogging.Fetch) (now : Z) (kind : EventType)
    (window : Z) (description : string) (severity : Severity)
    (st : Interview.State) : Interview.State :=
  if Interview.withinCooldown (eventKey kind) now window st then st
  else
    (Interview.addEvent fetch kind description severity
       (Interview.setLastEventTime (eventKey kind) now st)).1.

(** The next two readings of the clock of a page: the ones that the next
    call of [addEvent] takes for the id and for the timestamp; and the
    clock after them. *)
Definition nextId (st : Interview.State) : Z := (Date_now (Interview.clock st)).1.

Definition nextDate (st : Interview.State) : Z :=
  (Date_now (Date_now (Interview.clock st)).2).1.

Definition afterEvent (c : Clock) : Clock := (Date_now (Date_now c).2).2.

(** The event that [addEvent] builds from its two readings. *)
Definition appended (idNow dateNow : Z) (kind : EventType) (description : string)
    (severity : Severity) : Interview.ProctoringEvent :=
  {| Interview.id := pretty idNow; Interview.type := kind;
     Interview.timestamp := dateNow; Interview.description := description;
     Interview.severity := severity |}.

(** A clock that gives the listed readings, in order. *)
Definition readingsOf (l : list Z) : Clock :=
  {| readings := fun i => nth i l 0; taken := 0 |}.

(** The integrity score of the page, and whether it is a score. *)
Definition score (w : World) : Z := Interview.integrityScore (page w).

Definition inRange (s : Z) : Prop := 0 <= s <= 100.

(** Actions that render a fresh page rather than act on the current one. *)
Definition opensPage (a : Action) : bool :=
  match a with
  | OpenInterview _ | OpenReport _ => true
  | _ => false
  end.

(** Actions that write to [sessionStorage]. *)
Definition touchesStorage (a : Action) : bool :=
  match a with
  | StopProctoring _ | OpenReport _ => true
  | _ => false
  end.


(** Sample predictions of the classifier. *)
Definition phoneAt (confidence : float) : ObjectDetection.Prediction :=
  {| ObjectDetection.pred_class := "cell phone";
     ObjectDetection.score := confidence;
     ObjectDetection.pred_bbox := (0, 0, 0, 0)%float |}.

Definition laptopAt (confidence : float) : ObjectDetection.Prediction :=
  {| ObjectDetection.pred_class := "laptop";
     ObjectDetection.score := confidence;
     ObjectDetection.pred_bbox := (0, 0, 0, 0)%float |}.

(** ** Face observations over time *)

(** A face observation: when the callback runs, and with what. *)
Definition Observation : Type := (Z * FaceDetection.Results)%type.

Definition facesSeen (n : nat) : FaceDetection.Results :=
  {| FaceDetection.multiFaceLandmarks := Some (replicate n []) |}.

(** The refs of a hook created at [now] whose face mesh is ready. *)
Definition readyRefs (now : Z) : FaceDetection.Refs :=
  FaceDetection.initializeFaceMesh (FaceDetection.useFaceDetection now).

(** The refs after the callback has run, while active, on each of the
    observations, oldest first. *)
Definition observe (history : list Observation) (r : FaceDetection.Refs) : FaceDetection.Refs :=
  fold_left (fun r o => (FaceDetection.onResults true o.1 o.2 r).1) history r.

(** The calls of [onFaceDetection] made along the way. *)
Fixpoint emissions (history : list Observation) (r : FaceDetection.Refs)
    : list FaceDetection.FaceDetectionResult :=
  match history with
  | [] => []
  | o :: rest =>
      let '(r1, called) := FaceDetection.onResults true o.1 o.2 r in
      match called with
      | Some result => result :: emissions rest r1
      | None => emissions rest r1
      end
  end.

(** In the words of the specification: the time of the last observation
    with at least one face, or [start] when there is none. *)
Definition lastFaceSeenAt (start : Z) (history : list Observation) : Z :=
  fold_left
    (fun last o => if (1 <=? FaceDetection.faceCountOf o.2)%nat then o.1 else last)
    history start.

(** Whether a call of [onFaceDetection] is a face-absent candidate, and
    whether it is a looking-away candidate: the first and the third branch
    of [handleFaceDetection]. *)
Definition isFaceAbsent (called : option FaceDetection.FaceDetectionResult) : bool :=
  match called with
  | Some result => negb (FaceDetection.hasFace result)
  | None => false
  end.

Definition isLookingAwayCandidate (result : FaceDetection.FaceDetectionResult) : bool :=
  FaceDetection.hasFace result
  && negb (1 <? FaceDetection.faceCount result)%nat
  && FaceDetection.isLookingAway result.

(** No event of the log is a looking-away event. *)
Definition noLookingAway (log : list Interview.ProctoringEvent) : Prop :=
  Forall (fun e => Interview.type e <> looking_away) log.

(** ** The acceptances of the cooldown gate *)

(** The events that an action adds to the log. *)
Definition added (fetch : EventLogging.Fetch) (w : World) (a : Action)
    : list Interview.ProctoringEvent :=
  drop (length (Interview.events (page w))) (Interview.events (page (step fetch w a))).

(** The acceptances of the gate during an action: the kind of each event
    that a detection callback adds, with the reading [now] that the
    callback compared with the ledger and stored in it. The demo buttons
    do not go through the gate. *)
Definition gateAccepts (fetch : EventLogging.Fetch) (w : World) (a : Action)
    : list (EventType * Z) :=
  match a with
  | FaceResults now _ | DetectionTick now _ =>
      map (fun e => (Interview.type e, now)) (added fetch w a)
  | _ => []
  end.

(** The acceptances of the gate along the actions, oldest first, after
    [trace]; they start afresh with a fresh page. *)
Fixpoint acceptances (fetch : EventLogging.Fetch) (actions : list Action) (w : World)
    (trace : list (EventType * Z)) : list (EventType * Z) :=
  match actions with
  | [] => trace
  | a :: rest =>
      acceptances fetch rest (step fetch w a)
        (match a with
         | OpenInterview _ => []
         | _ => trace ++ gateAccepts fetch w a
         end)
  end.

(** The time of the latest acceptance of a kind, if there is one. *)
Definition lastAcceptance (kind : EventType) (trace : list (EventType * Z)) : option Z :=
  fold_left (fun last entry => if decide (entry.1 = kind) then Some entry.2 else last)
    trace None.

(** Any two acceptances of one kind, at different times, are at least the
    cooldown of the kind apart. *)
Definition cooldownKept (trace : list (EventType * Z)) : Prop :=
  forall kind t1 t2,
    In (kind, t1) trace -> In (kind, t2) trace -> t1 < t2 -> cooldown kind <= t2 - t1.

(** What the ledger knows of the acceptances: it holds, for every kind,
    the time of the latest acceptance; no acceptance is at time 0; and
    every acceptance is the latest of its kind or at least one cooldown
    older. *)
Definition ledgerFollows (ledger : gmap string Z) (trace : list (EventType * Z)) : Prop :=
  (forall kind, ledger !! eventKey kind = lastAcceptance kind trace)
  /\ (forall kind t, In (kind, t) trace -> t <> 0)
  /\ (forall kind t last,
        In (kind, t) trace -> lastAcceptance kind trace = Some last ->
        t = last \/ cooldown kind <= last - t).

Definition gateInvariant (ledger : gmap string Z) (trace : list (EventType * Z)) : Prop :=
  ledgerFollows ledger trace /\ cooldownKept trace.

(** What one call of a detection callback at [now] does: it adds events
    to the log, and the ledger follows when their kinds are accepted at
    [now]. *)
Definition gateStep (now : Z) (trace : list (EventType * Z))
    (st st' : Interview.State) : Prop :=
  exists new,
    Interview.events st' = Interview.events st ++ new
    /\ gateInvariant (Interview.lastEventTimeRef st')
         (trace ++ map (fun e => (Interview.type e, now)) new).

(** The detection callbacks run at non-zero clock readings. *)
Definition gateClockSet (a : Action) : bool :=
  match a with
  | FaceResults now _ | DetectionTick now _ => negb (now =? 0)
  | _ => true
  end.

(** The kind that a demo button injects. *)
Definition demoKind (button : DemoButton) : EventType :=
  match button with
  | SimulateFaceAbsent => face_absent
  | SimulatePhoneDetected => phone_detected
  | SimulateBookDetected => book_detected
  | SimulateMultipleFaces => multiple_faces
  end.

(** ** Sessions as a whole *)

(** The deductions of a log, added up with the [switch] of [addEvent]. *)
Definition totalDeduction (log : list Interview.ProctoringEvent) : Z :=
  fold_right (fun e total => Interview.scoreDeduction (Interview.type e) + total) 0 log.

(** The score is what the log says it is. *)
Definition scoreMatchesLog (st : Interview.State) : Prop :=
  Interview.integrityScore st = Z.max 0 (100 - totalDeduction (Interview.events st)).

(** Actions that empty the log: a fresh page and the start of a session. *)
Definition resetsLog (a : Action) : bool :=
  match a with
  | OpenInterview _ | StartProctoring _ => true
  | _ => false
  end.

(** How the flags and refs of the page hang together. *)
Definition flagsConsistent (st : Interview.State) : Prop :=
  (Interview.isProctoring st = true ->
   Interview.cameraActive st = true /\ is_Some (Interview.startTimeRef st))
  /\ (Interview.cameraActive st = true -> Interview.streamRef st = true).

(** A detection of a class, as the page's callback receives it. *)
Definition detected (class : string) : ObjectDetection.DetectionResult :=
  {| ObjectDetection.class := class; ObjectDetection.confidence := 0.9%float;
     ObjectDetection.bbox := (0, 0, 0, 0)%float |}.

(** ** The page talking to the route *)

(** The strings of the severities. *)
Definition severityString (severity : Severity) : string :=
  match severity with
  | low => "low"
  | medium => "medium"
  | high => "high"
  end.

(** The request that [logEvent] sends: its header and [JSON.stringify] of
    its body. *)
Definition requestOf (body : EventLogging.RequestBody) : LogEventRoute.Request :=
  {| LogEventRoute.contentType := Some "application/json";
     LogEventRoute.json :=
       Returned (Some
         {| LogEventRoute.type := Some (eventKey (EventLogging.body_type body));
            LogEventRoute.description := Some (EventLogging.body_description body);
            LogEventRoute.severity := Some (severityString (EventLogging.body_severity body));
            LogEventRoute.interviewId := Some (EventLogging.body_interviewId body);
            LogEventRoute.timestamp :=
              Some (SessionStorage.toISOString (EventLogging.body_timestamp body)) |}) |}.

(** The response as [logEvent] sees it: [response.ok] says whether the
    status is in the 200s; the body of a response that is not ok is never
    read. *)
Definition responseOf (response : LogEventRoute.Response) : EventLogging.FetchOutcome :=
  EventLogging.Resolves
    ((200 <=? LogEventRoute.status response) && (LogEventRoute.status response <? 300))
    (match LogEventRoute.payload response with
     | LogEventRoute.Logged result => Returned result
     | LogEventRoute.Failure error => Thrown error
     end).

(** [fetch("/api/log-event", ...)] served by the route, whose clock reads
    [serverNow]. *)
Definition viaRoute (serverNow : Z) : EventLogging.Fetch :=
  fun body => responseOf (LogEventRoute.POST serverNow (requestOf body)).

(** The GET request of [fetchEvents] served by the route; [searchParam]
    reads the [interviewId] parameter off a url. *)
Definition listingViaRoute (searchParam : string -> option string) (url : string)
    : EventFetching.FetchOutcome :=
  EventFetching.Resolves true
    (Returned (Some (Some (LogEventRoute.events (LogEventRoute.GET (searchParam url)))))).

(** ** Reading a duration *)

(** The decimal digit of a number below ten. *)
Definition digit (n : Z) : Ascii.ascii := Ascii.ascii_of_nat (48 + Z.to_nat n).

(** The colon. *)
Definition colon : Ascii.ascii := Ascii.ascii_of_nat 58.

(** A duration below 100 minutes as a clock shows it: two digits of
    minutes, a colon, two digits of seconds. *)
Definition clock (seconds : Z) : string :=
  String (digit (seconds / 600))
    (String (digit (seconds / 60 mod 10))
       (String colon
          (String (digit (seconds mod 60 / 10))
             (String (digit (seconds mod 10)) "")))).

Definition digitValue (c : Ascii.ascii) : Z := Z.of_nat (Ascii.nat_of_ascii c) - 48.

(** The seconds that a clock of five characters shows. *)
Definition readClock (s : string) : Z :=
  match s with
  | String m1 (String m0 (String _ (String s1 (String s0 _)))) =>
      60 * (10 * digitValue m1 + digitValue m0) + 10 * digitValue s1 + digitValue s0
  | _ => 0
  end.

(** The sum of the counts of the event summary. *)
Definition summaryTotal (rows : list (EventType * nat)) : nat :=
  fold_right (fun row total => (row.2 + total)%nat) 0%nat rows.

(** The clock readings of a history do not go back, from [start] on. *)
(** The clock reading of the latest observation, or [start]. *)
Definition lastClock (start : Z) (history : list Observation) : Z :=
  fold_left (fun _ o => o.1) history start.

Fixpoint clockOrdered (start : Z) (history : list Observation) : Prop :=
  match history with
  | [] => True
  | o :: rest => start <= o.1 /\ clockOrdered o.1 rest
  end.

(** ** The fallback mesh over time *)

(** The calls of [onFaceDetection] that the fallback mesh makes when its
    simulation runs at the given times, oldest first. *)
Fixpoint mockEmissions (times : list Z) (r : FaceDetection.Refs)
    : list FaceDetection.FaceDetectionResult :=
  match times with
  | [] => []
  | time :: rest =>
      let '(r1, called) :=
        FaceDetection.mockOnResults true time (MockFaceMesh.simulateDetection time) r in
      match called with
      | Some result => result :: mockEmissions rest r1
      | None => mockEmissions rest r1
      end
  end.

(** Each time is later than the one before, by [gap] at most. *)
Fixpoint paced (gap : Z) (previous : Z) (times : list Z) : Prop :=
  match times with
  | [] => True
  | time :: rest => previous < time <= previous + gap /\ paced gap time rest
  end.

(** A predicate on whole numbers, checked on [count] of them from [r] on. *)
Fixpoint holdsFrom (f : Z -> bool) (count : nat) (r : Z) : bool :=
  match count with
  | O => true
  | S count => f r && holdsFrom f count (r + 1)
  end.

(** What the refs of the fallback callback know after the frame at
    [time]: after a frame with one face the last-seen time is that
    frame's; during the face-less phase it is at most 6400 ms older than
    the start of the phase. *)
Definition mockInvariant (time : Z) (r : FaceDetection.Refs) : Prop :=
  FaceDetection.isModelReadyRef r = true
  /\ 0 <= time
  /\ (time mod 120000 < 114000 -> FaceDetection.lastFaceTimeRef r = time)
  /\ (114000 <= time mod 120000 < 117600 ->
      time - time mod 120000 + 107600 <= FaceDetection.lastFaceTimeRef r).

(** ** Further vocabulary of sessions *)

(** A click on Initialize Camera that the user grants. *)
Definition grantsCamera (a : Action) : bool :=
  match a with
  | InitializeCamera granted => granted
  | _ => false
  end.

(** The text that the page gives to the events of a type. *)
Definition descriptionOf (type : EventType) : string :=
  match type with
  | face_absent => "No face detected in frame"
  | multiple_faces => "Multiple faces detected in frame"
  | phone_detected => "Mobile phone detected in frame"
  | book_detected => "Book or notes detected in frame"
  | looking_away => "Candidate looked away from screen"
  end.

(** Every event of the log is of severity high, is no looking-away event
    and carries the text of its type. *)
Definition uniformLog (log : list Interview.ProctoringEvent) : Prop :=
  Forall (fun e =>
            Interview.severity e = high
            /\ Interview.type e <> looking_away
            /\ Interview.description e = descriptionOf (Interview.type e)) log.

(** * Properties *)

(** ** The logging hook never throws *)

Lemma logEvent_returns interviewId fetch now event :
  exists result, EventLogging.logEvent interviewId fetch now event = Returned result.
Proof.
  unfold EventLogging.logEvent.
  destruct (fetch _) as [e | ok json]; simpl; [eauto |].
  destruct ok; simpl; [| eauto].
  destruct json; simpl; eauto.
Qed.


(** ** What [addEvent] does to the state *)

Lemma addEvent_state fetch kind description severity st :
  Interview.addEvent fetch kind description severity st =
  (Interview.setIntegrityScore
     (fun prev => Z.max 0 (prev - Interview.scoreDeduction kind))
     (Interview.setEvents
        (fun prev => prev ++ [appended (nextId st) (nextDate st) kind description severity])
        (Interview.setClock (afterEvent (Interview.clock st)) st)),
   Returned tt).
Proof.
  unfold Interview.addEvent, nextId, nextDate, afterEvent. simpl.
  match goal with
  | |- context [EventLogging.logEvent ?i ?f ?n ?e] =>
      destruct (logEvent_returns i f n e) as [r Hr]; rewrite Hr
  end.
  reflexivity.
Qed.

Lemma scoreDeduction_table kind : Interview.scoreDeduction kind = deduction kind.
Proof. destruct kind; reflexivity. Qed.

Lemma deduction_nonneg kind : 0 <= deduction kind.
Proof. destruct kind; simpl; lia. Qed.

(** The state after the gate, field by field. *)
Lemma throughGate_state fetch now kind window description severity st :
  throughGate fetch now kind window description severity st =
  if Interview.withinCooldown (eventKey kind) now window st then st
  else
    {| Interview.isProctoring := Interview.isProctoring st;
       Interview.cameraActive := Interview.cameraActive st;
       Interview.events :=
         Interview.events st
         ++ [appended (nextId st) (nextDate st) kind description severity];
       Interview.integrityScore :=
         Z.max 0 (Interview.integrityScore st - deduction kind);
       Interview.interviewDuration := Interview.interviewDuration st;
       Interview.streamRef := Interview.streamRef st;
       Interview.startTimeRef := Interview.startTimeRef st;
       Interview.lastEventTimeRef :=
         <[eventKey kind := now]> (Interview.lastEventTimeRef st);
       Interview.interviewIdRef := Interview.interviewIdRef st;
       Interview.clock := afterEvent (Interview.clock st) |}.
Proof.
  unfold throughGate. destruct (Interview.withinCooldown _ _ _ _); [reflexivity |].
  rewrite addEvent_state, scoreDeduction_table. reflexivity.
Qed.

(** The two handlers in terms of the gate. *)
Lemma handleFaceDetection_gate fetch now result st :
  Interview.handleFaceDetection fetch now result st =
  if negb (FaceDetection.hasFace result) then
    throughGate fetch now face_absent DETECTION_CONFIG.EVENT_COOLDOWN.FACE_EVENTS
      "No face detected in frame" high st
  else if (1 <? FaceDetection.faceCount result)%nat then
    throughGate fetch now multiple_faces DETECTION_CONFIG.EVENT_COOLDOWN.FACE_EVENTS
      "Multiple faces detected in frame" high st
  else if FaceDetection.isLookingAway result then
    throughGate fetch now looking_away DETECTION_CONFIG.EVENT_COOLDOWN.FACE_EVENTS
      "Candidate looked away from screen" medium st
  else st.
Proof. reflexivity. Qed.

Lemma handleDetection_gate fetch now st detection :
  Interview.handleDetection fetch now st detection =
  if String.eqb (ObjectDetection.class detection) "cell phone" then
    throughGate fetch now phone_detected DETECTION_CONFIG.EVENT_COOLDOWN.OBJECT_EVENTS
      "Mobile phone detected in frame" high st
  else if String.eqb (ObjectDetection.class detection) "book" then
    throughGate fetch now book_detected DETECTION_CONFIG.EVENT_COOLDOWN.OBJECT_EVENTS
      "Book or notes detected in frame" high st
  else st.
Proof. reflexivity. Qed.

Lemma demoClick_state fetch button st :
  exists kind description,
    demoClick fetch button st =
    Interview.setIntegrityScore
      (fun prev => Z.max 0 (prev - deduction kind))
      (Interview.setEvents
         (fun prev => prev ++ [appended (nextId st) (nextDate st) kind description high])
         (Interview.setClock (afterEvent (Interview.clock st)) st))
    /\ kind <> looking_away.
Proof.
  destruct button; unfold demoClick, Interview.addDemoEvent;
    rewrite addEvent_state, scoreDeduction_table;
    eexists _, _; (split; [reflexivity | discriminate]).
Qed.

(** ** The score stays in range and never goes up *)

Lemma deduct_inRange s kind : inRange s -> inRange (Z.max 0 (s - deduction kind)).
Proof. unfold inRange. pose proof (deduction_nonneg kind). lia. Qed.

Lemma deduct_le s kind : 0 <= s -> Z.max 0 (s - deduction kind) <= s.
Proof. pose proof (deduction_nonneg kind). lia. Qed.

(** Deductions commute, so the order in which pending [logEvent] calls
    settle does not change the score. *)
Lemma deduct_comm s k1 k2 :
  Z.max 0 (Z.max 0 (s - deduction k1) - deduction k2) =
  Z.max 0 (Z.max 0 (s - deduction k2) - deduction k1).
Proof. pose proof (deduction_nonneg k1). pose proof (deduction_nonneg k2). lia. Qed.

Lemma throughGate_score fetch now kind window description severity st :
  Interview.integrityScore (throughGate fetch now kind window description severity st)
  = Interview.integrityScore st
  \/ Interview.integrityScore (throughGate fetch now kind window description severity st)
     = Z.max 0 (Interview.integrityScore st - deduction kind).
Proof.
  rewrite throughGate_state. destruct (Interview.withinCooldown _ _ _ _); simpl; auto.
Qed.

Lemma throughGate_inRange fetch now kind window description severity st :
  inRange (Interview.integrityScore st) ->
  inRange (Interview.integrityScore
             (throughGate fetch now kind window description severity st))
  /\ Interview.integrityScore (throughGate fetch now kind window description severity st)
     <= Interview.integrityScore st.
Proof.
  intros Hr.
  destruct (throughGate_score fetch now kind window description severity st) as [-> | ->].
  - split; [assumption | lia].
  - split; [by apply deduct_inRange | apply deduct_le; unfold inRange in Hr; lia].
Qed.

Lemma handleFaceDetection_inRange fetch now result st :
  inRange (Interview.integrityScore st) ->
  inRange (Interview.integrityScore (Interview.handleFaceDetection fetch now result st))
  /\ Interview.integrityScore (Interview.handleFaceDetection fetch now result st)
     <= Interview.integrityScore st.
Proof.
  intros Hr. rewrite handleFaceDetection_gate.
  repeat match goal with |- context [if ?b then _ else _] => destruct b end;
    try (by apply throughGate_inRange); split; [assumption | lia].
Qed.

Lemma handleDetection_inRange fetch now st detection :
  inRange (Interview.integrityScore st) ->
  inRange (Interview.integrityScore (Interview.handleDetection fetch now st detection))
  /\ Interview.integrityScore (Interview.handleDetection fetch now st detection)
     <= Interview.integrityScore st.
Proof.
  intros Hr. rewrite handleDetection_gate.
  repeat match goal with |- context [if ?b then _ else _] => destruct b end;
    try (by apply throughGate_inRange); split; [assumption | lia].
Qed.

Lemma handleObjectDetection_inRange fetch now detections st :
  inRange (Interview.integrityScore st) ->
  inRange (Interview.integrityScore (Interview.handleObjectDetection fetch now detections st))
  /\ Interview.integrityScore (Interview.handleObjectDetection fetch now detections st)
     <= Interview.integrityScore st.
Proof.
  unfold Interview.handleObjectDetection.
  revert st. induction detections as [| d ds IH]; intros st Hr; simpl.
  - split; [assumption | lia].
  - destruct (handleDetection_inRange fetch now st d Hr) as [Hr1 Hle1].
    destruct (IH _ Hr1) as [Hr2 Hle2]. split; [assumption | lia].
Qed.

Lemma demoClick_inRange fetch button st :
  inRange (Interview.integrityScore st) ->
  inRange (Interview.integrityScore (demoClick fetch button st))
  /\ Interview.integrityScore (demoClick fetch button st)
     <= Interview.integrityScore st.
Proof.
  intros Hr. destruct (demoClick_state fetch button st) as (kind & d & -> & _).
  simpl. split; [by apply deduct_inRange | apply deduct_le; unfold inRange in Hr; lia].
Qed.

Lemma updateDuration_score now st :
  Interview.integrityScore (Interview.updateDuration now st) = Interview.integrityScore st.
Proof.
  unfold Interview.updateDuration.
  destruct (Interview.isProctoring st), (Interview.startTimeRef st); reflexivity.
Qed.

Lemma stopProctoring_score now st storage :
  Interview.integrityScore (Interview.stopProctoring now st storage).1
  = Interview.integrityScore st.
Proof.
  unfold Interview.stopProctoring. simpl. destruct (Interview.streamRef st); reflexivity.
Qed.

Lemma initializeCamera_score granted st :
  Interview.integrityScore (Interview.initializeCamera granted st)
  = Interview.integrityScore st.
Proof. destruct granted; reflexivity. Qed.

Lemma faceResults_inRange fetch now results w :
  inRange (score w) ->
  inRange (score (faceResults fetch now results w))
  /\ score (faceResults fetch now results w) <= score w.
Proof.
  intros Hr. unfold faceResults.
  destruct (FaceDetection.onResults _ _ _ _) as [refs [result |]]; unfold score; simpl.
  - by apply handleFaceDetection_inRange.
  - split; [assumption | lia].
Qed.

Lemma detectionTick_inRange fetch now detect w :
  inRange (score w) ->
  inRange (score (detectionTick fetch now detect w))
  /\ score (detectionTick fetch now detect w) <= score w.
Proof.
  intros Hr. unfold detectionTick.
  destruct (_ && _); [| split; [assumption | lia]].
  destruct (ObjectDetection.runDetection _ _ _) as [refs [detections |]];
    unfold score; simpl.
  - by apply handleObjectDetection_inRange.
  - split; [assumption | lia].
Qed.

(** Every action keeps the score in range; every action on the page of a
    running session leaves it where it was or lowers it. *)
Lemma step_score fetch w a :
  inRange (score w) ->
  inRange (score (step fetch w a))
  /\ (opensPage a = false -> Interview.isProctoring (page w) = true ->
      score (step fetch w a) <= score w).
Proof.
  intros Hr.
  assert (Hsame : inRange (score w) /\ score w <= score w) by (split; [assumption | lia]).
  destruct a; unfold step.
  - split; [unfold score, inRange; simpl; lia | discriminate].
  - destruct (location w); [| tauto].
    destruct (Interview.cameraActive (page w)); [tauto |].
    unfold score; simpl. rewrite initializeCamera_score. tauto.
  - destruct (location w); [| tauto].
    destruct (Interview.cameraActive (page w)); simpl; [| tauto].
    destruct (Interview.isProctoring (page w)) eqn:Hp; simpl; [tauto |].
    split; [unfold score, inRange; simpl; lia | intros _ [=]].
  - destruct (location w); tauto.
  - destruct (location w); tauto.
  - destruct (location w); [| tauto].
    pose proof (faceResults_inRange fetch now results w Hr). tauto.
  - destruct (location w); [| tauto].
    pose proof (detectionTick_inRange fetch now detect w Hr). tauto.
  - destruct (location w); [| tauto].
    destruct (Interview.isProctoring (page w)); [| tauto].
    pose proof (demoClick_inRange fetch button (page w) Hr).
    unfold score; simpl. tauto.
  - destruct (location w); [| tauto].
    unfold score; simpl. rewrite updateDuration_score. tauto.
  - destruct (location w); [| tauto].
    destruct (_ && _); [| tauto].
    pose proof (stopProctoring_score now (page w) (sessionStorage w)) as Hs.
    destruct (Interview.stopProctoring _ _ _) as [st storage].
    unfold score; simpl in *. rewrite Hs. tauto.
  - destruct (Report.loadReport _ _) as [r storage]. unfold score; simpl. tauto.
Qed.

Lemma run_snoc fetch actions a w :
  run fetch (actions ++ [a]) w = step fetch (run fetch actions w) a.
Proof. unfold run. by rewrite fold_left_app. Qed.

Lemma run_inRange fetch actions now date storage :
  inRange (score (run fetch actions (mount now date storage))).
Proof.
  induction actions as [| a actions IH] using rev_ind.
  - unfold inRange, score. simpl. lia.
  - rewrite run_snoc. by apply step_score.
Qed.

(** C1. At every point that a sequence of user actions and callbacks can
    reach from a fresh page, the integrity score s satisfies
    0 <= s <= 100; starting a session sets it to 100; while a session
    runs, no action on its page raises it; and [addEvent] maps the
    current score to a value that is no larger. *)
Theorem integrity_score_bounded_and_monotone fetch actions now0 date storage :
  let w := run fetch actions (mount now0 date storage) in
  0 <= score w <= 100
  /\ (forall now, Interview.integrityScore (Interview.startProctoring now (page w)) = 100)
  /\ (forall a, opensPage a = false -> Interview.isProctoring (page w) = true ->
        score (step fetch w a) <= score w)
  /\ (forall kind description severity,
        Interview.integrityScore
          (Interview.addEvent fetch kind description severity (page w)).1
        <= score w).
Proof.
  intros w. pose proof (run_inRange fetch actions now0 date storage) as Hr. fold w in Hr.
  repeat split; try apply Hr.
  - intros a. by apply step_score.
  - intros kind description severity. rewrite addEvent_state, scoreDeduction_table.
    simpl. apply deduct_le. unfold inRange in Hr. fold (score w). lia.
Qed.

Lemma integrity_score_bounded_and_monotone_witness :
  let w := run offline [InitializeCamera true; StartProctoring 1000;
                        DemoClick SimulateFaceAbsent]
             (mount 0 (readingsOf [2000; 2000; 3000; 3000]) ∅) in
  score w = 90
  /\ score (step offline w (DemoClick SimulatePhoneDetected)) <= score w.
Proof.
  split; [reflexivity |].
  pose proof (integrity_score_bounded_and_monotone offline
                [InitializeCamera true; StartProctoring 1000;
                 DemoClick SimulateFaceAbsent] 0
                (readingsOf [2000; 2000; 3000; 3000]) ∅) as (_ & _ & Hstep & _).
  apply Hstep; reflexivity.
Defined.

(** C2. An accepted event of kind k maps the score s to
    max(0, s - deduction(k)), with the deductions LookingAway 5,
    FaceAbsent 10, MultipleFaces 15, PhoneDetected 20, BookDetected 20;
    the gate, when it accepts, deducts the same; a book costs 20. *)
Theorem accepted_event_deducts_by_table fetch now kind description severity st :
  Interview.integrityScore (Interview.addEvent fetch kind description severity st).1
  = Z.max 0 (Interview.integrityScore st - deduction kind)
  /\ Interview.scoreDeduction kind = deduction kind
  /\ (forall window,
        Interview.integrityScore
          (throughGate fetch now kind window description severity st)
        = if Interview.withinCooldown (eventKey kind) now window st
          then Interview.integrityScore st
          else Z.max 0 (Interview.integrityScore st - deduction kind))
  /\ deduction book_detected = 20
  /\ Interview.integrityScore
       (Interview.addEvent fetch book_detected description severity st).1
     = Z.max 0 (Interview.integrityScore st - 20).
Proof.
  rewrite !addEvent_state, !scoreDeduction_table. simpl.
  repeat split; try reflexivity.
  intros window. rewrite throughGate_state.
  destruct (Interview.withinCooldown _ _ _ _); reflexivity.
Qed.

(** ** Forwarding cannot be observed by the page *)










(** ** The object filter *)

Lemma includes_In l s : ObjectDetection.includes l s = true <-> In s l.
Proof.
  unfold ObjectDetection.includes. rewrite existsb_exists. split.
  - intros (x & Hin & Heq). apply String.eqb_eq in Heq. congruence.
  - intros Hin. exists s. split; [assumption | apply String.eqb_refl].
Qed.

Lemma isTarget_spec p :
  ObjectDetection.isTarget p = true <->
  In (ObjectDetection.pred_class p) ["cell phone"; "book"; "laptop"; "mouse"; "keyboard"]
  /\ PrimFloat.leb 0.6%float (ObjectDetection.score p) = true.
Proof.
  unfold ObjectDetection.isTarget, ObjectDetection.aboveThreshold.
  rewrite andb_true_iff, includes_In. reflexivity.
Qed.

Lemma targetDetections_In predictions d :
  In d (ObjectDetection.targetDetections predictions) <->
  exists p, In p predictions /\ d = ObjectDetection.toDetectionResult p
            /\ ObjectDetection.isTarget p = true.
Proof.
  unfold ObjectDetection.targetDetections. rewrite in_map_iff. split.
  - intros (p & Heq & Hin). apply filter_In in Hin. exists p. destruct Hin. auto.
  - intros (p & Hin & -> & Ht). exists p. split; [reflexivity |].
    apply filter_In. tauto.
Qed.

Lemma targetDetections_app ps qs :
  ObjectDetection.targetDetections (ps ++ qs)
  = ObjectDetection.targetDetections ps ++ ObjectDetection.targetDetections qs.
Proof.
  unfold ObjectDetection.targetDetections.
  by rewrite List.filter_app, map_app.
Qed.

Lemma targetDetections_dropped p :
  ObjectDetection.isTarget p = false -> ObjectDetection.targetDetections [p] = [].
Proof. unfold ObjectDetection.targetDetections. simpl. by intros ->. Qed.

Lemma toDetectionResult_fields p :
  ObjectDetection.class (ObjectDetection.toDetectionResult p) = ObjectDetection.pred_class p
  /\ ObjectDetection.confidence (ObjectDetection.toDetectionResult p) = ObjectDetection.score p
  /\ ObjectDetection.bbox (ObjectDetection.toDetectionResult p) = ObjectDetection.pred_bbox p.
Proof.
  unfold ObjectDetection.toDetectionResult. simpl.
  destruct (ObjectDetection.pred_bbox p) as [[[x0 y0] width] height]. auto.
Qed.

(** The detections that the page's callback acts on. *)
Lemma handleDetection_other fetch now st d :
  ObjectDetection.class d <> "cell phone" -> ObjectDetection.class d <> "book" ->
  Interview.handleDetection fetch now st d = st.
Proof.
  intros H1 H2. unfold Interview.handleDetection.
  apply String.eqb_neq in H1, H2. by rewrite H1, H2.
Qed.

Lemma handleDetection_changes fetch now st d :
  Interview.handleDetection fetch now st d <> st ->
  ObjectDetection.class d = "cell phone" \/ ObjectDetection.class d = "book".
Proof.
  intros Hne.
  destruct (String.eqb_spec (ObjectDetection.class d) "cell phone") as [| H1]; [by left |].
  destruct (String.eqb_spec (ObjectDetection.class d) "book") as [| H2]; [by right |].
  by rewrite handleDetection_other in Hne.
Qed.

Lemma handleObjectDetection_app fetch now ds es st :
  Interview.handleObjectDetection fetch now (ds ++ es) st
  = Interview.handleObjectDetection fetch now es
      (Interview.handleObjectDetection fetch now ds st).
Proof. unfold Interview.handleObjectDetection. apply fold_left_app. Qed.

Lemma handleObjectDetection_others fetch now ds st :
  Forall (fun d => ObjectDetection.class d <> "cell phone"
                   /\ ObjectDetection.class d <> "book") ds ->
  Interview.handleObjectDetection fetch now ds st = st.
Proof.
  unfold Interview.handleObjectDetection. revert st.
  induction ds as [| d ds IH]; intros st Hall; simpl; [reflexivity |].
  inversion Hall as [| ? ? [H1 H2] Hall']; subst.
  rewrite handleDetection_other by assumption. by apply IH.
Qed.

(** The page after a tick of the object hook whose detections reach no
    branch of the callback. *)
Lemma detectionTick_page_unchanged fetch now predictions w :
  Forall (fun d => ObjectDetection.class d <> "cell phone"
                   /\ ObjectDetection.class d <> "book")
         (ObjectDetection.targetDetections predictions) ->
  page (detectionTick fetch now (Returned predictions) w) = page w.
Proof.
  intros Hall. unfold detectionTick. destruct (_ && _); [| reflexivity].
  unfold ObjectDetection.runDetection. destruct (_ || _); [reflexivity |].
  destruct (0 <? _)%nat; simpl; [| reflexivity].
  by apply handleObjectDetection_others.
Qed.

(** C5. Of a batch of raw detections, the retained ones are exactly
    those whose class is one of cell phone, book, laptop, mouse, keyboard
    and whose confidence is at least 0.6; a retained cell phone goes to
    the cooldown gate as a [phone_detected] candidate of severity high and
    a retained book as a [book_detected] candidate of severity high, and
    the gate, when open, logs them as such; a detection that is not at
    least 0.6 never reaches the gate and leaves the page, its log and its
    score as they were. *)
Theorem object_filter_retains_and_maps fetch now predictions :
  (forall d,
     In d (ObjectDetection.targetDetections predictions) <->
     exists p, In p predictions /\ d = ObjectDetection.toDetectionResult p
       /\ In (ObjectDetection.pred_class p)
            ["cell phone"; "book"; "laptop"; "mouse"; "keyboard"]
       /\ PrimFloat.leb 0.6%float (ObjectDetection.score p) = true)
  /\ (forall st d,
        In d (ObjectDetection.targetDetections predictions) ->
        ObjectDetection.class d = "cell phone" ->
        Interview.handleDetection fetch now st d
        = throughGate fetch now phone_detected 10000
            "Mobile phone detected in frame" high st)
  /\ (forall st d,
        In d (ObjectDetection.targetDetections predictions) ->
        ObjectDetection.class d = "book" ->
        Interview.handleDetection fetch now st d
        = throughGate fetch now book_detected 10000
            "Book or notes detected in frame" high st)
  /\ (forall st kind window description,
        Interview.withinCooldown (eventKey kind) now window st = false ->
        Interview.events (throughGate fetch now kind window description high st)
        = Interview.events st
          ++ [appended (nextId st) (nextDate st) kind description high])
  /\ (forall p w,
        PrimFloat.leb 0.6%float (ObjectDetection.score p) = false ->
        ObjectDetection.targetDetections (p :: predictions)
        = ObjectDetection.targetDetections predictions
        /\ detectionTick fetch now (Returned (p :: predictions)) w
           = detectionTick fetch now (Returned predictions) w
        /\ page (detectionTick fetch now (Returned [p]) w) = page w).
Proof.
  split; [| split; [| split; [| split]]].
  - intros d. rewrite targetDetections_In. setoid_rewrite isTarget_spec. reflexivity.
  - intros st d _ Hc. rewrite handleDetection_gate, Hc. reflexivity.
  - intros st d _ Hc. rewrite handleDetection_gate, Hc. reflexivity.
  - intros st kind window description Hopen. rewrite throughGate_state, Hopen. reflexivity.
  - intros p w Hlow.
    assert (Hdrop : ObjectDetection.isTarget p = false).
    { unfold ObjectDetection.isTarget, ObjectDetection.aboveThreshold.
      change DETECTION_CONFIG.CONFIDENCE_THRESHOLD with 0.6%float.
      rewrite Hlow. apply andb_false_r. }
    assert (Heq : ObjectDetection.targetDetections (p :: predictions)
                  = ObjectDetection.targetDetections predictions).
    { change (p :: predictions) with ([p] ++ predictions).
      by rewrite targetDetections_app, targetDetections_dropped. }
    split; [exact Heq | split].
    + unfold detectionTick, ObjectDetection.runDetection. by rewrite Heq.
    + apply detectionTick_page_unchanged.
      rewrite targetDetections_dropped by assumption. constructor.
Qed.

Lemma object_filter_retains_and_maps_witness :
  let w := run online [InitializeCamera true; StartProctoring 1000; ModelLoaded true;
                       DetectionTick 6000 (Returned [phoneAt 0.75])]
             (mount 0 (readingsOf [6001; 6001]) ∅) in
  score w = 80
  /\ page (detectionTick online 8000 (Returned [phoneAt 0.55]) w) = page w.
Proof.
  split; [reflexivity |].
  apply (object_filter_retains_and_maps online 8000 []). reflexivity.
Defined.

(** C10. A laptop, mouse or keyboard detection is in the target set, so
    at confidence 0.6 or more it passes the object filter; yet the page's
    callback takes no branch for it: no candidate reaches the gate, and
    the page (event log and integrity score included) stays as it was,
    alone or anywhere in a batch. A detection that does change the page
    is a cell phone or a book. *)
Theorem laptop_mouse_keyboard_emit_nothing fetch now p :
  In (ObjectDetection.pred_class p) ["laptop"; "mouse"; "keyboard"] ->
  (PrimFloat.leb 0.6%float (ObjectDetection.score p) = true ->
   ObjectDetection.targetDetections [p] = [ObjectDetection.toDetectionResult p])
  /\ (forall st,
        Interview.handleDetection fetch now st (ObjectDetection.toDetectionResult p) = st)
  /\ (forall ds es st,
        Interview.handleObjectDetection fetch now
          (ds ++ ObjectDetection.toDetectionResult p :: es) st
        = Interview.handleObjectDetection fetch now (ds ++ es) st)
  /\ (forall w, page (detectionTick fetch now (Returned [p]) w) = page w)
  /\ (forall st d,
        Interview.handleDetection fetch now st d <> st ->
        ObjectDetection.class d = "cell phone" \/ ObjectDetection.class d = "book").
Proof.
  intros Hclass.
  assert (Hne : ObjectDetection.class (ObjectDetection.toDetectionResult p) <> "cell phone"
                /\ ObjectDetection.class (ObjectDetection.toDetectionResult p) <> "book").
  { destruct (toDetectionResult_fields p) as (-> & _).
    simpl in Hclass. destruct Hclass as [<- | [<- | [<- | []]]]; split; discriminate. }
  split; [| split; [| split; [| split]]].
  - intros Hconf. unfold ObjectDetection.targetDetections. simpl.
    assert (Ht : ObjectDetection.isTarget p = true).
    { apply isTarget_spec. split; [| assumption]. simpl in *. tauto. }
    by rewrite Ht.
  - intros st. destruct Hne. by apply handleDetection_other.
  - intros ds es st.
    change (ds ++ ObjectDetection.toDetectionResult p :: es)
      with (ds ++ [ObjectDetection.toDetectionResult p] ++ es).
    rewrite !handleObjectDetection_app. f_equal.
    apply handleObjectDetection_others. constructor; [exact Hne | constructor].
  - intros w. apply detectionTick_page_unchanged.
    unfold ObjectDetection.targetDetections. simpl.
    destruct (ObjectDetection.isTarget p); simpl; repeat constructor; tauto || apply Hne.
  - intros st d. apply handleDetection_changes.
Qed.

Lemma laptop_mouse_keyboard_emit_nothing_witness :
  ObjectDetection.targetDetections [laptopAt 0.9]
  = [ObjectDetection.toDetectionResult (laptopAt 0.9)]
  /\ Interview.handleDetection online 6000 (Interview.initial 0 (readingsOf []))
       (ObjectDetection.toDetectionResult (laptopAt 0.9)) = Interview.initial 0 (readingsOf []).
Proof.
  assert (Hclass : In (ObjectDetection.pred_class (laptopAt 0.9))
                      ["laptop"; "mouse"; "keyboard"]) by (simpl; auto).
  destruct (laptop_mouse_keyboard_emit_nothing online 6000 (laptopAt 0.9) Hclass)
    as (Hpass & Hsame & _).
  split; [apply Hpass; reflexivity | apply Hsame].
Defined.

(** ** The presence debouncer *)

Lemma hasFaceOf_count results :
  FaceDetection.hasFaceOf results = (1 <=? FaceDetection.faceCountOf results)%nat.
Proof.
  unfold FaceDetection.hasFaceOf, FaceDetection.faceCountOf.
  destruct (FaceDetection.multiFaceLandmarks results) as [[| f faces] |]; reflexivity.
Qed.

Lemma onResults_inactive isActive now results r :
  isActive && FaceDetection.isModelReadyRef r = false ->
  FaceDetection.onResults isActive now results r = (r, None).
Proof.
  unfold FaceDetection.onResults.
  destruct isActive, (FaceDetection.isModelReadyRef r); simpl; by try discriminate.
Qed.

(** The callback on an active, ready hook, by number of faces. *)
Lemma onResults_none now results r :
  FaceDetection.isModelReadyRef r = true ->
  FaceDetection.faceCountOf results = 0%nat ->
  FaceDetection.onResults true now results r =
  (r, if FaceDetection.faceThreshold <? now - FaceDetection.lastFaceTimeRef r
      then Some {| FaceDetection.hasFace := false; FaceDetection.faceCount := 0;
                   FaceDetection.isLookingAway := false;
                   FaceDetection.landmarks := None |}
      else None).
Proof.
  intros Hready Hcount. unfold FaceDetection.onResults.
  rewrite hasFaceOf_count, Hcount, Hready. reflexivity.
Qed.

Lemma onResults_one now results r :
  FaceDetection.isModelReadyRef r = true ->
  FaceDetection.faceCountOf results = 1%nat ->
  FaceDetection.onResults true now results r =
  (FaceDetection.setLastLookingAwayTime now (FaceDetection.setLastFaceTime now r), None).
Proof.
  intros Hready Hcount. unfold FaceDetection.onResults.
  rewrite hasFaceOf_count, Hcount, Hready. reflexivity.
Qed.

Lemma onResults_many now results r :
  FaceDetection.isModelReadyRef r = true ->
  (1 < FaceDetection.faceCountOf results)%nat ->
  FaceDetection.onResults true now results r =
  (FaceDetection.setLastFaceTime now r,
   Some {| FaceDetection.hasFace := true;
           FaceDetection.faceCount := FaceDetection.faceCountOf results;
           FaceDetection.isLookingAway := false;
           FaceDetection.landmarks := FaceDetection.multiFaceLandmarks results |}).
Proof.
  intros Hready Hcount. unfold FaceDetection.onResults.
  rewrite hasFaceOf_count, Hready.
  destruct (Nat.leb_spec 1 (FaceDetection.faceCountOf results)); [| lia].
  destruct (Nat.ltb_spec 1 (FaceDetection.faceCountOf results)); [| lia].
  reflexivity.
Qed.

Lemma faceCount_cases n : n = 0%nat \/ n = 1%nat \/ (1 < n)%nat.
Proof. lia. Qed.

Lemma onResults_ready now results r :
  FaceDetection.isModelReadyRef r = true ->
  FaceDetection.isModelReadyRef (FaceDetection.onResults true now results r).1 = true.
Proof.
  intros Hready.
  destruct (faceCount_cases (FaceDetection.faceCountOf results)) as [H | [H | H]].
  - by rewrite onResults_none.
  - by rewrite onResults_one.
  - by rewrite onResults_many.
Qed.

Lemma onResults_lastFaceTime now results r :
  FaceDetection.isModelReadyRef r = true ->
  FaceDetection.lastFaceTimeRef (FaceDetection.onResults true now results r).1
  = if (1 <=? FaceDetection.faceCountOf results)%nat then now
    else FaceDetection.lastFaceTimeRef r.
Proof.
  intros Hready.
  destruct (faceCount_cases (FaceDetection.faceCountOf results)) as [H | [H | H]].
  - rewrite onResults_none, H by assumption. reflexivity.
  - rewrite onResults_one, H by assumption. reflexivity.
  - rewrite onResults_many by assumption.
    destruct (Nat.leb_spec 1 (FaceDetection.faceCountOf results)); [reflexivity | lia].
Qed.


(** The plain version of the callback calls [onFaceDetection] with the
    same argument and keeps the same last-seen time. *)
Lemma onResults_plain_agrees isActive now results r :
  (FaceDetection.onResults_plain isActive now results r).2
  = (FaceDetection.onResults isActive now results r).2
  /\ FaceDetection.lastFaceTimeRef (FaceDetection.onResults_plain isActive now results r).1
     = FaceDetection.lastFaceTimeRef (FaceDetection.onResults isActive now results r).1.
Proof.
  unfold FaceDetection.onResults_plain, FaceDetection.onResults.
  destruct (negb isActive || negb (FaceDetection.isModelReadyRef r)); [done |].
  destruct (1 <? _)%nat; [done |].
  destruct (FaceDetection.hasFaceOf results); simpl; [done |].
  by destruct (_ <? _).
Qed.

Lemma observe_snoc history o r :
  observe (history ++ [o]) r
  = (FaceDetection.onResults true o.1 o.2 (observe history r)).1.
Proof. unfold observe. by rewrite fold_left_app. Qed.

Lemma lastFaceSeenAt_snoc start history o :
  lastFaceSeenAt start (history ++ [o])
  = if (1 <=? FaceDetection.faceCountOf o.2)%nat then o.1
    else lastFaceSeenAt start history.
Proof. unfold lastFaceSeenAt. by rewrite fold_left_app. Qed.

Lemma observe_refs history r :
  FaceDetection.isModelReadyRef r = true ->
  FaceDetection.isModelReadyRef (observe history r) = true
  /\ FaceDetection.lastFaceTimeRef (observe history r)
     = lastFaceSeenAt (FaceDetection.lastFaceTimeRef r) history.
Proof.
  intros Hready. induction history as [| o history [IHr IHt]] using rev_ind.
  - by split.
  - rewrite observe_snoc, lastFaceSeenAt_snoc. split.
    + by apply onResults_ready.
    + rewrite onResults_lastFaceTime by assumption. by rewrite IHt.
Qed.





(** ** Looking away *)

Lemma onResults_isLookingAway isActive now results r result :
  (FaceDetection.onResults isActive now results r).2 = Some result ->
  FaceDetection.isLookingAway result = false.
Proof.
  unfold FaceDetection.onResults.
  destruct (negb isActive || negb (FaceDetection.isModelReadyRef r)); [discriminate |].
  destruct (1 <? _)%nat; simpl; [by intros [= <-] |].
  destruct (FaceDetection.hasFaceOf results); simpl; [discriminate |].
  destruct (_ <? _); [by intros [= <-] | discriminate].
Qed.

(** The looking-away timer is written and never read. *)
Lemma onResults_ignores_lookingAwayTime isActive now results r t :
  (FaceDetection.onResults isActive now results (FaceDetection.setLastLookingAwayTime t r)).2
  = (FaceDetection.onResults isActive now results r).2.
Proof.
  unfold FaceDetection.onResults. simpl.
  destruct (negb isActive || negb (FaceDetection.isModelReadyRef r)); [reflexivity |].
  destruct (1 <? _)%nat; [reflexivity |].
  by destruct (FaceDetection.hasFaceOf results).
Qed.

Lemma throughGate_noLookingAway fetch now kind window description severity st :
  kind <> looking_away ->
  noLookingAway (Interview.events st) ->
  noLookingAway (Interview.events (throughGate fetch now kind window description severity st)).
Proof.
  intros Hkind Hlog. rewrite throughGate_state.
  destruct (Interview.withinCooldown _ _ _ _); [assumption |]. simpl.
  apply Forall_app. split; [assumption | by repeat constructor].
Qed.

Lemma handleFaceDetection_noLookingAway fetch now result st :
  FaceDetection.isLookingAway result = false ->
  noLookingAway (Interview.events st) ->
  noLookingAway (Interview.events (Interview.handleFaceDetection fetch now result st)).
Proof.
  intros Hla Hlog. rewrite handleFaceDetection_gate, Hla.
  destruct (negb _); [by apply throughGate_noLookingAway |].
  destruct (1 <? _)%nat; [by apply throughGate_noLookingAway | assumption].
Qed.

Lemma handleObjectDetection_noLookingAway fetch now detections st :
  noLookingAway (Interview.events st) ->
  noLookingAway (Interview.events (Interview.handleObjectDetection fetch now detections st)).
Proof.
  unfold Interview.handleObjectDetection. revert st.
  induction detections as [| d ds IH]; intros st Hlog; simpl; [assumption |].
  apply IH. rewrite handleDetection_gate.
  destruct (String.eqb _ _); [by apply throughGate_noLookingAway |].
  destruct (String.eqb _ _); [by apply throughGate_noLookingAway | assumption].
Qed.

Lemma step_noLookingAway fetch w a :
  noLookingAway (Interview.events (page w)) ->
  noLookingAway (Interview.events (page (step fetch w a))).
Proof.
  intros Hlog. destruct a; unfold step; try (destruct (location w); [| assumption]).
  - constructor.
  - destruct (Interview.cameraActive (page w)); [assumption |].
    simpl. by destruct granted.
  - destruct (_ && _); [constructor | assumption].
  - assumption.
  - assumption.
  - unfold faceResults.
    destruct (FaceDetection.onResults _ _ _ _) as [refs [result |]] eqn:Hcall;
      [| assumption].
    simpl. apply handleFaceDetection_noLookingAway; [| assumption].
    eapply onResults_isLookingAway. by rewrite Hcall.
  - unfold detectionTick. destruct (_ && _); [| assumption].
    destruct (ObjectDetection.runDetection _ _ _) as [refs [detections |]];
      [| assumption].
    simpl. by apply handleObjectDetection_noLookingAway.
  - destruct (Interview.isProctoring (page w)); [| assumption].
    destruct (demoClick_state fetch button (page w)) as (kind & d & Heq & Hkind).
    simpl. rewrite Heq. simpl. apply Forall_app. split; [assumption | by repeat constructor].
  - simpl. unfold Interview.updateDuration.
    destruct (Interview.isProctoring (page w)), (Interview.startTimeRef (page w));
      assumption.
  - destruct (_ && _); [| assumption].
    simpl. by destruct (Interview.streamRef (page w)).
  - by destruct (Report.loadReport _ _).
Qed.

Lemma run_noLookingAway fetch actions now0 date storage :
  noLookingAway (Interview.events (page (run fetch actions (mount now0 date storage)))).
Proof.
  induction actions as [| a actions IH] using rev_ind.
  - constructor.
  - rewrite run_snoc. by apply step_noLookingAway.
Qed.

(** The version of the callback without the refresh never writes the
    looking-away timer. *)
Lemma onResults_plain_lookingAwayTime isActive now results r :
  FaceDetection.lastLookingAwayTimeRef (FaceDetection.onResults_plain isActive now results r).1
  = FaceDetection.lastLookingAwayTimeRef r.
Proof.
  unfold FaceDetection.onResults_plain.
  destruct (negb isActive || negb (FaceDetection.isModelReadyRef r)); [reflexivity |].
  destruct (FaceDetection.hasFaceOf results); simpl.
  - by destruct (1 <? _)%nat.
  - destruct (1 <? _)%nat; [reflexivity |]. by destruct (_ <? _).
Qed.

Lemma mockOnResults_isLookingAway isActive now results r result :
  (FaceDetection.mockOnResults isActive now results r).2 = Some result ->
  FaceDetection.isLookingAway result = false.
Proof.
  unfold FaceDetection.mockOnResults.
  destruct (negb isActive || negb (FaceDetection.isModelReadyRef r)); [discriminate |].
  destruct (1 <? _)%nat; simpl; [by intros [= <-] |].
  destruct (FaceDetection.hasFaceOf results); simpl; [discriminate |].
  destruct (_ <? _); [by intros [= <-] | discriminate].
Qed.

Lemma candidate_through_gate fetch now result st :
  isLookingAwayCandidate result = true ->
  Interview.handleFaceDetection fetch now result st
  = throughGate fetch now looking_away 5000 "Candidate looked away from screen" medium st.
Proof.
  unfold isLookingAwayCandidate. intros Hcand.
  apply andb_prop in Hcand as [Hcand Hla]. apply andb_prop in Hcand as [Hface Hcount].
  apply negb_true_iff in Hcount.
  rewrite handleFaceDetection_gate, Hface, Hcount, Hla. reflexivity.
Qed.

(** C6, as the code has it. Looking-away detection is switched off in
    the face observer. The version of the callback with the timer refresh
    sets [lastLookingAwayTimeRef] on a frame with exactly one face and
    the other version never writes that timer; neither reads it, and
    every result that either of them, or the callback of the fallback
    mesh, hands to the page has [isLookingAway] false, so that no
    looking-away candidate reaches the cooldown gate and the log of a
    page never holds a looking-away event. A looking-away candidate, were
    one to reach the page, would go through the gate with the cooldown of
    5000 ms and severity medium, and its acceptance would deduct 5. *)
Theorem looking_away_is_never_emitted fetch actions now0 date storage :
  (forall now results r,
     FaceDetection.isModelReadyRef r = true ->
     FaceDetection.faceCountOf results = 1%nat ->
     FaceDetection.lastLookingAwayTimeRef (FaceDetection.onResults true now results r).1
     = now)
  /\ (forall isActive now results r,
        FaceDetection.lastLookingAwayTimeRef
          (FaceDetection.onResults_plain isActive now results r).1
        = FaceDetection.lastLookingAwayTimeRef r)
  /\ (forall isActive now results r t,
        (FaceDetection.onResults isActive now results
           (FaceDetection.setLastLookingAwayTime t r)).2
        = (FaceDetection.onResults isActive now results r).2
        /\ (FaceDetection.onResults_plain isActive now results
              (FaceDetection.setLastLookingAwayTime t r)).2
           = (FaceDetection.onResults_plain isActive now results r).2)
  /\ (forall isActive now results r result,
        (FaceDetection.onResults isActive now results r).2 = Some result
        \/ (FaceDetection.onResults_plain isActive now results r).2 = Some result
        \/ (FaceDetection.mockOnResults isActive now results r).2 = Some result ->
        FaceDetection.isLookingAway result = false
        /\ isLookingAwayCandidate result = false)
  /\ (forall e,
        In e (Interview.events (page (run fetch actions (mount now0 date storage)))) ->
        Interview.type e <> looking_away)
  /\ (forall now result st,
        isLookingAwayCandidate result = true ->
        Interview.handleFaceDetection fetch now result st
        = throughGate fetch now looking_away 5000
            "Candidate looked away from screen" medium st
        /\ (Interview.withinCooldown "looking_away" now 5000 st = true ->
            Interview.handleFaceDetection fetch now result st = st)
        /\ (Interview.withinCooldown "looking_away" now 5000 st = false ->
            let st' := Interview.handleFaceDetection fetch now result st in
            Interview.events st'
            = Interview.events st
              ++ [appended (nextId st) (nextDate st) looking_away
                    "Candidate looked away from screen" medium]
            /\ Interview.integrityScore st' = Z.max 0 (Interview.integrityScore st - 5)
            /\ Interview.lastEventTimeRef st'
               = <["looking_away" := now]> (Interview.lastEventTimeRef st)))
  /\ DETECTION_CONFIG.EVENT_COOLDOWN.FACE_EVENTS = 5000
  /\ Interview.scoreDeduction looking_away = 5.
Proof.
  split; [| split; [| split; [| split; [| split; [| split; [| split]]]]]].
  - intros now results r Hready Hone. by rewrite onResults_one.
  - intros. apply onResults_plain_lookingAwayTime.
  - intros isActive now results r t.
    destruct (onResults_plain_agrees isActive now results r) as [-> _].
    destruct (onResults_plain_agrees isActive now results
                (FaceDetection.setLastLookingAwayTime t r)) as [-> _].
    split; apply onResults_ignores_lookingAwayTime.
  - intros isActive now results r result Hcall.
    assert (Hla : FaceDetection.isLookingAway result = false).
    { destruct Hcall as [Hcall | [Hcall | Hcall]].
      - by apply onResults_isLookingAway in Hcall.
      - destruct (onResults_plain_agrees isActive now results r) as [Heq _].
        rewrite Heq in Hcall. by apply onResults_isLookingAway in Hcall.
      - by apply mockOnResults_isLookingAway in Hcall. }
    split; [assumption |]. unfold isLookingAwayCandidate. rewrite Hla. apply andb_false_r.
  - intros e Hin.
    pose proof (run_noLookingAway fetch actions now0 date storage) as Hlog.
    unfold noLookingAway in Hlog. rewrite List.Forall_forall in Hlog. by apply Hlog.
  - intros now result st Hcand.
    rewrite (candidate_through_gate fetch now result st Hcand).
    split; [reflexivity |]. rewrite throughGate_state.
    change (eventKey looking_away) with "looking_away".
    split; [by intros -> | by intros ->].
  - reflexivity.
  - reflexivity.
Qed.

Lemma looking_away_is_never_emitted_witness :
  FaceDetection.lastLookingAwayTimeRef
    (FaceDetection.onResults true 7000 (facesSeen 1) (readyRefs 0)).1 = 7000
  /\ (let candidate :=
        {| FaceDetection.hasFace := true; FaceDetection.faceCount := 1%nat;
           FaceDetection.isLookingAway := true; FaceDetection.landmarks := None |} in
      let st := Interview.startProctoring 1000 (Interview.initial 0 (readingsOf [7001; 7002])) in
      let st' := Interview.handleFaceDetection online 7000 candidate st in
      map Interview.timestamp (Interview.events st') = [7002]
      /\ Interview.integrityScore st' = 95).
Proof.
  pose proof (looking_away_is_never_emitted online [] 0 (readingsOf []) ∅)
    as (Hrefresh & _ & _ & _ & _ & Hgate & _).
  split; [apply Hrefresh; reflexivity |].
  intros candidate st st'.
  destruct (Hgate 7000 candidate st eq_refl) as (_ & _ & Hopen).
  destruct (Hopen eq_refl) as (Hlog & Hscore & _).
  subst st'. rewrite Hlog, Hscore. split; reflexivity.
Defined.

(** C6, as stated, fails: a face is in view from 1000 ms on, the
    looking-away timer is more than 5000 ms old at the frame of 7000 ms,
    and no candidate is emitted; nor is there any frame on which the
    callback emits a looking-away candidate. *)
Lemma looking_away_candidate_counterexample :
  DETECTION_CONFIG.LOOKING_AWAY_THRESHOLD
    < 7000 - FaceDetection.lastLookingAwayTimeRef (observe [(1000, facesSeen 1)] (readyRefs 0))
  /\ emissions [(1000, facesSeen 1); (7000, facesSeen 1); (13000, facesSeen 1)]
       (readyRefs 0) = []
  /\ ~ (exists isActive now results r result,
          (FaceDetection.onResults isActive now results r).2 = Some result
          /\ isLookingAwayCandidate result = true).
Proof.
  split; [reflexivity | split; [reflexivity |]].
  intros (isActive & now & results & r & result & Hcall & Hcand).
  apply onResults_isLookingAway in Hcall.
  unfold isLookingAwayCandidate in Hcand. rewrite Hcall, andb_false_r in Hcand.
  discriminate.
Qed.

(** ** The grace period of the absence timer *)

(** C7, on the code. The last-seen time is set when the page is first
    rendered and [startProctoring] leaves it alone, so the grace period of
    the absence timer runs from the rendering of the page, not from the
    start of the session: on a page rendered at 1000 ms whose session
    starts at 61000 ms, a first observation without a face at 65000 ms,
    4000 ms into the session, is logged as a face-absent event and costs
    10 points. *)
Theorem face_absent_grace_runs_from_mount (date : Clock) :
  (forall now0 storage,
     FaceDetection.lastFaceTimeRef (faceRefs (mount now0 date storage)) = now0)
  /\ (forall fetch now w, faceRefs (step fetch w (StartProctoring now)) = faceRefs w)
  /\ (let w := run online [InitializeCamera true; StartProctoring 61000;
                           FaceMeshInitialized] (mount 1000 date ∅) in
      Interview.startTimeRef (page w) = Some 61000
      /\ Interview.events (page w) = []
      /\ 65000 - 61000 <= DETECTION_CONFIG.FACE_ABSENT_THRESHOLD
      /\ map Interview.type
           (Interview.events (page (step online w (FaceResults 65000 (facesSeen 0)))))
         = [face_absent]
      /\ score (step online w (FaceResults 65000 (facesSeen 0))) = 90).
Proof.
  split; [reflexivity | split].
  - intros fetch now w. unfold step. destruct (location w); [| reflexivity].
    by destruct (_ && _).
  - repeat split; try reflexivity. vm_compute. discriminate.
Qed.

(** ** The cooldown gate *)

Lemma eventKey_inj k1 k2 : eventKey k1 = eventKey k2 -> k1 = k2.
Proof. destruct k1, k2; simpl; intros H; first [reflexivity | discriminate H]. Qed.

Lemma cooldown_pos kind : 0 < cooldown kind.
Proof. destruct kind; simpl; lia. Qed.

(** *** The latest acceptance of a kind *)

Lemma lastAcceptance_snoc kind trace k t :
  lastAcceptance kind (trace ++ [(k, t)])
  = if decide (k = kind) then Some t else lastAcceptance kind trace.
Proof. unfold lastAcceptance. by rewrite fold_left_app. Qed.

Lemma lastAcceptance_None kind trace :
  lastAcceptance kind trace = None <-> ~ In kind (map fst trace).
Proof.
  induction trace as [| [k t] trace IH] using rev_ind; [by split; [intros _ [] |] |].
  rewrite lastAcceptance_snoc, map_app, in_app_iff. simpl.
  destruct (decide (k = kind)) as [-> | Hne].
  - split; [discriminate | intros Hnot; exfalso; apply Hnot; auto].
  - rewrite IH. split; [intros Hnot [Hin | [Heq | []]]; congruence || auto | tauto].
Qed.

Lemma lastAcceptance_In kind trace last :
  lastAcceptance kind trace = Some last -> In (kind, last) trace.
Proof.
  induction trace as [| [k t] trace IH] using rev_ind; [discriminate |].
  rewrite lastAcceptance_snoc, in_app_iff. simpl.
  destruct (decide (k = kind)) as [-> | Hne]; [intros [= ->]; auto | auto].
Qed.

Lemma lastAcceptance_Some kind trace t :
  In (kind, t) trace -> exists last, lastAcceptance kind trace = Some last.
Proof.
  intros Hin. destruct (lastAcceptance kind trace) as [last |] eqn:Hlast; [eauto |].
  apply lastAcceptance_None in Hlast. exfalso. apply Hlast.
  apply in_map_iff. by exists (kind, t).
Qed.

(** *** The gate keeps the ledger in step with its acceptances *)

(** The gate lets a candidate through only if every acceptance of its
    kind is at least one cooldown old. *)
Lemma gate_open_far now kind st trace t :
  ledgerFollows (Interview.lastEventTimeRef st) trace ->
  Interview.withinCooldown (eventKey kind) now (cooldown kind) st = false ->
  In (kind, t) trace ->
  cooldown kind <= now - t.
Proof.
  intros (Hledger & Hset & Hold) Hopen Hin.
  destruct (lastAcceptance_Some kind trace t Hin) as [last Hlast].
  pose proof (Hset kind last (lastAcceptance_In _ _ _ Hlast)) as Hnz.
  unfold Interview.withinCooldown in Hopen. rewrite Hledger, Hlast in Hopen.
  destruct (Z.eqb_spec last 0); [contradiction |]. simpl in Hopen.
  apply Z.ltb_ge in Hopen. pose proof (cooldown_pos kind).
  destruct (Hold kind t last Hin Hlast); lia.
Qed.

Lemma gateInvariant_accept now kind ledger trace :
  now <> 0 ->
  (forall t, In (kind, t) trace -> cooldown kind <= now - t) ->
  gateInvariant ledger trace ->
  gateInvariant (<[eventKey kind := now]> ledger) (trace ++ [(kind, now)]).
Proof.
  intros Hnow Hfar [(Hledger & Hset & Hold) Hkept].
  split; [split; [| split] |].
  - intros k. rewrite lastAcceptance_snoc.
    destruct (decide (kind = k)) as [-> | Hne]; [by rewrite lookup_insert_eq |].
    rewrite lookup_insert_ne; [apply Hledger |].
    intros Hk. apply eventKey_inj in Hk. congruence.
  - intros k t Hin. apply in_app_or in Hin as [Hin | [[= <- <-] | []]]; eauto.
  - intros k t last Hin. rewrite lastAcceptance_snoc.
    destruct (decide (kind = k)) as [<- | Hne].
    + intros [= <-]. apply in_app_or in Hin as [Hin | [[= <-] | []]]; auto.
    + intros Hlast. apply in_app_or in Hin as [Hin | [[= <- <-] | []]]; [eauto | congruence].
  - intros k t1 t2 Hin1 Hin2 Hlt.
    apply in_app_or in Hin1 as [Hin1 | [[= <- <-] | []]];
      apply in_app_or in Hin2 as [Hin2 | [Heq | []]].
    + by apply (Hkept k).
    + injection Heq as <- <-. by apply Hfar.
    + specialize (Hfar t2 Hin2). pose proof (cooldown_pos kind). lia.
    + injection Heq as <-. lia.
Qed.

Lemma gateInvariant_fresh : gateInvariant ∅ [].
Proof.
  split; [split; [| split] |].
  - intros kind. apply lookup_empty.
  - intros kind t [].
  - intros kind t last [].
  - intros kind t1 t2 [].
Qed.

Lemma gateStep_refl now trace st :
  gateInvariant (Interview.lastEventTimeRef st) trace -> gateStep now trace st st.
Proof. intros Hinv. exists []. simpl. by rewrite !app_nil_r. Qed.

Lemma gateStep_trans now trace st st' st'' :
  (gateInvariant (Interview.lastEventTimeRef st) trace -> gateStep now trace st st') ->
  (forall trace', gateInvariant (Interview.lastEventTimeRef st') trace' ->
                  gateStep now trace' st' st'') ->
  gateInvariant (Interview.lastEventTimeRef st) trace -> gateStep now trace st st''.
Proof.
  intros H1 H2 Hinv. destruct (H1 Hinv) as (new1 & Hlog1 & Hinv1).
  destruct (H2 _ Hinv1) as (new2 & Hlog2 & Hinv2).
  exists (new1 ++ new2). rewrite Hlog2, Hlog1, map_app, !app_assoc. by split.
Qed.

Lemma throughGate_gateStep fetch now kind description severity st trace :
  now <> 0 ->
  gateInvariant (Interview.lastEventTimeRef st) trace ->
  gateStep now trace st (throughGate fetch now kind (cooldown kind) description severity st).
Proof.
  intros Hnow Hinv. rewrite throughGate_state.
  destruct (Interview.withinCooldown _ _ _ _) eqn:Hopen; [by apply gateStep_refl |].
  exists [appended (nextId st) (nextDate st) kind description severity].
  split; [reflexivity |]. simpl.
  apply gateInvariant_accept; [assumption | | assumption].
  intros t. apply (gate_open_far now kind st trace t); [apply Hinv | assumption].
Qed.

Lemma handleFaceDetection_gateStep fetch now result st trace :
  now <> 0 ->
  gateInvariant (Interview.lastEventTimeRef st) trace ->
  gateStep now trace st (Interview.handleFaceDetection fetch now result st).
Proof.
  intros Hnow Hinv. rewrite handleFaceDetection_gate.
  destruct (negb _); [by apply (throughGate_gateStep fetch now face_absent) |].
  destruct (1 <? _)%nat; [by apply (throughGate_gateStep fetch now multiple_faces) |].
  destruct (FaceDetection.isLookingAway result);
    [by apply (throughGate_gateStep fetch now looking_away) | by apply gateStep_refl].
Qed.

Lemma handleDetection_gateStep fetch now st detection trace :
  now <> 0 ->
  gateInvariant (Interview.lastEventTimeRef st) trace ->
  gateStep now trace st (Interview.handleDetection fetch now st detection).
Proof.
  intros Hnow Hinv. rewrite handleDetection_gate.
  destruct (String.eqb _ _); [by apply (throughGate_gateStep fetch now phone_detected) |].
  destruct (String.eqb _ _);
    [by apply (throughGate_gateStep fetch now book_detected) | by apply gateStep_refl].
Qed.

Lemma handleObjectDetection_gateStep fetch now detections st trace :
  now <> 0 ->
  gateInvariant (Interview.lastEventTimeRef st) trace ->
  gateStep now trace st (Interview.handleObjectDetection fetch now detections st).
Proof.
  intros Hnow. unfold Interview.handleObjectDetection. revert st trace.
  induction detections as [| d ds IH]; intros st trace; simpl;
    [apply gateStep_refl |].
  apply (gateStep_trans now trace st (Interview.handleDetection fetch now st d)).
  - by apply handleDetection_gateStep.
  - intros trace'. apply IH.
Qed.

(** *** Acceptances along a run *)

Lemma added_new fetch w a new :
  Interview.events (page (step fetch w a)) = Interview.events (page w) ++ new ->
  added fetch w a = new.
Proof. intros Hlog. unfold added. rewrite Hlog. apply drop_app_length. Qed.

Lemma added_none fetch w a :
  Interview.events (page (step fetch w a)) = Interview.events (page w) ->
  added fetch w a = [].
Proof. intros Hlog. apply added_new. by rewrite app_nil_r. Qed.

Lemma gateStep_accepts fetch w a now trace :
  gateAccepts fetch w a = map (fun e => (Interview.type e, now)) (added fetch w a) ->
  gateStep now trace (page w) (page (step fetch w a)) ->
  gateInvariant (Interview.lastEventTimeRef (page (step fetch w a)))
    (trace ++ gateAccepts fetch w a).
Proof.
  intros -> (new & Hlog & Hinv). by rewrite (added_new fetch w a new Hlog).
Qed.

Lemma demoClick_ledger fetch button st :
  Interview.lastEventTimeRef (demoClick fetch button st) = Interview.lastEventTimeRef st.
Proof. by destruct (demoClick_state fetch button st) as (kind & d & -> & _). Qed.

Lemma step_gateInvariant fetch w a trace :
  gateClockSet a = true ->
  gateInvariant (Interview.lastEventTimeRef (page w)) trace ->
  gateInvariant (Interview.lastEventTimeRef (page (step fetch w a)))
    (match a with
     | OpenInterview _ => []
     | _ => trace ++ gateAccepts fetch w a
     end).
Proof.
  intros Hclock Hinv.
  destruct a;
    try (apply (gateStep_accepts fetch w _ now trace); [reflexivity |]);
    try (simpl gateAccepts; rewrite app_nil_r);
    unfold step; try (destruct (location w); [| by (assumption || apply gateStep_refl)]).
  - apply gateInvariant_fresh.
  - destruct (Interview.cameraActive (page w)); [assumption |].
    simpl. by destruct granted.
  - by destruct (_ && _).
  - assumption.
  - assumption.
  - simpl in Hclock. apply negb_true_iff, Z.eqb_neq in Hclock. unfold faceResults.
    destruct (FaceDetection.onResults _ _ _ _) as [refs [result |]];
      [| by apply gateStep_refl].
    simpl. by apply handleFaceDetection_gateStep.
  - simpl in Hclock. apply negb_true_iff, Z.eqb_neq in Hclock. unfold detectionTick.
    destruct (_ && _); [| by apply gateStep_refl].
    destruct (ObjectDetection.runDetection _ _ _) as [refs [detections |]];
      [| by apply gateStep_refl].
    simpl. by apply handleObjectDetection_gateStep.
  - destruct (Interview.isProctoring (page w)); [| assumption].
    simpl. by rewrite demoClick_ledger.
  - simpl. unfold Interview.updateDuration.
    destruct (Interview.isProctoring (page w)), (Interview.startTimeRef (page w));
      assumption.
  - destruct (_ && _); [| assumption].
    simpl. by destruct (Interview.streamRef (page w)).
  - by destruct (Report.loadReport _ _).
Qed.

Lemma acceptances_snoc fetch actions a w trace :
  acceptances fetch (actions ++ [a]) w trace
  = match a with
    | OpenInterview _ => []
    | _ => acceptances fetch actions w trace ++ gateAccepts fetch (run fetch actions w) a
    end.
Proof.
  revert w trace. induction actions as [| a0 actions IH]; intros w trace; simpl.
  - by destruct a.
  - apply IH.
Qed.

Lemma run_gateInvariant fetch actions now0 date storage :
  forallb gateClockSet actions = true ->
  gateInvariant
    (Interview.lastEventTimeRef (page (run fetch actions (mount now0 date storage))))
    (acceptances fetch actions (mount now0 date storage) []).
Proof.
  induction actions as [| a actions IH] using rev_ind; intros Hall.
  - apply gateInvariant_fresh.
  - rewrite forallb_app in Hall. apply andb_true_iff in Hall as [Hall Ha].
    simpl in Ha. rewrite andb_true_r in Ha.
    rewrite run_snoc, acceptances_snoc. apply step_gateInvariant; auto.
Qed.

Lemma demoClick_demoKind fetch button st :
  demoClick fetch button st =
  Interview.setIntegrityScore
    (fun prev => Z.max 0 (prev - deduction (demoKind button)))
    (Interview.setEvents
       (fun prev =>
          prev ++ [appended (nextId st) (nextDate st) (demoKind button)
                     (descriptionOf (demoKind button)) high])
       (Interview.setClock (afterEvent (Interview.clock st)) st)).
Proof.
  destruct button; unfold demoClick, Interview.addDemoEvent;
    rewrite addEvent_state, scoreDeduction_table; reflexivity.
Qed.

(** C3, as the code has it. Along any run, demo clicks included, in
    which the detection callbacks run at non-zero clock readings: any two
    acceptances of one kind by the cooldown gate, at the readings
    t1 < t2 that the callbacks compared with the ledger, satisfy
    t2 - t1 >= cooldown(kind), with 5000 ms for face_absent, looking_away
    and multiple_faces and 10000 ms for phone_detected and book_detected;
    the ledger holds, for every kind, the reading of its latest
    acceptance; the gate accepts a candidate whose kind it has not
    accepted before on the page, and otherwise accepts exactly when the
    latest acceptance of the kind is at least one cooldown old. A demo
    button calls [addEvent] directly: its event is appended and scored,
    and the ledger is neither consulted nor updated. *)
Theorem detector_events_respect_cooldown fetch actions now0 date storage :
  forallb gateClockSet actions = true ->
  let st := page (run fetch actions (mount now0 date storage)) in
  let trace := acceptances fetch actions (mount now0 date storage) [] in
  (forall kind t1 t2,
     In (kind, t1) trace -> In (kind, t2) trace -> t1 < t2 -> cooldown kind <= t2 - t1)
  /\ (forall kind, cooldown kind = match kind with
                                   | face_absent | looking_away | multiple_faces => 5000
                                   | phone_detected | book_detected => 10000
                                   end)
  /\ (forall kind,
        Interview.lastEventTimeRef st !! eventKey kind = lastAcceptance kind trace)
  /\ (forall now kind window description severity,
        ~ In kind (map fst trace) ->
        Interview.events (throughGate fetch now kind window description severity st)
        = Interview.events st
          ++ [appended (nextId st) (nextDate st) kind description severity]
        /\ Interview.integrityScore
             (throughGate fetch now kind window description severity st)
           = Z.max 0 (Interview.integrityScore st - deduction kind))
  /\ (forall now kind description severity last,
        lastAcceptance kind trace = Some last ->
        Interview.events
          (throughGate fetch now kind (cooldown kind) description severity st)
        = if now - last <? cooldown kind then Interview.events st
          else Interview.events st
               ++ [appended (nextId st) (nextDate st) kind description severity])
  /\ (forall now result,
        Interview.handleFaceDetection fetch now result st
        = if negb (FaceDetection.hasFace result) then
            throughGate fetch now face_absent (cooldown face_absent)
              "No face detected in frame" high st
          else if (1 <? FaceDetection.faceCount result)%nat then
            throughGate fetch now multiple_faces (cooldown multiple_faces)
              "Multiple faces detected in frame" high st
          else if FaceDetection.isLookingAway result then
            throughGate fetch now looking_away (cooldown looking_away)
              "Candidate looked away from screen" medium st
          else st)
  /\ (forall now detection,
        Interview.handleDetection fetch now st detection
        = if String.eqb (ObjectDetection.class detection) "cell phone" then
            throughGate fetch now phone_detected (cooldown phone_detected)
              "Mobile phone detected in frame" high st
          else if String.eqb (ObjectDetection.class detection) "book" then
            throughGate fetch now book_detected (cooldown book_detected)
              "Book or notes detected in frame" high st
          else st)
  /\ (forall button,
        let st' := demoClick fetch button st in
        Interview.lastEventTimeRef st' = Interview.lastEventTimeRef st
        /\ Interview.events st'
           = Interview.events st
             ++ [appended (nextId st) (nextDate st) (demoKind button)
                   (descriptionOf (demoKind button)) high]
        /\ Interview.integrityScore st'
           = Z.max 0 (Interview.integrityScore st - deduction (demoKind button))).
Proof.
  intros Hall st trace.
  destruct (run_gateInvariant fetch actions now0 date storage Hall)
    as [(Hledger & Hset & Hold) Hkept].
  fold st in Hledger. fold trace in Hledger, Hset, Hold, Hkept.
  split; [exact Hkept | split; [by intros [] | split; [exact Hledger |
    split; [| split; [| split; [| split]]]]]].
  - intros now kind window description severity Hnone.
    apply lastAcceptance_None in Hnone.
    rewrite throughGate_state. unfold Interview.withinCooldown.
    by rewrite Hledger, Hnone.
  - intros now kind description severity last Hlast.
    pose proof (Hset kind last (lastAcceptance_In _ _ _ Hlast)) as Hnz.
    rewrite throughGate_state. unfold Interview.withinCooldown. rewrite Hledger, Hlast.
    destruct (Z.eqb_spec last 0); [contradiction |]. simpl.
    by destruct (now - last <? cooldown kind).
  - intros now result. apply handleFaceDetection_gate.
  - intros now detection. apply handleDetection_gate.
  - intros button st'. subst st'. by rewrite demoClick_demoKind.
Qed.

Lemma detector_events_respect_cooldown_witness :
  let actions := [InitializeCamera true; StartProctoring 1000; FaceMeshInitialized;
                  FaceResults 12000 (facesSeen 0); DemoClick SimulateFaceAbsent;
                  FaceResults 13000 (facesSeen 0); FaceResults 17000 (facesSeen 0)] in
  let date := readingsOf [12001; 12002; 12500; 12500; 17001; 17002] in
  forallb gateClockSet actions = true
  /\ acceptances online actions (mount 1000 date ∅) []
     = [(face_absent, 12000); (face_absent, 17000)]
  /\ map (fun e => (Interview.type e, Interview.timestamp e))
       (Interview.events (page (run online actions (mount 1000 date ∅))))
     = [(face_absent, 12002); (face_absent, 12500); (face_absent, 17002)]
  /\ cooldown face_absent <= 17000 - 12000.
Proof.
  intros actions date.
  split; [reflexivity | split; [reflexivity | split; [reflexivity |]]].
  destruct (detector_events_respect_cooldown online actions 1000 date ∅ eq_refl)
    as (Hkept & _).
  apply Hkept; [vm_compute; auto | vm_compute; auto | lia].
Defined.

(** The timestamp of an event is read after the gate has compared its
    own reading: a first callback that takes 3 ms to reach [new Date()]
    and a second one, a full cooldown later, that takes none leave two
    detector events whose timestamps are 4997 ms apart. *)
Example detector_timestamps_drift :
  let w := run online [InitializeCamera true; StartProctoring 1000; FaceMeshInitialized;
                       FaceResults 12000 (facesSeen 0); FaceResults 17000 (facesSeen 0)]
             (mount 1000 (readingsOf [12001; 12003; 17000; 17000]) ∅) in
  acceptances online [InitializeCamera true; StartProctoring 1000; FaceMeshInitialized;
                      FaceResults 12000 (facesSeen 0); FaceResults 17000 (facesSeen 0)]
    (mount 1000 (readingsOf [12001; 12003; 17000; 17000]) ∅) []
  = [(face_absent, 12000); (face_absent, 17000)]
  /\ map (fun e => (Interview.type e, Interview.timestamp e)) (Interview.events (page w))
     = [(face_absent, 12003); (face_absent, 17000)]
  /\ ~ cooldownRespected (Interview.events (page w)).
Proof.
  split; [reflexivity | split; [reflexivity |]].
  intros Hresp.
  specialize (Hresp (appended 12001 12003 face_absent "No face detected in frame" high)
                    (appended 17000 17000 face_absent "No face detected in frame" high)).
  assert (5000 <= 17000 - 12003); [| lia].
  apply Hresp; [vm_compute; auto | vm_compute; auto | reflexivity | simpl; lia].
Qed.

(** C3, as stated, fails: two clicks on the demo button for an absent
    face, 1000 ms apart, are both logged and both scored. *)
Lemma demo_events_bypass_cooldown_counterexample :
  let w := run online [InitializeCamera true; StartProctoring 1000;
                       DemoClick SimulateFaceAbsent;
                       DemoClick SimulateFaceAbsent]
             (mount 0 (readingsOf [2000; 2000; 3000; 3000]) ∅) in
  map (fun e => (Interview.type e, Interview.timestamp e)) (Interview.events (page w))
  = [(face_absent, 2000); (face_absent, 3000)]
  /\ score w = 80
  /\ ~ cooldownRespected (Interview.events (page w)).
Proof.
  split; [reflexivity | split; [reflexivity |]].
  intros Hresp.
  specialize (Hresp (appended 2000 2000 face_absent "No face detected in frame" high)
                    (appended 3000 3000 face_absent "No face detected in frame" high)).
  simpl in Hresp.
  assert (5000 <= 3000 - 2000); [| lia].
  apply Hresp; auto; lia.
Qed.

(** ** The session report *)

Lemma loadEvent_storeEvent e : Report.loadEvent (Interview.storeEvent e) = e.
Proof. by destruct e. Qed.

Lemma loadEvent_storeEvent_map log :
  map Report.loadEvent (map Interview.storeEvent log) = log.
Proof.
  induction log as [| e log IH]; simpl; [reflexivity |].
  by rewrite loadEvent_storeEvent, IH.
Qed.

Lemma loadReport_after_stop now st storage now1 :
  Report.loadReport now1 (Interview.stopProctoring now st storage).2 =
  ({| Report.interviewId := Interview.interviewIdRef st;
      Report.duration := Interview.interviewDuration st;
      Report.events := Interview.events st;
      Report.integrityScore := Interview.integrityScore st;
      Report.startTime := default 0 (Interview.startTimeRef st);
      Report.endTime := now |},
   delete "currentReport" storage).
Proof.
  unfold Report.loadReport, Interview.stopProctoring. simpl.
  rewrite lookup_insert_eq. simpl. rewrite loadEvent_storeEvent_map, delete_insert_eq.
  by destruct (Interview.startTimeRef st).
Qed.

Lemma loadReport_consumed now storage :
  storage !! "currentReport" = None ->
  Report.loadReport now storage = (Report.demoReport now, storage).
Proof. unfold Report.loadReport. by intros ->. Qed.

Lemma step_on_report_page fetch w a :
  location w = ReportPage -> opensPage a = false -> step fetch w a = w.
Proof. intros Hloc Ha. destruct a; try discriminate; unfold step; by rewrite Hloc. Qed.

Lemma step_sessionStorage fetch w a :
  touchesStorage a = false -> sessionStorage (step fetch w a) = sessionStorage w.
Proof.
  intros Ha. destruct a; try discriminate; unfold step; try reflexivity;
    destruct (location w); try reflexivity.
  - by destruct (Interview.cameraActive (page w)).
  - by destruct (_ && _).
  - unfold faceResults. by destruct (FaceDetection.onResults _ _ _ _) as [refs [result |]].
  - unfold detectionTick. destruct (_ && _); [| reflexivity].
    by destruct (ObjectDetection.runDetection _ _ _) as [refs [detections |]].
  - by destruct (Interview.isProctoring (page w)).
Qed.

(** C8, as the code has it. The report is written once, by
    [stopProctoring]; the first retrieval returns the events, integrity
    score, duration, start time and end time frozen at the stop and removes
    the stored item, so that a second retrieval returns the demo report (no
    events, score 100, duration 0) instead of the same values. No action on
    the report page other than loading it again changes anything, and the
    stored item is written only by a stop and removed only by a retrieval. *)
Theorem report_snapshot_is_read_once now st storage now1 now2 :
  let first := Report.loadReport now1 (Interview.stopProctoring now st storage).2 in
  let second := Report.loadReport now2 first.2 in
  Report.events first.1 = Interview.events st
  /\ Report.integrityScore first.1 = Interview.integrityScore st
  /\ Report.duration first.1 = Interview.interviewDuration st
  /\ Report.startTime first.1 = default 0 (Interview.startTimeRef st)
  /\ Report.endTime first.1 = now
  /\ Report.interviewId first.1 = Interview.interviewIdRef st
  /\ first.2 !! "currentReport" = None
  /\ second.1 = Report.demoReport now2
  /\ (forall fetch w a,
        location w = ReportPage -> opensPage a = false -> step fetch w a = w)
  /\ (forall fetch w a,
        touchesStorage a = false -> sessionStorage (step fetch w a) = sessionStorage w).
Proof.
  intros first second. subst second first. rewrite loadReport_after_stop. simpl.
  rewrite loadReport_consumed by apply lookup_delete_eq.
  repeat split; try reflexivity.
  - apply lookup_delete_eq.
  - intros fetch w a. apply step_on_report_page.
  - intros fetch w a. apply step_sessionStorage.
Qed.

Lemma report_snapshot_is_read_once_witness :
  let w := run online [InitializeCamera true; StartProctoring 1000;
                       DemoClick SimulatePhoneDetected; DurationTick 8000;
                       StopProctoring 9000; OpenReport 9100]
             (mount 0 (readingsOf [2000; 2000]) ∅) in
  (Report.integrityScore <$> report w) = Some 80
  /\ step online w (DemoClick SimulateBookDetected) = w.
Proof.
  split; [reflexivity |].
  apply (report_snapshot_is_read_once 0 (Interview.initial 0 (readingsOf [])) ∅ 0 0); reflexivity.
Defined.

(** C8, as stated, fails: after a session with one phone event, the report
    page shows score 80 and one event; loaded again, it shows the demo
    report with score 100 and no event. *)
Lemma report_retrieved_twice_counterexample :
  let w := run online [InitializeCamera true; StartProctoring 1000;
                       DemoClick SimulatePhoneDetected; DurationTick 8000;
                       StopProctoring 9000]
             (mount 0 (readingsOf [2000; 2000]) ∅) in
  let first := step online w (OpenReport 9100) in
  let second := step online first (OpenReport 9100) in
  (Report.integrityScore <$> report first) = Some 80
  /\ (Report.duration <$> report first) = Some 7
  /\ (length <$> (Report.events <$> report first)) = Some 1%nat
  /\ (Report.integrityScore <$> report second) = Some 100
  /\ (Report.events <$> report second) = Some []
  /\ report first <> report second.
Proof.
  repeat split; try reflexivity. vm_compute. discriminate.
Qed.

(** ** The fallback callback *)

(** The callback of the fallback mesh agrees with the real one on frames
    with at most one face, but leaves the last-seen time alone on a frame
    with several faces. *)
Lemma mockOnResults_agrees isActive now results r :
  (FaceDetection.faceCountOf results <= 1)%nat ->
  (FaceDetection.mockOnResults isActive now results r).2
  = (FaceDetection.onResults isActive now results r).2
  /\ FaceDetection.lastFaceTimeRef (FaceDetection.mockOnResults isActive now results r).1
     = FaceDetection.lastFaceTimeRef (FaceDetection.onResults isActive now results r).1.
Proof.
  intros Hcount. unfold FaceDetection.mockOnResults, FaceDetection.onResults.
  destruct (negb isActive || negb (FaceDetection.isModelReadyRef r)); [done |].
  destruct (Nat.ltb_spec 1 (FaceDetection.faceCountOf results)); [lia |].
  destruct (FaceDetection.hasFaceOf results); simpl; [done |].
  by destruct (_ <? _).
Qed.

Lemma mockOnResults_many now results r :
  FaceDetection.isModelReadyRef r = true ->
  (1 < FaceDetection.faceCountOf results)%nat ->
  FaceDetection.lastFaceTimeRef (FaceDetection.mockOnResults true now results r).1
  = FaceDetection.lastFaceTimeRef r.
Proof.
  intros Hready Hcount. unfold FaceDetection.mockOnResults. rewrite Hready. simpl.
  by destruct (Nat.ltb_spec 1 (FaceDetection.faceCountOf results)); [| lia].
Qed.

(** ** Scenarios *)

(** No face from the start of a session that begins with the page: one
    face-absent event once 10000 ms have passed, a second one only a full
    cooldown later. *)
Example scenario_continuous_absence :
  let w := run online [InitializeCamera true; StartProctoring 0; FaceMeshInitialized;
                       FaceResults 4000 (facesSeen 0); FaceResults 10000 (facesSeen 0);
                       FaceResults 11000 (facesSeen 0); FaceResults 12000 (facesSeen 0);
                       FaceResults 13000 (facesSeen 0)]
             (mount 0 (readingsOf [11000; 11000]) ∅) in
  map (fun e => (Interview.type e, Interview.timestamp e, Interview.severity e))
      (Interview.events (page w)) = [(face_absent, 11000, high)]
  /\ score w = 90.
Proof. split; reflexivity. Qed.

(** Two faces: an event at once, 15 points. *)
Example scenario_multiple_faces :
  let w := run online [InitializeCamera true; StartProctoring 0; FaceMeshInitialized;
                       FaceResults 4000 (facesSeen 2)]
             (mount 0 (readingsOf [4000; 4000]) ∅) in
  map (fun e => (Interview.type e, Interview.timestamp e, Interview.severity e))
      (Interview.events (page w)) = [(multiple_faces, 4000, high)]
  /\ score w = 85.
Proof. split; reflexivity. Qed.

(** Nothing observed: an empty report with score 100. *)
Example scenario_quiet_session :
  let w := run online [InitializeCamera true; StartProctoring 0; FaceMeshInitialized;
                       ModelLoaded true; FaceResults 4000 (facesSeen 1);
                       DetectionTick 5000 (Returned []); DurationTick 60000;
                       StopProctoring 60500; OpenReport 60600]
             (mount 0 (readingsOf []) ∅) in
  report w = Some {| Report.interviewId := "interview-0"; Report.duration := 60;
                     Report.events := []; Report.integrityScore := 100;
                     Report.startTime := 0; Report.endTime := 60500 |}.
Proof. reflexivity. Qed.

(** * Further properties of the code *)

(** ** Proof rules for the page *)

Lemma throughGate_flags fetch now kind window description severity st :
  Interview.isProctoring (throughGate fetch now kind window description severity st)
  = Interview.isProctoring st
  /\ Interview.cameraActive (throughGate fetch now kind window description severity st)
     = Interview.cameraActive st.
Proof.
  rewrite throughGate_state. by destruct (Interview.withinCooldown _ _ _ _).
Qed.

Section PageRules.

#[local] Set Default Proof Using "All".

Variable fetch : EventLogging.Fetch.

(** A relation between states that holds across every branch of the two
    detection callbacks as soon as it holds across the gate. *)
Variable Q : Interview.State -> Interview.State -> Prop.
Hypothesis Q_refl : forall st, Q st st.
Hypothesis Q_trans : forall st1 st2 st3, Q st1 st2 -> Q st2 st3 -> Q st1 st3.

Lemma handleFaceDetection_rule now result st :
  (forall kind description severity,
     (kind = looking_away -> FaceDetection.isLookingAway result = true) ->
     Q st (throughGate fetch now kind (cooldown kind) description severity st)) ->
  Q st (Interview.handleFaceDetection fetch now result st).
Proof.
  intros Hgate. rewrite handleFaceDetection_gate.
  destruct (negb _); [by apply (Hgate face_absent) |].
  destruct (1 <? _)%nat; [by apply (Hgate multiple_faces) |].
  destruct (FaceDetection.isLookingAway result) eqn:Hla;
    [by apply (Hgate looking_away) | apply Q_refl].
Qed.

(** A relation that holds across every action that keeps the log holds
    across the primitive operations of the page, under the guards with
    which [step] calls them. *)
Hypothesis Q_camera : forall granted st,
  Interview.cameraActive st = false -> Q st (Interview.initializeCamera granted st).
Hypothesis Q_gate : forall now kind description severity st,
  Interview.isProctoring st = true -> Interview.cameraActive st = true ->
  kind <> looking_away ->
  Q st (throughGate fetch now kind (cooldown kind) description severity st).
Hypothesis Q_demo : forall button st,
  Interview.isProctoring st = true -> Q st (demoClick fetch button st).
Hypothesis Q_duration : forall now st, Q st (Interview.updateDuration now st).
Hypothesis Q_stop : forall now st storage,
  Interview.cameraActive st = true -> Interview.isProctoring st = true ->
  Q st (Interview.stopProctoring now st storage).1.

Lemma step_rule w a :
  resetsLog a = false -> Q (page w) (page (step fetch w a)).
Proof.
  intros Ha.
  destruct a; try discriminate; unfold step;
    try (destruct (location w); [| apply Q_refl]).
  - destruct (Interview.cameraActive (page w)) eqn:Hcam; [apply Q_refl |].
    by apply Q_camera.
  - apply Q_refl.
  - apply Q_refl.
  - unfold faceResults.
    destruct (FaceDetection.onResults _ _ _ _) as [refs [result |]] eqn:Hcall;
      [| apply Q_refl].
    simpl.
    destruct (isActive w) eqn:Hact;
      [| rewrite onResults_inactive in Hcall by done; discriminate].
    apply andb_true_iff in Hact as [Hp Hc].
    apply handleFaceDetection_rule. intros kind description severity Hkind.
    apply Q_gate; [assumption | assumption |].
    intros ->. specialize (Hkind eq_refl).
    assert (Hla : FaceDetection.isLookingAway result = false).
    { eapply onResults_isLookingAway. by rewrite Hcall. }
    congruence.
  - unfold detectionTick. destruct (_ && _) eqn:Hguard; [| apply Q_refl].
    destruct (ObjectDetection.runDetection _ _ _) as [refs [detections |]];
      [| apply Q_refl].
    simpl. apply andb_true_iff in Hguard as [Hguard _].
    apply andb_true_iff in Hguard as [Hact _].
    apply andb_true_iff in Hact as [Hp Hc].
    unfold Interview.handleObjectDetection.
    generalize dependent (page w). induction detections as [| d ds IH];
      intros st Hp Hc; simpl; [apply Q_refl |].
    assert (Hstep : Q st (Interview.handleDetection fetch now st d)
                    /\ Interview.isProctoring (Interview.handleDetection fetch now st d) = true
                    /\ Interview.cameraActive (Interview.handleDetection fetch now st d) = true).
    { rewrite handleDetection_gate.
      destruct (String.eqb _ _).
      - destruct (throughGate_flags fetch now phone_detected
                    DETECTION_CONFIG.EVENT_COOLDOWN.OBJECT_EVENTS
                    "Mobile phone detected in frame" high st) as [-> ->].
        split; [by apply (Q_gate now phone_detected) | done].
      - destruct (String.eqb _ _); [| split; [apply Q_refl | done]].
        destruct (throughGate_flags fetch now book_detected
                    DETECTION_CONFIG.EVENT_COOLDOWN.OBJECT_EVENTS
                    "Book or notes detected in frame" high st) as [-> ->].
        split; [by apply (Q_gate now book_detected) | done]. }
    destruct Hstep as (Hq & Hp' & Hc').
    eapply Q_trans; [exact Hq | by apply IH].
  - destruct (Interview.isProctoring (page w)) eqn:Hp; [| apply Q_refl].
    by apply Q_demo.
  - apply Q_duration.
  - destruct (_ && _) eqn:Hguard; [| apply Q_refl].
    apply andb_true_iff in Hguard as [Hc Hp].
    pose proof (Q_stop now (page w) (sessionStorage w) Hc Hp) as Hq.
    by destruct (Interview.stopProctoring _ _ _).
  - destruct (Report.loadReport _ _). apply Q_refl.
Qed.

End PageRules.

(** ** The score is a function of the log *)

Lemma totalDeduction_app log1 log2 :
  totalDeduction (log1 ++ log2) = totalDeduction log1 + totalDeduction log2.
Proof.
  induction log1 as [| e log1 IH]; simpl; [reflexivity |]. rewrite IH. lia.
Qed.

Lemma totalDeduction_nonneg log : 0 <= totalDeduction log.
Proof.
  induction log as [| e log IH]; [simpl; lia |].
  change (totalDeduction (e :: log))
    with (Interview.scoreDeduction (Interview.type e) + totalDeduction log).
  pose proof (scoreDeduction_table (Interview.type e)).
  pose proof (deduction_nonneg (Interview.type e)). lia.
Qed.

Lemma scoreMatchesLog_appended st idNow dateNow kind description severity :
  scoreMatchesLog st ->
  Z.max 0 (Interview.integrityScore st - deduction kind)
  = Z.max 0 (100 - totalDeduction
                     (Interview.events st
                      ++ [appended idNow dateNow kind description severity])).
Proof.
  unfold scoreMatchesLog. intros ->. rewrite totalDeduction_app.
  change (totalDeduction [appended idNow dateNow kind description severity])
    with (Interview.scoreDeduction kind + 0).
  pose proof (scoreDeduction_table kind).
  pose proof (deduction_nonneg kind). pose proof (totalDeduction_nonneg (Interview.events st)).
  lia.
Qed.

Lemma step_scoreMatchesLog fetch w a :
  scoreMatchesLog (page w) -> scoreMatchesLog (page (step fetch w a)).
Proof.
  destruct (resetsLog a) eqn:Hreset.
  - destruct a; try discriminate; unfold step; [reflexivity |].
    destruct (location w); [| done]. by destruct (_ && _).
  - revert Hreset.
    apply (step_rule fetch (fun st st' => scoreMatchesLog st -> scoreMatchesLog st')).
    + auto.
    + auto.
    + intros granted st _. by destruct granted.
    + intros now kind description severity st _ _ _ Hst. rewrite throughGate_state.
      destruct (Interview.withinCooldown _ _ _ _); [assumption |].
      unfold scoreMatchesLog. simpl. by apply scoreMatchesLog_appended.
    + intros button st _ Hst.
      destruct (demoClick_state fetch button st) as (kind & d & -> & _).
      unfold scoreMatchesLog. simpl. by apply scoreMatchesLog_appended.
    + intros now st. unfold Interview.updateDuration.
      by destruct (Interview.isProctoring st), (Interview.startTimeRef st).
    + intros now st storage _ _. unfold Interview.stopProctoring. simpl.
      by destruct (Interview.streamRef st).
Qed.

Lemma run_scoreMatchesLog fetch actions now0 date storage :
  scoreMatchesLog (page (run fetch actions (mount now0 date storage))).
Proof.
  induction actions as [| a actions IH] using rev_ind; [reflexivity |].
  rewrite run_snoc. by apply step_scoreMatchesLog.
Qed.

(** X1. Log and score never drift apart: in every state that a sequence
    of actions and callbacks reaches from a fresh page, each call of
    [addEvent] having run to its end, the integrity score is
    max(0, 100 - the sum of the deductions of the logged events), and so
    is the score of the report that a stop in that state stores. *)
Theorem score_is_determined_by_log fetch actions now0 date storage :
  let w := run fetch actions (mount now0 date storage) in
  Interview.integrityScore (page w)
  = Z.max 0 (100 - totalDeduction (Interview.events (page w)))
  /\ (forall now now1,
        let r := (Report.loadReport now1
                    (Interview.stopProctoring now (page w) (sessionStorage w)).2).1 in
        Report.integrityScore r = Z.max 0 (100 - totalDeduction (Report.events r))).
Proof.
  intros w. pose proof (run_scoreMatchesLog fetch actions now0 date storage) as Hw.
  split; [exact Hw |]. intros now now1. rewrite loadReport_after_stop. exact Hw.
Qed.

(** ** The log only grows *)

Lemma step_prefix fetch w a :
  resetsLog a = false ->
  Interview.events (page w) `prefix_of` Interview.events (page (step fetch w a)).
Proof.
  apply (step_rule fetch
           (fun st st' => Interview.events st `prefix_of` Interview.events st')).
  - done.
  - intros st1 st2 st3 H12 H23. by etrans.
  - intros granted st _. by destruct granted.
  - intros now kind description severity st _ _ _. rewrite throughGate_state.
    destruct (Interview.withinCooldown _ _ _ _); [done |]. simpl. by apply prefix_app_r.
  - intros button st _.
    destruct (demoClick_state fetch button st) as (kind & d & -> & _).
    simpl. by apply prefix_app_r.
  - intros now st. unfold Interview.updateDuration.
    by destruct (Interview.isProctoring st), (Interview.startTimeRef st).
  - intros now st storage _ _. unfold Interview.stopProctoring. simpl.
    by destruct (Interview.streamRef st).
Qed.

(** X2. The log is append-only: across any sequence of actions that
    neither opens a fresh page nor starts a session, the log before is a
    prefix of the log after, so that no logged event is ever removed,
    reordered or rewritten. *)
Theorem log_is_append_only fetch actions w :
  forallb (fun a => negb (resetsLog a)) actions = true ->
  Interview.events (page w) `prefix_of` Interview.events (page (run fetch actions w)).
Proof.
  induction actions as [| a actions IH] using rev_ind; intros Hall; [done |].
  rewrite forallb_app in Hall. apply andb_true_iff in Hall as [Hall Ha].
  simpl in Ha. rewrite andb_true_r in Ha. apply negb_true_iff in Ha.
  rewrite run_snoc. etrans; [by apply IH | by apply step_prefix].
Qed.

Lemma log_is_append_only_witness :
  let w := run online [InitializeCamera true; StartProctoring 1000; FaceMeshInitialized;
                       FaceResults 12000 (facesSeen 0)]
             (mount 0 (readingsOf [12000; 12000; 18000; 18000; 19000; 19000]) ∅) in
  Interview.events (page w)
  `prefix_of` Interview.events
                (page (run online [FaceResults 18000 (facesSeen 2);
                                   DemoClick SimulateBookDetected;
                                   StopProctoring 20000] w)).
Proof.
  apply (log_is_append_only online
           [FaceResults 18000 (facesSeen 2); DemoClick SimulateBookDetected;
            StopProctoring 20000]).
  reflexivity.
Defined.

(** ** Outside a session nothing is recorded *)

(** X3. While the page is not proctoring, no frame, detection, demo click
    or timer tick changes the log, the score or the cooldown ledger: only
    a start (or a fresh page) does. *)
Theorem nothing_is_recorded_outside_a_session fetch w a :
  Interview.isProctoring (page w) = false ->
  resetsLog a = false ->
  Interview.events (page (step fetch w a)) = Interview.events (page w)
  /\ Interview.integrityScore (page (step fetch w a)) = Interview.integrityScore (page w)
  /\ Interview.lastEventTimeRef (page (step fetch w a))
     = Interview.lastEventTimeRef (page w)
  /\ Interview.isProctoring (page (step fetch w a)) = false.
Proof.
  intros Hidle Ha. revert Hidle. revert Ha.
  apply (step_rule fetch
           (fun st st' =>
              Interview.isProctoring st = false ->
              Interview.events st' = Interview.events st
              /\ Interview.integrityScore st' = Interview.integrityScore st
              /\ Interview.lastEventTimeRef st' = Interview.lastEventTimeRef st
              /\ Interview.isProctoring st' = false)).
  - done.
  - intros st1 st2 st3 H12 H23 Hidle.
    destruct (H12 Hidle) as (<- & <- & <- & Hidle2). by apply H23.
  - intros granted st _ Hidle. by destruct granted.
  - intros now kind description severity st Hp _ _ Hidle. congruence.
  - intros button st Hp Hidle. congruence.
  - intros now st Hidle. unfold Interview.updateDuration. by rewrite Hidle.
  - intros now st storage _ Hp Hidle. congruence.
Qed.

Lemma nothing_is_recorded_outside_a_session_witness :
  let w := run online [InitializeCamera true; FaceMeshInitialized]
             (mount 0 (readingsOf []) ∅) in
  Interview.events (page (step online w (FaceResults 60000 (facesSeen 0)))) = []
  /\ Interview.integrityScore (page (step online w (FaceResults 60000 (facesSeen 0)))) = 100.
Proof.
  destruct (nothing_is_recorded_outside_a_session online
              (run online [InitializeCamera true; FaceMeshInitialized]
                 (mount 0 (readingsOf []) ∅))
              (FaceResults 60000 (facesSeen 0)) eq_refl eq_refl) as (He & Hs & _).
  split; [exact He | exact Hs].
Defined.

(** ** Flags of the page, and what a stop does *)

Lemma step_flagsConsistent fetch w a :
  flagsConsistent (page w) -> flagsConsistent (page (step fetch w a)).
Proof.
  destruct (resetsLog a) eqn:Hreset.
  - destruct a; try discriminate; unfold step.
    + intros _. split; discriminate.
    + destruct (location w); [| done].
      destruct (Interview.cameraActive (page w)) eqn:Hc; simpl; [| done].
      destruct (Interview.isProctoring (page w)); simpl; [done |].
      intros [_ Hstream]. split; simpl; [eauto | assumption].
  - revert Hreset.
    apply (step_rule fetch (fun st st' => flagsConsistent st -> flagsConsistent st')).
    + auto.
    + auto.
    + intros granted st Hc [Hp Hs]. destruct granted; [| done].
      split; simpl; [| done]. intros Hproc. destruct (Hp Hproc) as [? ?]. congruence.
    + intros now kind description severity st _ _ _ Hst. rewrite throughGate_state.
      by destruct (Interview.withinCooldown _ _ _ _).
    + intros button st _ Hst.
      by destruct (demoClick_state fetch button st) as (kind & d & -> & _).
    + intros now st. unfold Interview.updateDuration.
      by destruct (Interview.isProctoring st), (Interview.startTimeRef st).
    + intros now st storage Hc _ [_ Hs]. unfold Interview.stopProctoring. simpl.
      rewrite (Hs Hc). split; discriminate.
Qed.

Lemma run_flagsConsistent fetch actions now0 date storage :
  flagsConsistent (page (run fetch actions (mount now0 date storage))).
Proof.
  induction actions as [| a actions IH] using rev_ind; [split; discriminate |].
  rewrite run_snoc. by apply step_flagsConsistent.
Qed.

(** X4. While a session runs the camera is on and the start time is set,
    so a click on Stop always takes effect: the page stops proctoring,
    the camera is released, the browser goes to the report page, and the
    stored report carries the log, the score, the start time of the
    session (never the epoch that a missing start time would give) and
    the time of the stop. *)
Theorem stop_ends_the_session fetch actions now0 date storage now :
  let w := run fetch actions (mount now0 date storage) in
  location w = InterviewPage ->
  Interview.isProctoring (page w) = true ->
  let w' := step fetch w (StopProctoring now) in
  Interview.cameraActive (page w) = true
  /\ location w' = ReportPage
  /\ Interview.isProctoring (page w') = false
  /\ Interview.cameraActive (page w') = false
  /\ exists start,
       Interview.startTimeRef (page w) = Some start
       /\ (Report.loadReport now (sessionStorage w')).1
          = {| Report.interviewId := Interview.interviewIdRef (page w);
               Report.duration := Interview.interviewDuration (page w);
               Report.events := Interview.events (page w);
               Report.integrityScore := Interview.integrityScore (page w);
               Report.startTime := start;
               Report.endTime := now |}.
Proof.
  intros w Hloc Hp w'.
  destruct (run_flagsConsistent fetch actions now0 date storage) as [Hflags Hstream].
  fold w in Hflags, Hstream. destruct (Hflags Hp) as [Hc [start Hstart]].
  pose proof (Hstream Hc) as Hs.
  assert (Hw' : w' = {| location := ReportPage;
                        page := (Interview.stopProctoring now (page w) (sessionStorage w)).1;
                        faceRefs := faceRefs w; objectRefs := objectRefs w;
                        sessionStorage :=
                          (Interview.stopProctoring now (page w) (sessionStorage w)).2;
                        report := None |}).
  { subst w'. unfold step. rewrite Hloc, Hc, Hp. reflexivity. }
  rewrite Hw'. simpl. rewrite Hs. simpl.
  repeat split; try done. exists start. split; [assumption |].
  pose proof (loadReport_after_stop now (page w) (sessionStorage w) now) as Hload.
  unfold Interview.stopProctoring in Hload. simpl in Hload. rewrite Hload, Hstart.
  reflexivity.
Qed.

Lemma stop_ends_the_session_witness :
  let w := run online [InitializeCamera true; StartProctoring 1000;
                       DemoClick SimulateMultipleFaces; DurationTick 4000]
             (mount 0 (readingsOf [2000; 2000]) ∅) in
  Interview.cameraActive (page (step online w (StopProctoring 5000))) = false
  /\ location (step online w (StopProctoring 5000)) = ReportPage.
Proof.
  destruct (stop_ends_the_session online
              [InitializeCamera true; StartProctoring 1000;
               DemoClick SimulateMultipleFaces; DurationTick 4000] 0
              (readingsOf [2000; 2000]) ∅ 5000
              eq_refl eq_refl) as (_ & Hloc & _ & Hcam & _).
  split; [exact Hcam | exact Hloc].
Defined.

(** ** A failing or empty classifier run *)

Lemma withObjectRefs_same w : withObjectRefs (objectRefs w) w = w.
Proof. by destruct w. Qed.

Lemma setIsDetecting_released r :
  ObjectDetection.isDetectingRef r = false ->
  ObjectDetection.setIsDetecting false (ObjectDetection.setIsDetecting true r) = r.
Proof. destruct r. simpl. by intros ->. Qed.

Lemma runDetection_released video detect r :
  ObjectDetection.isDetectingRef r = false ->
  (ObjectDetection.runDetection video detect r).1 = r.
Proof.
  intros Hidle. unfold ObjectDetection.runDetection.
  destruct (_ || _); [reflexivity |]. simpl. by apply setIsDetecting_released.
Qed.

(** X5. A classifier run that throws, or that finds nothing to retain,
    changes nothing at all: [onObjectDetection] is not called, the page is
    as before, and the detection lock is released again, so that the next
    tick runs normally. *)
Theorem failed_or_empty_detection_changes_nothing fetch now detect w :
  (forall predictions,
     detect = Returned predictions -> ObjectDetection.targetDetections predictions = []) ->
  detectionTick fetch now detect w = w
  /\ step fetch w (DetectionTick now detect) = w
  /\ (ObjectDetection.runDetection true detect (objectRefs w)).2 = None.
Proof.
  intros Hnone.
  assert (Hcalled : forall r, (ObjectDetection.runDetection true detect r).2 = None).
  { intros r. unfold ObjectDetection.runDetection. destruct (_ || _); [reflexivity |].
    simpl. destruct detect as [predictions | e]; [| reflexivity].
    by rewrite (Hnone predictions eq_refl). }
  assert (Htick : detectionTick fetch now detect w = w).
  { unfold detectionTick. destruct (_ && _) eqn:Hguard; [| reflexivity].
    apply andb_true_iff in Hguard as [Hguard _].
    apply andb_true_iff in Hguard as [_ Hidle]. apply negb_true_iff in Hidle.
    pose proof (runDetection_released true detect (objectRefs w) Hidle) as Hrefs.
    pose proof (Hcalled (objectRefs w)) as Hcall.
    destruct (ObjectDetection.runDetection true detect (objectRefs w)) as [refs called].
    simpl in *. subst. apply withObjectRefs_same. }
  split; [exact Htick | split; [| apply Hcalled]].
  unfold step. destruct (location w); [exact Htick | reflexivity].
Qed.

Lemma failed_or_empty_detection_changes_nothing_witness :
  let w := run online [InitializeCamera true; StartProctoring 1000; ModelLoaded true]
             (mount 0 (readingsOf []) ∅) in
  step online w (DetectionTick 4000 (Thrown "context lost")) = w.
Proof.
  apply (failed_or_empty_detection_changes_nothing online 4000 (Thrown "context lost")).
  discriminate.
Defined.

(** ** A frame of the face mesh, end to end *)

(** X6. What one frame does to a running session, by the number of faces
    in it. One face: the page is untouched and both timers are refreshed.
    Several faces: a multiple-faces candidate goes to the gate at once,
    with no debounce, and the last-seen time is refreshed. No face: a
    face-absent candidate goes to the gate exactly when more than
    10000 ms have passed since the last-seen time, and the timers stay. *)
Theorem frame_by_face_count fetch now results w :
  location w = InterviewPage ->
  isActive w = true ->
  FaceDetection.isModelReadyRef (faceRefs w) = true ->
  let w' := step fetch w (FaceResults now results) in
  (FaceDetection.faceCountOf results = 1%nat ->
   page w' = page w
   /\ FaceDetection.lastFaceTimeRef (faceRefs w') = now
   /\ FaceDetection.lastLookingAwayTimeRef (faceRefs w') = now)
  /\ ((1 < FaceDetection.faceCountOf results)%nat ->
      page w' = throughGate fetch now multiple_faces
                  DETECTION_CONFIG.EVENT_COOLDOWN.FACE_EVENTS
                  "Multiple faces detected in frame" high (page w)
      /\ FaceDetection.lastFaceTimeRef (faceRefs w') = now)
  /\ (FaceDetection.faceCountOf results = 0%nat ->
      page w' = (if DETECTION_CONFIG.FACE_ABSENT_THRESHOLD
                      <? now - FaceDetection.lastFaceTimeRef (faceRefs w)
                 then throughGate fetch now face_absent
                        DETECTION_CONFIG.EVENT_COOLDOWN.FACE_EVENTS
                        "No face detected in frame" high (page w)
                 else page w)
      /\ faceRefs w' = faceRefs w).
Proof.
  intros Hloc Hact Hready w'. subst w'. unfold step. rewrite Hloc.
  unfold faceResults. rewrite Hact.
  split; [| split]; intros Hcount.
  - by rewrite onResults_one.
  - rewrite onResults_many by assumption. simpl.
    rewrite handleFaceDetection_gate. simpl.
    destruct (Nat.ltb_spec 1 (FaceDetection.faceCountOf results)); [done | lia].
  - rewrite onResults_none by assumption.
    change FaceDetection.faceThreshold with DETECTION_CONFIG.FACE_ABSENT_THRESHOLD.
    destruct (_ <? _); simpl; [| by destruct w].
    split; [by rewrite handleFaceDetection_gate | by destruct w].
Qed.

Lemma frame_by_face_count_witness :
  let w := run online [InitializeCamera true; StartProctoring 1000; FaceMeshInitialized]
             (mount 0 (readingsOf [3000; 3000]) ∅) in
  map Interview.type (Interview.events (page (step online w (FaceResults 3000 (facesSeen 3)))))
  = [multiple_faces]
  /\ FaceDetection.lastFaceTimeRef (faceRefs (step online w (FaceResults 3000 (facesSeen 3))))
     = 3000.
Proof.
  destruct (frame_by_face_count online 3000 (facesSeen 3)
              (run online [InitializeCamera true; StartProctoring 1000; FaceMeshInitialized]
                 (mount 0 (readingsOf [3000; 3000]) ∅)) eq_refl eq_refl eq_refl)
    as (_ & Hmany & _).
  destruct Hmany as [Hpage Htime]; [vm_compute; lia |].
  split; [by rewrite Hpage | exact Htime].
Defined.

(** ** One batch of detections *)

(** The gate of a kind is shut right after it has let a candidate through. *)
Lemma gate_shut_after_accept fetch now kind window description severity st :
  now <> 0 -> 0 < window ->
  Interview.withinCooldown (eventKey kind) now window st = false ->
  Interview.withinCooldown (eventKey kind) now window
    (throughGate fetch now kind window description severity st) = true.
Proof.
  intros Hnow Hwin Hopen. rewrite throughGate_state, Hopen.
  unfold Interview.withinCooldown. simpl. rewrite lookup_insert_eq.
  destruct (Z.eqb_spec now 0); [contradiction |]. simpl. apply Z.ltb_lt. lia.
Qed.

Lemma gate_other_kind fetch now kind kind' window window' description severity st :
  kind <> kind' ->
  Interview.withinCooldown (eventKey kind') now window'
    (throughGate fetch now kind window description severity st)
  = Interview.withinCooldown (eventKey kind') now window' st.
Proof.
  intros Hne. rewrite throughGate_state.
  destruct (Interview.withinCooldown (eventKey kind) _ _ _); [reflexivity |].
  unfold Interview.withinCooldown. simpl. rewrite lookup_insert_ne; [reflexivity |].
  intros Hk. by apply eventKey_inj in Hk.
Qed.

Lemma throughGate_shut fetch now kind window description severity st :
  Interview.withinCooldown (eventKey kind) now window st = true ->
  throughGate fetch now kind window description severity st = st.
Proof. intros Hshut. unfold throughGate. by rewrite Hshut. Qed.

(** The events that a batch adds, kind by kind. *)
Lemma batch_events fetch now detections st :
  now <> 0 ->
  exists new,
    Interview.events (Interview.handleObjectDetection fetch now detections st)
    = Interview.events st ++ new
    /\ NoDup (map Interview.type new)
    /\ (forall e, In e new ->
          ((exists idNow dateNow,
              e = appended idNow dateNow phone_detected
                    "Mobile phone detected in frame" high)
           /\ Interview.withinCooldown "phone_detected" now 10000 st = false
           /\ Exists (fun d => ObjectDetection.class d = "cell phone") detections)
          \/ ((exists idNow dateNow,
                 e = appended idNow dateNow book_detected
                       "Book or notes detected in frame" high)
              /\ Interview.withinCooldown "book_detected" now 10000 st = false
              /\ Exists (fun d => ObjectDetection.class d = "book") detections))
    /\ (Exists (fun d => ObjectDetection.class d = "cell phone") detections ->
        Interview.withinCooldown "phone_detected" now 10000 st = false ->
        In phone_detected (map Interview.type new))
    /\ (Exists (fun d => ObjectDetection.class d = "book") detections ->
        Interview.withinCooldown "book_detected" now 10000 st = false ->
        In book_detected (map Interview.type new)).
Proof.
  intros Hnow. unfold Interview.handleObjectDetection. revert st.
  induction detections as [| d ds IH]; intros st; simpl.
  - exists []. rewrite app_nil_r. repeat split; try constructor; try done;
      intros H; by apply Exists_nil in H.
  - rewrite handleDetection_gate.
    change DETECTION_CONFIG.EVENT_COOLDOWN.OBJECT_EVENTS with 10000.
    destruct (String.eqb_spec (ObjectDetection.class d) "cell phone") as [Hphone | Hphone].
    + destruct (Interview.withinCooldown "phone_detected" now 10000 st) eqn:Hgate.
      * rewrite (throughGate_shut fetch now phone_detected) by exact Hgate.
        destruct (IH st) as (new & Hev & Hnd & Hin & Hp & Hb). exists new.
        rewrite Hgate in *. repeat split; try done.
        -- intros e He. destruct (Hin e He) as [(_ & [=] & _) | (? & ? & ?)].
           right. repeat split; try done. by apply Exists_cons_tl.
        -- intros Hex Hopen. apply Hb; [| done].
           apply Exists_cons in Hex as [Hex | Hex]; [congruence | done].
      * pose proof (gate_shut_after_accept fetch now phone_detected 10000
                      "Mobile phone detected in frame" high st Hnow ltac:(lia) Hgate)
          as Hshut.
        pose proof (gate_other_kind fetch now phone_detected book_detected 10000 10000
                      "Mobile phone detected in frame" high st ltac:(discriminate))
          as Hbook.
        simpl in Hshut, Hbook.
        destruct (IH (throughGate fetch now phone_detected 10000
                        "Mobile phone detected in frame" high st))
          as (new & Hev & Hnd & Hin & Hp & Hb).
        rewrite Hshut, Hbook in *.
        exists (appended (nextId st) (nextDate st) phone_detected
                  "Mobile phone detected in frame" high :: new).
        rewrite Hev, throughGate_state. simpl in Hgate |- *. rewrite Hgate. simpl.
        rewrite <- app_assoc. simpl. repeat split.
        -- constructor; [| done]. intros Hin'. apply list_elem_of_In in Hin'.
           apply in_map_iff in Hin' as (e & He & Hin').
           destruct (Hin e Hin') as [(_ & [=] & _) | ((? & ? & ->) & _)]. discriminate.
        -- intros e [<- | He];
             [left; split; [by eexists _, _ | split; [done | by apply Exists_cons_hd]] |].
           destruct (Hin e He) as [(_ & [=] & _) | (? & ? & ?)].
           right. repeat split; try done. by apply Exists_cons_tl.
        -- intros _ _. by left.
        -- intros Hex Hopen. right. apply Hb; [| done].
           apply Exists_cons in Hex as [Hex | Hex]; [congruence | done].
    + destruct (String.eqb_spec (ObjectDetection.class d) "book") as [Hbk | Hbk].
      * destruct (Interview.withinCooldown "book_detected" now 10000 st) eqn:Hgate.
        -- rewrite (throughGate_shut fetch now book_detected) by exact Hgate.
           destruct (IH st) as (new & Hev & Hnd & Hin & Hp & Hb). exists new.
           rewrite Hgate in *. repeat split; try done.
           ++ intros e He. destruct (Hin e He) as [(? & ? & ?) | (_ & [=] & _)].
              left. repeat split; try done. by apply Exists_cons_tl.
           ++ intros Hex Hopen. apply Hp; [| done].
              apply Exists_cons in Hex as [Hex | Hex]; [congruence | done].
        -- pose proof (gate_shut_after_accept fetch now book_detected 10000
                         "Book or notes detected in frame" high st Hnow ltac:(lia) Hgate)
             as Hshut.
           pose proof (gate_other_kind fetch now book_detected phone_detected 10000 10000
                         "Book or notes detected in frame" high st ltac:(discriminate))
             as Hph.
           simpl in Hshut, Hph.
           destruct (IH (throughGate fetch now book_detected 10000
                           "Book or notes detected in frame" high st))
             as (new & Hev & Hnd & Hin & Hp & Hb).
           rewrite Hshut, Hph in *.
           exists (appended (nextId st) (nextDate st) book_detected
                     "Book or notes detected in frame" high :: new).
           rewrite Hev, throughGate_state. simpl in Hgate |- *. rewrite Hgate. simpl.
           rewrite <- app_assoc. simpl. repeat split.
           ++ constructor; [| done]. intros Hin'. apply list_elem_of_In in Hin'.
              apply in_map_iff in Hin' as (e & He & Hin').
              destruct (Hin e Hin') as [((? & ? & ->) & _) | (_ & [=] & _)]. discriminate.
           ++ intros e [<- | He];
                [right; split; [by eexists _, _ | split; [done | by apply Exists_cons_hd]] |].
              destruct (Hin e He) as [(? & ? & ?) | (_ & [=] & _)].
              left. repeat split; try done. by apply Exists_cons_tl.
           ++ intros Hex Hopen. right. apply Hp; [| done].
              apply Exists_cons in Hex as [Hex | Hex]; [congruence | done].
           ++ intros _ _. by left.
      * destruct (IH st) as (new & Hev & Hnd & Hin & Hp & Hb). exists new.
        repeat split; try done.
        -- intros e He. destruct (Hin e He) as [(? & ? & ?) | (? & ? & ?)];
             [left | right]; repeat split; try done; by apply Exists_cons_tl.
        -- intros Hex Hopen. apply Hp; [| done].
           apply Exists_cons in Hex as [Hex | Hex]; [congruence | done].
        -- intros Hex Hopen. apply Hb; [| done].
           apply Exists_cons in Hex as [Hex | Hex]; [congruence | done].
Qed.

Lemma two_kinds_at_most (kinds : list EventType) :
  NoDup kinds ->
  (forall kind, In kind kinds -> kind = phone_detected \/ kind = book_detected) ->
  (length kinds <= 2)%nat.
Proof.
  intros Hnd Hall.
  destruct kinds as [| k1 [| k2 [| k3 kinds]]]; simpl; try lia. exfalso.
  apply NoDup_cons in Hnd as [Hn1 Hnd]. apply NoDup_cons in Hnd as [Hn2 _].
  rewrite !list_elem_of_In in *. simpl in *.
  destruct (Hall k1) as [-> | ->], (Hall k2) as [-> | ->], (Hall k3) as [-> | ->];
    tauto.
Qed.

(** The gate either leaves the state alone or appends the event built
    from the next two readings of the clock, which it advances by two. *)
Lemma throughGate_stamps fetch now kind window description severity st :
  throughGate fetch now kind window description severity st = st
  \/ (Interview.events (throughGate fetch now kind window description severity st)
      = Interview.events st
        ++ [appended (nextId st) (nextDate st) kind description severity]
      /\ Interview.clock (throughGate fetch now kind window description severity st)
         = afterEvent (Interview.clock st)).
Proof.
  rewrite throughGate_state. destruct (Interview.withinCooldown _ _ _ _); auto.
Qed.

Lemma handleDetection_stamps fetch now st detection :
  Interview.handleDetection fetch now st detection = st
  \/ exists kind description severity,
       Interview.events (Interview.handleDetection fetch now st detection)
       = Interview.events st
         ++ [appended (nextId st) (nextDate st) kind description severity]
       /\ Interview.clock (Interview.handleDetection fetch now st detection)
          = afterEvent (Interview.clock st).
Proof.
  rewrite handleDetection_gate.
  destruct (String.eqb _ _);
    [destruct (throughGate_stamps fetch now phone_detected
                 DETECTION_CONFIG.EVENT_COOLDOWN.OBJECT_EVENTS
                 "Mobile phone detected in frame" high st); eauto 6 |].
  destruct (String.eqb _ _);
    [destruct (throughGate_stamps fetch now book_detected
                 DETECTION_CONFIG.EVENT_COOLDOWN.OBJECT_EVENTS
                 "Book or notes detected in frame" high st); eauto 6 | auto].
Qed.

(** The events of a batch carry successive readings of the clock. *)
Lemma batch_stamps fetch now detections st :
  exists new,
    Interview.events (Interview.handleObjectDetection fetch now detections st)
    = Interview.events st ++ new
    /\ forall i e, new !! i = Some e ->
         Interview.id e
         = pretty (readings (Interview.clock st) (taken (Interview.clock st) + 2 * i))
         /\ Interview.timestamp e
            = readings (Interview.clock st) (taken (Interview.clock st) + 2 * i + 1).
Proof.
  unfold Interview.handleObjectDetection. revert st.
  induction detections as [| d ds IH]; intros st; simpl.
  - exists []. rewrite app_nil_r. split; [reflexivity | intros i e [=]].
  - destruct (handleDetection_stamps fetch now st d)
      as [-> | (kind & description & severity & Hlog & Hclock)]; [apply IH |].
    destruct (IH (Interview.handleDetection fetch now st d)) as (new & Hnew & Hstamps).
    exists (appended (nextId st) (nextDate st) kind description severity :: new).
    rewrite Hnew, Hlog, <- app_assoc. split; [reflexivity |].
    intros [| i] e Hi; simpl in Hi.
    + injection Hi as <-. unfold nextId, nextDate. simpl.
      rewrite Nat.add_0_r, Nat.add_1_r. by split.
    + destruct (Hstamps i e Hi) as [-> ->]. rewrite Hclock. unfold afterEvent. simpl.
      split; repeat f_equal; lia.
Qed.

(** X7. One batch of detections logs each kind at most once, however many
    cell phones and books it holds: the events it adds have pairwise
    different kinds, so there are at most two; each is a phone or a book
    event of severity high; each carries readings of the clock of its own,
    taken by [addEvent] after those of the event before it: the id of the
    i-th comes from the 2i-th reading that [addEvent] takes after the
    batch began and its timestamp from the next one; a phone event is
    among them exactly when the batch holds a cell phone and the phone
    gate was open before the batch, and likewise for books. *)
Theorem batch_logs_each_kind_once fetch now detections st :
  now <> 0 ->
  exists new,
    Interview.events (Interview.handleObjectDetection fetch now detections st)
    = Interview.events st ++ new
    /\ NoDup (map Interview.type new)
    /\ (length new <= 2)%nat
    /\ (forall e, In e new ->
          Interview.severity e = high
          /\ (Interview.type e = phone_detected \/ Interview.type e = book_detected))
    /\ (forall i e, new !! i = Some e ->
          Interview.id e
          = pretty (readings (Interview.clock st) (taken (Interview.clock st) + 2 * i))
          /\ Interview.timestamp e
             = readings (Interview.clock st) (taken (Interview.clock st) + 2 * i + 1))
    /\ (In phone_detected (map Interview.type new) <->
        Exists (fun d => ObjectDetection.class d = "cell phone") detections
        /\ Interview.withinCooldown "phone_detected" now
             DETECTION_CONFIG.EVENT_COOLDOWN.OBJECT_EVENTS st = false)
    /\ (In book_detected (map Interview.type new) <->
        Exists (fun d => ObjectDetection.class d = "book") detections
        /\ Interview.withinCooldown "book_detected" now
             DETECTION_CONFIG.EVENT_COOLDOWN.OBJECT_EVENTS st = false).
Proof.
  intros Hnow.
  destruct (batch_events fetch now detections st Hnow) as (new & Hev & Hnd & Hin & Hp & Hb).
  destruct (batch_stamps fetch now detections st) as (new' & Hev' & Hstamps).
  assert (new' = new) as -> by (rewrite Hev in Hev'; by apply app_inv_head in Hev').
  change DETECTION_CONFIG.EVENT_COOLDOWN.OBJECT_EVENTS with 10000.
  assert (Hkinds : forall e, In e new ->
            Interview.severity e = high
            /\ (Interview.type e = phone_detected \/ Interview.type e = book_detected)).
  { intros e He.
    destruct (Hin e He) as [((? & ? & ->) & _) | ((? & ? & ->) & _)]; simpl; auto. }
  exists new.
  split; [exact Hev | split; [exact Hnd | split; [| split; [exact Hkinds |
    split; [exact Hstamps |]]]]].
  - rewrite <- (length_map Interview.type). apply two_kinds_at_most; [exact Hnd |].
    intros kind Hk. apply in_map_iff in Hk as (e & <- & He). by apply Hkinds.
  - split.
    + split.
      * intros H. apply in_map_iff in H as (e & Hty & He).
        destruct (Hin e He) as [(_ & Hopen & Hex) | ((? & ? & ->) & _)];
          [auto | discriminate].
      * intros [Hex Hopen]. by apply Hp.
    + split.
      * intros H. apply in_map_iff in H as (e & Hty & He).
        destruct (Hin e He) as [((? & ? & ->) & _) | (_ & Hopen & Hex)];
          [discriminate | auto].
      * intros [Hex Hopen]. by apply Hb.
Qed.

Lemma batch_logs_each_kind_once_witness :
  let st := Interview.initial 0 (readingsOf [5001; 5002; 5003; 5004]) in
  let batch := [detected "cell phone"; detected "book"; detected "cell phone";
                detected "laptop"; detected "book"] in
  map (fun e => (Interview.type e, Interview.timestamp e))
    (Interview.events (Interview.handleObjectDetection online 5000 batch st))
  = [(phone_detected, 5002); (book_detected, 5004)]
  /\ exists new,
       Interview.events (Interview.handleObjectDetection online 5000 batch st)
       = [] ++ new
       /\ (length new <= 2)%nat.
Proof.
  intros st batch. split; [reflexivity |].
  destruct (batch_logs_each_kind_once online 5000 batch st)
    as (new & Hev & _ & Hlen & _); [lia |].
  exists new. split; [exact Hev | exact Hlen].
Defined.

(** ** The route that stores events *)

Lemma POST_cases now request :
  let contentTypeOk :=
    match LogEventRoute.contentType request with
    | Some contentType => LogEventRoute.includes contentType "application/json"
    | None => false
    end in
  LogEventRoute.POST now request =
  if negb contentTypeOk then
    {| LogEventRoute.status := 400;
       LogEventRoute.payload :=
         LogEventRoute.Failure "Content-Type must be application/json" |}
  else
    match LogEventRoute.json request with
    | Returned (Some body) =>
        if LogEventRoute.truthy (LogEventRoute.type body)
           && LogEventRoute.truthy (LogEventRoute.description body)
           && LogEventRoute.truthy (LogEventRoute.severity body)
        then {| LogEventRoute.status := 200;
                LogEventRoute.payload :=
                  LogEventRoute.Logged
                    {| EventLogging.success := true;
                       EventLogging.id := "event-" +:+ pretty now;
                       EventLogging.message := "Event logged successfully" |} |}
        else {| LogEventRoute.status := 400;
                LogEventRoute.payload :=
                  LogEventRoute.Failure
                    "Missing required fields: type, description, severity" |}
    | _ => {| LogEventRoute.status := 500;
              LogEventRoute.payload := LogEventRoute.Failure "Failed to log event" |}
    end.
Proof.
  intros contentTypeOk. unfold LogEventRoute.POST. fold contentTypeOk.
  destruct contentTypeOk; simpl; [| reflexivity].
  destruct (LogEventRoute.json request) as [[body |] | e]; simpl; try reflexivity.
  by destruct (LogEventRoute.truthy (LogEventRoute.type body)),
       (LogEventRoute.truthy (LogEventRoute.description body)),
       (LogEventRoute.truthy (LogEventRoute.severity body)).
Qed.

(** X9. The POST route answers 200, 400 or 500 and nothing else: 200 with
    [success], the id [event-<server time>] and a message exactly when
    the content type contains [application/json], the body can be read
    and [type], [description] and [severity] are all present and not
    empty; 500 exactly when the content type is accepted but the body
    cannot be read; 400 in every other case. *)
Theorem POST_validates_requests now request :
  let contentTypeOk :=
    match LogEventRoute.contentType request with
    | Some contentType => LogEventRoute.includes contentType "application/json"
    | None => false
    end in
  let response := LogEventRoute.POST now request in
  (LogEventRoute.status response = 200 \/ LogEventRoute.status response = 400
   \/ LogEventRoute.status response = 500)
  /\ (LogEventRoute.status response = 200 <->
      contentTypeOk = true
      /\ exists body,
           LogEventRoute.json request = Returned (Some body)
           /\ LogEventRoute.truthy (LogEventRoute.type body) = true
           /\ LogEventRoute.truthy (LogEventRoute.description body) = true
           /\ LogEventRoute.truthy (LogEventRoute.severity body) = true)
  /\ (LogEventRoute.status response = 500 <->
      contentTypeOk = true
      /\ forall body, LogEventRoute.json request <> Returned (Some body))
  /\ (LogEventRoute.status response = 200 <->
      LogEventRoute.payload response
      = LogEventRoute.Logged
          {| EventLogging.success := true;
             EventLogging.id := "event-" +:+ pretty now;
             EventLogging.message := "Event logged successfully" |}).
Proof.
  intros contentTypeOk response. subst response. rewrite POST_cases. fold contentTypeOk.
  destruct contentTypeOk; simpl.
  - destruct (LogEventRoute.json request) as [[body |] | e]; simpl.
    + destruct (LogEventRoute.truthy (LogEventRoute.type body)) eqn:Ht,
        (LogEventRoute.truthy (LogEventRoute.description body)) eqn:Hd,
        (LogEventRoute.truthy (LogEventRoute.severity body)) eqn:Hs; simpl;
        (split; [auto | split; [| split]]); split; try done;
          try (intros [_ (body' & [= <-] & ? & ? & ?)]; congruence);
          try (intros [_ Hno]; by destruct (Hno body));
          try (intros _; split; [done | exists body; by rewrite ?Ht, ?Hd, ?Hs]).
    + (split; [auto | split; [| split]]); split; try done.
      * intros [_ (body' & [=] & _)].
    + (split; [auto | split; [| split]]); split; try done.
      * intros [_ (body' & [=] & _)].
  - (split; [auto | split; [| split]]); split; try done; intros [[=] _].
Qed.

(** ** Forwarding through the route *)

Lemma eventKey_truthy kind : LogEventRoute.truthy (Some (eventKey kind)) = true.
Proof. by destruct kind. Qed.

Lemma severityString_truthy severity :
  LogEventRoute.truthy (Some (severityString severity)) = true.
Proof. by destruct severity. Qed.

(** X10. With the page's request served by the route as it is written,
    forwarding an event succeeds exactly when the description of the event
    is not empty: [logEvent] then returns the acknowledgement with the id
    [event-<server time>], and null otherwise. In particular every event
    that [addEvent] forwards with one of the page's descriptions is
    acknowledged. *)
Theorem logEvent_through_route interviewId serverNow now event :
  EventLogging.logEvent interviewId (viaRoute serverNow) now event
  = Returned
      (if String.eqb (EventLogging.description event) "" then None
       else Some {| EventLogging.success := true;
                    EventLogging.id := "event-" +:+ pretty serverNow;
                    EventLogging.message := "Event logged successfully" |}).
Proof.
  destruct event as [kind description severity timestamp].
  unfold EventLogging.logEvent, viaRoute. rewrite POST_cases.
  cbn [requestOf LogEventRoute.contentType LogEventRoute.json LogEventRoute.type
       LogEventRoute.description LogEventRoute.severity EventLogging.type
       EventLogging.description EventLogging.severity EventLogging.body_type
       EventLogging.body_description EventLogging.body_severity].
  rewrite eventKey_truthy, severityString_truthy.
  by destruct description.
Qed.

(** ** Reading events back *)

Lemma fetchEvents_returns interviewId fetch :
  exists events, EventFetching.fetchEvents interviewId fetch = Returned events.
Proof.
  unfold EventFetching.fetchEvents.
  destruct (fetch _) as [e | ok json]; simpl; [eauto |].
  destruct ok; simpl; [| eauto].
  destruct json as [[[events |] |] | e]; simpl; eauto.
Qed.

(** X11. [fetchEvents] never throws: it returns the empty list when the
    request is rejected, when the status is not ok, when the body cannot
    be read or is null, and when the body has no [events]; otherwise it
    returns the [events] of the body. Served by the GET route as it is
    written, it returns the empty list for every interview. *)
Theorem fetchEvents_never_throws interviewId fetch :
  (exists events, EventFetching.fetchEvents interviewId fetch = Returned events)
  /\ (forall events,
        fetch ("/api/log-event?interviewId=" +:+ interviewId)
        = EventFetching.Resolves true (Returned (Some (Some events))) ->
        EventFetching.fetchEvents interviewId fetch = Returned events)
  /\ ((forall events,
         fetch ("/api/log-event?interviewId=" +:+ interviewId)
         <> EventFetching.Resolves true (Returned (Some (Some events)))) ->
      EventFetching.fetchEvents interviewId fetch = Returned [])
  /\ (forall searchParam,
        EventFetching.fetchEvents interviewId (listingViaRoute searchParam) = Returned []).
Proof.
  split; [apply fetchEvents_returns | split; [| split]].
  - intros events Hfetch. unfold EventFetching.fetchEvents. by rewrite Hfetch.
  - intros Hnot. unfold EventFetching.fetchEvents.
    destruct (fetch _) as [e | ok json]; simpl; [reflexivity |].
    destruct ok; simpl; [| reflexivity].
    destruct json as [[[events |] |] | e]; simpl; try reflexivity.
    by destruct (Hnot events).
  - reflexivity.
Qed.

Lemma fetchEvents_never_throws_witness :
  EventFetching.fetchEvents "interview-0"
    (fun _ => EventFetching.Resolves true (Returned (Some None))) = Returned [].
Proof.
  apply (fetchEvents_never_throws "interview-0"
           (fun _ => EventFetching.Resolves true (Returned (Some None)))).
  discriminate.
Defined.

(** ** The duration as the pages show it *)

Lemma formatDuration_checked :
  forallb (fun n =>
             String.eqb (ReportView.formatDuration (Z.of_nat n)) (clock (Z.of_nat n))
             && (readClock (ReportView.formatDuration (Z.of_nat n)) =? Z.of_nat n))
          (seq 0 (Z.to_nat 6000)) = true.
Proof. vm_compute. reflexivity. Qed.

Lemma formatDuration_below_100_minutes seconds :
  0 <= seconds < 6000 ->
  ReportView.formatDuration seconds = clock seconds
  /\ readClock (ReportView.formatDuration seconds) = seconds.
Proof.
  intros Hrange. pose proof formatDuration_checked as Hall.
  rewrite forallb_forall in Hall. specialize (Hall (Z.to_nat seconds)).
  rewrite Z2Nat.id in Hall by lia.
  apply andb_true_iff in Hall as [Hclock Hread].
  - apply String.eqb_eq in Hclock. apply Z.eqb_eq in Hread. by split.
  - apply in_seq. lia.
Qed.

(** X12. For a duration of less than 100 minutes [formatDuration] shows a
    clock of exactly five characters: the two decimal digits of the
    minutes, a colon and the two decimal digits of the seconds, padded
    with zeros; different durations are shown differently. *)
Theorem formatDuration_is_a_clock seconds :
  0 <= seconds < 6000 ->
  ReportView.formatDuration seconds = clock seconds
  /\ String.length (ReportView.formatDuration seconds) = 5%nat
  /\ (forall other,
        0 <= other < 6000 ->
        ReportView.formatDuration other = ReportView.formatDuration seconds ->
        other = seconds).
Proof.
  intros Hrange. destruct (formatDuration_below_100_minutes seconds Hrange) as [Hclock Hread].
  split; [exact Hclock | split].
  - by rewrite Hclock.
  - intros other Hother Heq.
    destruct (formatDuration_below_100_minutes other Hother) as [_ Hread'].
    rewrite <- Hread, <- Hread'. by rewrite Heq.
Qed.

Lemma formatDuration_is_a_clock_witness :
  ReportView.formatDuration 754 = "12:34"
  /\ String.length (ReportView.formatDuration 754) = 5%nat.
Proof.
  destruct (formatDuration_is_a_clock 754 ltac:(lia)) as (Hclock & Hlen & _).
  split; [by rewrite Hclock | exact Hlen].
Defined.

(** ** The verdict of a report *)

(** X13. The colour, the label and the recommendation of a score always
    name the same tier, with the borders at 80 and 60. For the score of a
    page that a run has reached, and so for the report of its session,
    the tier is decided by the log: Good when the deductions of the
    logged events add up to at most 20, Fair when to more than 20 and at
    most 40, Poor beyond. *)
Theorem report_verdict_follows_the_log fetch actions now0 date storage :
  let st := page (run fetch actions (mount now0 date storage)) in
  let score := Interview.integrityScore st in
  let total := totalDeduction (Interview.events st) in
  (ReportView.getIntegrityScoreLabel score = "Good" <-> total <= 20)
  /\ (ReportView.getIntegrityScoreLabel score = "Fair" <-> 20 < total <= 40)
  /\ (ReportView.getIntegrityScoreLabel score = "Poor" <-> 40 < total)
  /\ (forall s,
        (ReportView.getIntegrityScoreLabel s = "Good" <->
         ReportView.getIntegrityScoreColor s = "text-green-600")
        /\ (ReportView.getIntegrityScoreLabel s = "Fair" <->
            ReportView.getIntegrityScoreColor s = "text-yellow-600")
        /\ (ReportView.getIntegrityScoreLabel s = "Poor" <->
            ReportView.getIntegrityScoreColor s = "text-red-600")
        /\ (ReportView.getIntegrityScoreLabel s = "Good" <->
            ReportView.recommendation s
            = "Interview appears to be conducted with integrity.")
        /\ (ReportView.getIntegrityScoreLabel s = "Poor" <->
            ReportView.recommendation s
            = "Multiple integrity violations detected. Manual review recommended.")).
Proof.
  intros st score total.
  pose proof (run_scoreMatchesLog fetch actions now0 date storage) as Hscore.
  unfold scoreMatchesLog in Hscore. fold st in Hscore. fold score total in Hscore.
  pose proof (totalDeduction_nonneg (Interview.events st)) as Hnn. fold total in Hnn.
  unfold ReportView.getIntegrityScoreLabel, ReportView.getIntegrityScoreColor,
    ReportView.recommendation.
  split; [| split; [| split]].
  - destruct (Z.leb_spec 80 score), (Z.leb_spec 60 score); split; try done; lia.
  - destruct (Z.leb_spec 80 score), (Z.leb_spec 60 score); split; try done; lia.
  - destruct (Z.leb_spec 80 score), (Z.leb_spec 60 score); split; try done; lia.
  - intros s. destruct (80 <=? s), (60 <=? s); repeat split; done.
Qed.

(** ** The event summary *)

Lemma count_by_type (events : list Interview.ProctoringEvent) :
  (length (List.filter (fun e => bool_decide (Interview.type e = face_absent)) events)
   + length (List.filter (fun e => bool_decide (Interview.type e = multiple_faces)) events)
   + length (List.filter (fun e => bool_decide (Interview.type e = phone_detected)) events)
   + length (List.filter (fun e => bool_decide (Interview.type e = book_detected)) events)
   + length (List.filter (fun e => bool_decide (Interview.type e = looking_away)) events)
   = length events)%nat.
Proof.
  induction events as [| e events IH]; [reflexivity |].
  simpl. destruct (Interview.type e); simpl; lia.
Qed.

Lemma noLookingAway_count events :
  noLookingAway events ->
  List.filter (fun e => bool_decide (Interview.type e = looking_away)) events = [].
Proof.
  induction 1 as [| e events He _ IH]; [reflexivity |].
  simpl. by rewrite bool_decide_eq_false_2, IH.
Qed.

(** X14. The four counts of the event summary card and the number of
    looking-away events add up to the total number of events; for the
    report of a session, whose log never holds a looking-away event, the
    four counts alone add up to the total that the report shows. *)
Theorem event_summary_adds_up fetch actions now0 date storage now now1 :
  (forall events,
     (summaryTotal (ReportView.eventSummary events)
      + length (List.filter (fun e => bool_decide (Interview.type e = looking_away)) events)
      = ReportView.totalEvents events)%nat)
  /\ (let w := run fetch actions (mount now0 date storage) in
      let r := (Report.loadReport now1
                  (Interview.stopProctoring now (page w) (sessionStorage w)).2).1 in
      summaryTotal (ReportView.eventSummary (Report.events r))
      = ReportView.totalEvents (Report.events r)).
Proof.
  assert (Hsum : forall events,
            (summaryTotal (ReportView.eventSummary events)
             + length (List.filter
                         (fun e => bool_decide (Interview.type e = looking_away)) events)
             = ReportView.totalEvents events)%nat).
  { intros events. pose proof (count_by_type events) as Hcount.
    unfold ReportView.eventSummary, ReportView.totalEvents, summaryTotal. simpl. lia. }
  split; [exact Hsum |].
  intros w r. subst r. rewrite loadReport_after_stop. simpl.
  pose proof (Hsum (Interview.events (page w))) as Hw.
  rewrite (noLookingAway_count (Interview.events (page w))) in Hw
    by apply run_noLookingAway.
  simpl in Hw. lia.
Qed.

(** ** The last-seen time and the clock *)

Lemma lastClock_snoc start history o : lastClock start (history ++ [o]) = o.1.
Proof. unfold lastClock. by rewrite fold_left_app. Qed.

Lemma clockOrdered_snoc start history o :
  clockOrdered start (history ++ [o]) <->
  clockOrdered start history /\ lastClock start history <= o.1.
Proof.
  revert start. induction history as [| o' history IH]; intros start; simpl.
  - unfold lastClock. simpl. tauto.
  - rewrite IH. unfold lastClock. simpl. tauto.
Qed.

Lemma clockOrdered_app start history more :
  clockOrdered start (history ++ more) -> clockOrdered start history.
Proof.
  induction more as [| o more IH] using rev_ind; [by rewrite app_nil_r |].
  rewrite app_assoc, clockOrdered_snoc. tauto.
Qed.

Lemma lastFaceSeenAt_bounds start history :
  clockOrdered start history ->
  start <= lastFaceSeenAt start history <= lastClock start history.
Proof.
  induction history as [| o history IH] using rev_ind; intros Hord.
  - unfold lastFaceSeenAt, lastClock. simpl. lia.
  - apply clockOrdered_snoc in Hord as [Hord Hlast]. specialize (IH Hord).
    rewrite lastFaceSeenAt_snoc, lastClock_snoc. destruct (1 <=? _)%nat; lia.
Qed.

Lemma lastFaceSeenAt_monotone start history more :
  clockOrdered start (history ++ more) ->
  lastFaceSeenAt start history <= lastFaceSeenAt start (history ++ more).
Proof.
  induction more as [| o more IH] using rev_ind; intros Hord.
  - rewrite app_nil_r. lia.
  - rewrite app_assoc in Hord |- *. apply clockOrdered_snoc in Hord as [Hord Hlast].
    specialize (IH Hord). pose proof (lastFaceSeenAt_bounds _ _ Hord).
    rewrite lastFaceSeenAt_snoc. destruct (1 <=? _)%nat; lia.
Qed.

(** X15. As long as the clock does not go back, the last-seen time of the
    face hook never does either, and it is never ahead of the clock:
    over a history of frames with non-decreasing clock readings, it lies
    between its value before and the reading of the latest frame, and a
    longer history gives a value that is at least as late. *)
Theorem last_seen_time_follows_the_clock r history more :
  FaceDetection.isModelReadyRef r = true ->
  clockOrdered (FaceDetection.lastFaceTimeRef r) (history ++ more) ->
  FaceDetection.lastFaceTimeRef r
  <= FaceDetection.lastFaceTimeRef (observe history r)
  /\ FaceDetection.lastFaceTimeRef (observe history r)
     <= FaceDetection.lastFaceTimeRef (observe (history ++ more) r)
  /\ FaceDetection.lastFaceTimeRef (observe (history ++ more) r)
     <= lastClock (FaceDetection.lastFaceTimeRef r) (history ++ more).
Proof.
  intros Hready Hord.
  destruct (observe_refs history r Hready) as [_ ->].
  destruct (observe_refs (history ++ more) r Hready) as [_ ->].
  pose proof (lastFaceSeenAt_bounds _ _ (clockOrdered_app _ _ _ Hord)).
  pose proof (lastFaceSeenAt_bounds _ _ Hord).
  pose proof (lastFaceSeenAt_monotone _ _ _ Hord). lia.
Qed.

Lemma last_seen_time_follows_the_clock_witness :
  FaceDetection.lastFaceTimeRef (observe [(1000, facesSeen 1); (2000, facesSeen 0)] (readyRefs 0))
  <= FaceDetection.lastFaceTimeRef
       (observe ([(1000, facesSeen 1); (2000, facesSeen 0)] ++ [(3000, facesSeen 2)])
          (readyRefs 0)).
Proof.
  apply (last_seen_time_follows_the_clock (readyRefs 0)
           [(1000, facesSeen 1); (2000, facesSeen 0)] [(3000, facesSeen 2)]);
    [reflexivity | simpl; lia].
Defined.

(** ** The fallback mesh *)

Lemma holdsFrom_spec f count r0 r :
  holdsFrom f count r0 = true -> r0 <= r < r0 + Z.of_nat count -> f r = true.
Proof.
  revert r0. induction count as [| count IH]; intros r0 Hall Hr; [lia |].
  simpl in Hall. apply andb_true_iff in Hall as [Hhere Hrest].
  destruct (Z.eq_dec r r0) as [-> | Hne]; [assumption |].
  apply (IH (r0 + 1)); [assumption | lia].
Qed.

Lemma cyclePosition_checked :
  holdsFrom
    (fun r =>
       Bool.eqb (PrimFloat.ltb (MockFaceMesh.cyclePosition r) 0.95%float) (r <? 114000)
       && Bool.eqb (PrimFloat.ltb (MockFaceMesh.cyclePosition r) 0.98%float) (r <? 117600))
    (Z.to_nat 120000) 0 = true.
Proof. vm_compute. reflexivity. Qed.

Lemma cyclePosition_mod time :
  0 <= time ->
  MockFaceMesh.cyclePosition time = MockFaceMesh.cyclePosition (time mod 120000).
Proof.
  intros Htime. unfold MockFaceMesh.cyclePosition, MockFaceMesh.cycleTime.
  rewrite !Z.rem_mod_nonneg by (try apply Z.mod_pos_bound; lia).
  by rewrite Z.mod_mod by lia.
Qed.

Lemma cyclePosition_phases time :
  0 <= time ->
  PrimFloat.ltb (MockFaceMesh.cyclePosition time) 0.95%float = (time mod 120000 <? 114000)
  /\ PrimFloat.ltb (MockFaceMesh.cyclePosition time) 0.98%float
     = (time mod 120000 <? 117600).
Proof.
  intros Htime. rewrite cyclePosition_mod by assumption.
  pose proof (Z.mod_pos_bound time 120000 ltac:(lia)) as Hr.
  pose proof (holdsFrom_spec _ _ _ (time mod 120000) cyclePosition_checked ltac:(lia))
    as Hcheck.
  apply andb_true_iff in Hcheck as [H95 H98].
  apply Bool.eqb_prop in H95, H98. by split.
Qed.

Lemma simulateDetection_count time :
  0 <= time ->
  FaceDetection.faceCountOf (MockFaceMesh.simulateDetection time)
  = (if time mod 120000 <? 114000 then 1%nat
     else if time mod 120000 <? 117600 then 0%nat else 2%nat).
Proof.
  intros Htime. destruct (cyclePosition_phases time Htime) as [H95 H98].
  unfold MockFaceMesh.simulateDetection. rewrite H95, H98.
  by destruct (time mod 120000 <? 114000); [| destruct (time mod 120000 <? 117600)].
Qed.

(** X16. The simulation of the fallback mesh runs in cycles of 120 s,
    decided by the remainder of the clock: one face during the first
    114000 ms, no face during the next 3600 ms, two faces during the last
    2400 ms; the comparisons of the quotient with 0.95 and 0.98, made in
    binary64, fall exactly on these whole milliseconds. Every simulated
    face has 468 landmarks. *)
Theorem simulated_faces_follow_the_cycle time :
  0 <= time ->
  FaceDetection.faceCountOf (MockFaceMesh.simulateDetection time)
  = (if time mod 120000 <? 114000 then 1%nat
     else if time mod 120000 <? 117600 then 0%nat else 2%nat)
  /\ (forall faces face,
        FaceDetection.multiFaceLandmarks (MockFaceMesh.simulateDetection time) = Some faces ->
        In face faces -> length face = 468%nat).
Proof.
  intros Htime. destruct (cyclePosition_phases time Htime) as [H95 H98].
  unfold MockFaceMesh.simulateDetection. rewrite H95, H98.
  destruct (time mod 120000 <? 114000); [| destruct (time mod 120000 <? 117600)];
    (split; [reflexivity |]); simpl; intros faces face [= <-] Hin; simpl in Hin;
    repeat destruct Hin as [<- | Hin]; try done.
Qed.

Lemma simulated_faces_follow_the_cycle_witness :
  FaceDetection.faceCountOf (MockFaceMesh.simulateDetection 1700000155000) = 0%nat.
Proof.
  destruct (simulated_faces_follow_the_cycle 1700000155000 ltac:(lia)) as [Hcount _].
  rewrite Hcount. vm_compute. reflexivity.
Defined.

(** The fallback callback on an active, ready hook, by number of faces. *)
Lemma mockOnResults_cases now results r :
  FaceDetection.isModelReadyRef r = true ->
  FaceDetection.mockOnResults true now results r =
  match FaceDetection.faceCountOf results with
  | O => (r, if 10000 <? now - FaceDetection.lastFaceTimeRef r
             then Some {| FaceDetection.hasFace := false; FaceDetection.faceCount := 0;
                          FaceDetection.isLookingAway := false;
                          FaceDetection.landmarks := None |}
             else None)
  | S O => (FaceDetection.setLastFaceTime now r, None)
  | S (S _) =>
      (r, Some {| FaceDetection.hasFace := true;
                  FaceDetection.faceCount := FaceDetection.faceCountOf results;
                  FaceDetection.isLookingAway := false;
                  FaceDetection.landmarks := FaceDetection.multiFaceLandmarks results |})
  end.
Proof.
  intros Hready. unfold FaceDetection.mockOnResults.
  rewrite hasFaceOf_count, Hready. simpl.
  destruct (FaceDetection.faceCountOf results) as [| [| n]]; simpl; try reflexivity.
  by destruct (_ <? _).
Qed.

(** A simulated frame makes no face-absent call, and keeps what the refs
    know, if the face-less phase finds the last-seen time recent enough. *)
Lemma mock_frame time r :
  FaceDetection.isModelReadyRef r = true ->
  0 <= time ->
  (114000 <= time mod 120000 < 117600 ->
   time - time mod 120000 + 107600 <= FaceDetection.lastFaceTimeRef r) ->
  isFaceAbsent
    (FaceDetection.mockOnResults true time (MockFaceMesh.simulateDetection time) r).2 = false
  /\ mockInvariant time
       (FaceDetection.mockOnResults true time (MockFaceMesh.simulateDetection time) r).1.
Proof.
  intros Hready Htime Hrecent. rewrite mockOnResults_cases by assumption.
  rewrite simulateDetection_count by assumption.
  pose proof (Z.mod_pos_bound time 120000 ltac:(lia)) as Hr.
  unfold mockInvariant.
  destruct (Z.ltb_spec (time mod 120000) 114000).
  - simpl. repeat split; try done; lia.
  - destruct (Z.ltb_spec (time mod 120000) 117600).
    + specialize (Hrecent ltac:(lia)).
      destruct (Z.ltb_spec 10000 (time - FaceDetection.lastFaceTimeRef r)); [lia |].
      simpl. repeat split; try done; lia.
    + simpl. repeat split; try done; lia.
Qed.

Lemma mock_next_frame time time' r :
  mockInvariant time r ->
  time < time' <= time + 6400 ->
  114000 <= time' mod 120000 < 117600 ->
  time' - time' mod 120000 + 107600 <= FaceDetection.lastFaceTimeRef r.
Proof.
  intros (_ & Htime & Hone & Hnone) Hpace Hphase.
  pose proof (Z.div_mod time 120000 ltac:(lia)) as Hd.
  pose proof (Z.div_mod time' 120000 ltac:(lia)) as Hd'.
  pose proof (Z.mod_pos_bound time 120000 ltac:(lia)) as Hr.
  pose proof (Z.mod_pos_bound time' 120000 ltac:(lia)) as Hr'.
  destruct (Z.lt_ge_cases (time mod 120000) 114000) as [H1 | H1].
  - specialize (Hone H1). lia.
  - destruct (Z.lt_ge_cases (time mod 120000) 117600) as [H2 | H2].
    + specialize (Hnone ltac:(lia)). lia.
    + lia.
Qed.

Lemma mockEmissions_paced times time r :
  mockInvariant time r ->
  paced 6400 time times ->
  Forall (fun e => FaceDetection.hasFace e = true) (mockEmissions times r).
Proof.
  revert time r. induction times as [| time' times IH]; intros time r Hinv Hpaced;
    [constructor |].
  destruct Hpaced as [Hpace Hpaced].
  assert (Hready : FaceDetection.isModelReadyRef r = true) by apply Hinv.
  assert (Htime' : 0 <= time') by (destruct Hinv as (_ & ? & _); lia).
  pose proof (mock_frame time' r Hready Htime'
                (mock_next_frame time time' r Hinv Hpace)) as [Hcall Hinv'].
  simpl.
  destruct (FaceDetection.mockOnResults true time' _ r) as [r1 [result |]]; simpl in *.
  - constructor; [by apply negb_false_iff in Hcall | by apply (IH time')].
  - by apply (IH time').
Qed.

(** X17. The fallback mesh never reports an absent face while its
    simulation keeps its pace: if the frames are at most 6400 ms apart
    (the simulation asks for 2000 ms) and the first frame either shows a
    face or comes within 6400 ms of the last-seen time, every call that
    its callback makes reports a face, so that its face-less phase of
    3600 ms never reaches the page as a face-absent candidate. *)
Theorem fallback_mesh_never_reports_absence r first rest :
  FaceDetection.isModelReadyRef r = true ->
  0 <= first ->
  paced 6400 first rest ->
  first - FaceDetection.lastFaceTimeRef r <= 6400
  \/ FaceDetection.faceCountOf (MockFaceMesh.simulateDetection first) <> 0%nat ->
  Forall (fun e => FaceDetection.hasFace e = true) (mockEmissions (first :: rest) r).
Proof.
  intros Hready Hfirst Hpaced Hstart.
  assert (Hrecent : 114000 <= first mod 120000 < 117600 ->
                    first - first mod 120000 + 107600 <= FaceDetection.lastFaceTimeRef r).
  { intros Hphase. destruct Hstart as [Hclose | Hface]; [lia |].
    rewrite simulateDetection_count in Hface by assumption.
    destruct (Z.ltb_spec (first mod 120000) 114000); [lia |].
    destruct (Z.ltb_spec (first mod 120000) 117600); [done | lia]. }
  pose proof (mock_frame first r Hready Hfirst Hrecent) as [Hcall Hinv].
  simpl.
  destruct (FaceDetection.mockOnResults true first _ r) as [r1 [result |]]; simpl in *.
  - constructor; [by apply negb_false_iff in Hcall |].
    by apply (mockEmissions_paced rest first).
  - by apply (mockEmissions_paced rest first).
Qed.

Lemma fallback_mesh_never_reports_absence_witness :
  Forall (fun e => FaceDetection.hasFace e = true)
    (mockEmissions [113000; 115000; 117000; 119000; 121000] (readyRefs 110000)).
Proof.
  apply (fallback_mesh_never_reports_absence (readyRefs 110000) 113000
           [115000; 117000; 119000; 121000]);
    [reflexivity | lia | simpl; lia | left; simpl; lia].
Defined.

(** ** No camera, no session *)

Lemma step_without_camera fetch w a :
  grantsCamera a = false ->
  Interview.cameraActive (page w) = false ->
  Interview.isProctoring (page w) = false ->
  Interview.events (page w) = [] ->
  Interview.integrityScore (page w) = 100 ->
  Interview.cameraActive (page (step fetch w a)) = false
  /\ Interview.isProctoring (page (step fetch w a)) = false
  /\ Interview.events (page (step fetch w a)) = []
  /\ Interview.integrityScore (page (step fetch w a)) = 100.
Proof.
  intros Ha Hc Hp He Hs.
  destruct a; unfold step; try (destruct (location w); [| done]).
  - done.
  - rewrite Hc. simpl in Ha. by subst granted.
  - by rewrite Hc.
  - done.
  - done.
  - unfold faceResults, isActive. rewrite Hp, Hc. by rewrite onResults_inactive.
  - unfold detectionTick, isActive. by rewrite Hp.
  - by rewrite Hp.
  - simpl. unfold Interview.updateDuration. by rewrite Hp.
  - by rewrite Hc.
  - by destruct (Report.loadReport _ _).
Qed.

(** X18. No camera, no session: as long as no click on Initialize Camera
    is granted, the page never starts proctoring, whatever else is
    clicked or delivered; its log stays empty and its score stays 100. *)
Theorem no_session_without_camera fetch actions now0 date storage :
  forallb (fun a => negb (grantsCamera a)) actions = true ->
  let st := page (run fetch actions (mount now0 date storage)) in
  Interview.cameraActive st = false
  /\ Interview.isProctoring st = false
  /\ Interview.events st = []
  /\ Interview.integrityScore st = 100.
Proof.
  induction actions as [| a actions IH] using rev_ind; intros Hall; [done |].
  rewrite forallb_app in Hall. apply andb_true_iff in Hall as [Hall Ha].
  simpl in Ha. rewrite andb_true_r in Ha. apply negb_true_iff in Ha.
  destruct (IH Hall) as (Hc & Hp & He & Hs).
  simpl. rewrite run_snoc. by apply step_without_camera.
Qed.

Lemma no_session_without_camera_witness :
  Interview.isProctoring
    (page (run online [InitializeCamera false; StartProctoring 1000; FaceMeshInitialized;
                       FaceResults 20000 (facesSeen 0); DemoClick SimulateBookDetected]
             (mount 0 (readingsOf []) ∅))) = false.
Proof.
  apply (no_session_without_camera online
           [InitializeCamera false; StartProctoring 1000; FaceMeshInitialized;
            FaceResults 20000 (facesSeen 0); DemoClick SimulateBookDetected] 0
           (readingsOf []) ∅).
  reflexivity.
Defined.

(** ** The duration of the report *)

(** X19. The duration of a report is the one of the last tick of the
    one-second timer, in whole seconds since the start of the session,
    whenever the session is stopped afterwards: the time of the stop does
    not enter it. With the tick not before the start, it is the number d
    with 1000 d <= tick - start < 1000 (d + 1). *)
Theorem report_duration_is_last_tick st start tick now now1 storage :
  Interview.isProctoring st = true ->
  Interview.startTimeRef st = Some start ->
  let d := Report.duration
             (Report.loadReport now1
                (Interview.stopProctoring now (Interview.updateDuration tick st) storage).2).1 in
  d = (tick - start) / 1000
  /\ 1000 * d <= tick - start < 1000 * (d + 1)
  /\ (start <= tick -> 0 <= d)
  /\ Report.endTime
       (Report.loadReport now1
          (Interview.stopProctoring now (Interview.updateDuration tick st) storage).2).1
     = now.
Proof.
  intros Hp Hstart d. subst d. rewrite loadReport_after_stop. simpl.
  unfold Interview.updateDuration. rewrite Hp, Hstart. simpl.
  pose proof (Z.div_mod (tick - start) 1000 ltac:(lia)).
  pose proof (Z.mod_pos_bound (tick - start) 1000 ltac:(lia)).
  repeat split; lia.
Qed.

Lemma report_duration_is_last_tick_witness :
  Report.duration
    (Report.loadReport 0
       (Interview.stopProctoring 99999
          (Interview.updateDuration 8500 (Interview.startProctoring 1000 (Interview.initial 0 (readingsOf []))))
          ∅).2).1 = 7.
Proof.
  destruct (report_duration_is_last_tick (Interview.startProctoring 1000 (Interview.initial 0 (readingsOf [])))
              1000 8500 99999 0 ∅ eq_refl eq_refl) as [Hd _].
  rewrite Hd. reflexivity.
Defined.

(** ** What the log holds *)

Lemma uniformLog_appended log idNow dateNow kind :
  kind <> looking_away ->
  uniformLog log ->
  uniformLog (log ++ [appended idNow dateNow kind (descriptionOf kind) high]).
Proof.
  intros Hkind Hlog. apply Forall_app. split; [assumption |]. by repeat constructor.
Qed.

Lemma throughGate_uniformLog fetch now kind window st :
  kind <> looking_away ->
  uniformLog (Interview.events st) ->
  uniformLog (Interview.events
                (throughGate fetch now kind window (descriptionOf kind) high st)).
Proof.
  intros Hkind Hlog. rewrite throughGate_state.
  destruct (Interview.withinCooldown _ _ _ _); [assumption |].
  by apply uniformLog_appended.
Qed.

Lemma step_uniformLog fetch w a :
  uniformLog (Interview.events (page w)) ->
  uniformLog (Interview.events (page (step fetch w a))).
Proof.
  intros Hlog. destruct a; unfold step; try (destruct (location w); [| assumption]).
  - constructor.
  - destruct (Interview.cameraActive (page w)); [assumption |]. simpl. by destruct granted.
  - destruct (_ && _); [constructor | assumption].
  - assumption.
  - assumption.
  - unfold faceResults.
    destruct (FaceDetection.onResults _ _ _ _) as [refs [result |]] eqn:Hcall;
      [| assumption].
    simpl. rewrite handleFaceDetection_gate.
    rewrite (onResults_isLookingAway (isActive w) now results (faceRefs w) result)
      by (by rewrite Hcall).
    destruct (negb _); [by apply (throughGate_uniformLog fetch now face_absent) |].
    destruct (1 <? _)%nat;
      [by apply (throughGate_uniformLog fetch now multiple_faces) | assumption].
  - unfold detectionTick. destruct (_ && _); [| assumption].
    destruct (ObjectDetection.runDetection _ _ _) as [refs [detections |]];
      [| assumption].
    simpl. unfold Interview.handleObjectDetection.
    generalize dependent (page w). induction detections as [| d ds IH];
      intros st Hlog; simpl; [assumption |].
    apply IH. rewrite handleDetection_gate.
    destruct (String.eqb _ _);
      [by apply (throughGate_uniformLog fetch now phone_detected) |].
    destruct (String.eqb _ _);
      [by apply (throughGate_uniformLog fetch now book_detected) | assumption].
  - destruct (Interview.isProctoring (page w)); [| assumption].
    simpl. destruct button; unfold demoClick, Interview.addDemoEvent;
      rewrite addEvent_state; simpl; by apply uniformLog_appended.
  - simpl. unfold Interview.updateDuration.
    destruct (Interview.isProctoring (page w)), (Interview.startTimeRef (page w));
      assumption.
  - destruct (_ && _); [| assumption].
    simpl. by destruct (Interview.streamRef (page w)).
  - by destruct (Report.loadReport _ _).
Qed.

Lemma run_uniformLog fetch actions now0 date storage :
  uniformLog (Interview.events (page (run fetch actions (mount now0 date storage)))).
Proof.
  induction actions as [| a actions IH] using rev_ind; [constructor |].
  rewrite run_snoc. by apply step_uniformLog.
Qed.

(** X20. Every event that a page ever logs, from a detector or from a
    demo button, has severity high and the one description of its type;
    the severities low and medium never occur, and two events of one type
    agree in everything but their id and their timestamp. *)
Theorem logged_events_are_uniform fetch actions now0 date storage e1 e2 :
  In e1 (Interview.events (page (run fetch actions (mount now0 date storage)))) ->
  In e2 (Interview.events (page (run fetch actions (mount now0 date storage)))) ->
  Interview.severity e1 = high
  /\ Interview.description e1 = descriptionOf (Interview.type e1)
  /\ (Interview.type e1 = Interview.type e2 ->
      Interview.severity e1 = Interview.severity e2
      /\ Interview.description e1 = Interview.description e2).
Proof.
  intros H1 H2.
  pose proof (run_uniformLog fetch actions now0 date storage) as Hlog.
  unfold uniformLog in Hlog. rewrite List.Forall_forall in Hlog.
  destruct (Hlog e1 H1) as (Hs1 & _ & Hd1). destruct (Hlog e2 H2) as (Hs2 & _ & Hd2).
  split; [assumption | split; [assumption |]].
  intros Htype. split; congruence.
Qed.

Lemma logged_events_are_uniform_witness :
  Interview.severity
    (appended 3001 3002 multiple_faces "Multiple faces detected in frame" high)
  = high.
Proof.
  apply (logged_events_are_uniform online
           [InitializeCamera true; StartProctoring 1000; FaceMeshInitialized;
            FaceResults 3000 (facesSeen 2)] 0 (readingsOf [3001; 3002]) ∅
           (appended 3001 3002 multiple_faces "Multiple faces detected in frame" high)
           (appended 3001 3002 multiple_faces "Multiple faces detected in frame" high));
    vm_compute; tauto.
Defined.
